(** * Exoplanet Hunter: a shallow embedding of [exo_app.py]

    The script is an orchestration layer: it calls pandas, astroquery,
    lightkurve and streamlit.  The embedding keeps the control flow of the
    script as it is written and makes every call that leaves the script
    explicit:

    - calls that reach the network ([pd.read_csv], [Catalogs.query_criteria],
      [lk.search_lightcurve], [download]) take their answer from an oracle
      and are recorded in the trace of effects;
    - calls that write to the page ([st.info], [st.warning], [st.pyplot], ...)
      are recorded in the same trace, in program order;
    - a call that may raise returns a [result]; the exception carries the
      text that [f"{e}"] prints.

    [st.cache_data] only replays a stored answer; one uncached execution of
    each function is modelled. *)

From Stdlib Require Import List String Ascii Bool Arith ZArith QArith Lia.
From Stdlib Require Import DecimalString Sorting.Sorted Sorting.Permutation.
From Stdlib Require Import Qround.
Import ListNotations.

Local Open Scope string_scope.
Local Open Scope list_scope.

(* ================================================================== *)
(** ** Python strings *)
(* ================================================================== *)

(** The text of the script itself, its literals, labels and messages and
    the IDs it prints, is ASCII: such a [str] is modelled as a Rocq
    [string].  The text typed into the search box can be any text; it is
    modelled in [Unicode] below. *)
Module PyStr.

Definition code (c : ascii) : nat := nat_of_ascii c.

Definition in_range (lo hi : nat) (c : ascii) : bool :=
  (lo <=? code c)%nat && (code c <=? hi)%nat.

(** [c.isdigit()] on ASCII: '0'..'9'. *)
Definition is_digit (c : ascii) : bool := in_range 48 57 c.

(** [c.isspace()] on ASCII: TAB..CR, FS..US and the blank. *)
Definition is_space (c : ascii) : bool :=
  in_range 9 13 c || in_range 28 32 c.

Definition upper_char (c : ascii) : ascii :=
  if in_range 97 122 c then ascii_of_nat (code c - 32) else c.

Definition lower_char (c : ascii) : ascii :=
  if in_range 65 90 c then ascii_of_nat (code c + 32) else c.

Fixpoint map_chars (f : ascii -> ascii) (s : string) : string :=
  match s with
  | EmptyString => EmptyString
  | String c s' => String (f c) (map_chars f s')
  end.

(** [s.upper()], [s.lower()] *)
Definition upper (s : string) : string := map_chars upper_char s.
Definition lower (s : string) : string := map_chars lower_char s.

Fixpoint all_chars (p : ascii -> bool) (s : string) : bool :=
  match s with
  | EmptyString => true
  | String c s' => p c && all_chars p s'
  end.

Definition is_empty (s : string) : bool :=
  match s with EmptyString => true | _ => false end.

(** [s.isdigit()]: at least one character, and all of them digits. *)
Definition isdigit (s : string) : bool :=
  negb (is_empty s) && all_chars is_digit s.

(** [s.startswith(p)] *)
Fixpoint startswith (p s : string) : bool :=
  match p, s with
  | EmptyString, _ => true
  | String _ _, EmptyString => false
  | String a p', String b s' => Ascii.eqb a b && startswith p' s'
  end.

(** [sub in s] *)
Fixpoint contains (sub s : string) : bool :=
  startswith sub s ||
  match s with
  | EmptyString => false
  | String _ s' => contains sub s'
  end.

(** [s.replace(old, new)] for a non-empty [old]: the occurrences of [old]
    are taken from the left and do not overlap.  [skip] counts the
    characters of a matched occurrence that are still to be dropped. *)
Fixpoint replace_from (old new : string) (skip : nat) (s : string) : string :=
  match s with
  | EmptyString => EmptyString
  | String c s' =>
      match skip with
      | S k => replace_from old new k s'
      | O =>
          if startswith old s
          then new ++ replace_from old new (String.length old - 1) s'
          else String c (replace_from old new 0 s')
      end
  end.

Definition replace (old new s : string) : string := replace_from old new 0 s.

Fixpoint lstrip (s : string) : string :=
  match s with
  | EmptyString => EmptyString
  | String c s' => if is_space c then lstrip s' else s
  end.

Fixpoint rstrip (s : string) : string :=
  match s with
  | EmptyString => EmptyString
  | String c s' =>
      let r := rstrip s' in
      if is_empty r && is_space c then EmptyString else String c r
  end.

(** [s.strip()] *)
Definition strip (s : string) : string := rstrip (lstrip s).

(** [str(n)] for a Python [int]. *)
Definition str_of_Z (z : Z) : string := NilZero.string_of_int (Z.to_int z).
Definition str_of_nat (n : nat) : string := str_of_Z (Z.of_nat n).

End PyStr.

(* ================================================================== *)
(** ** Exceptions, effects and the script monad *)
(* ================================================================== *)

(** The outcome of a call that may raise.  [Raise msg] stands for an
    exception [e] that [except Exception] catches, with [msg = str(e)]. *)
Inductive result (A : Type) : Type :=
| Ok (a : A)
| Raise (msg : string).
Arguments Ok {A} a.
Arguments Raise {A} msg.

(** The three figures the pipeline hands to [st.pyplot]. *)
Inductive plot : Type :=
| CleanedPlot
| PeriodogramPlot
| FoldedPlot (title : string).

(** What a run does to the page and to the outside world, in order. *)
Inductive effect : Type :=
(* page elements *)
| StInfo (msg : string)
| StWarning (msg : string)
| StSidebarWarning (msg : string)
| StError (msg : string)
| StSuccess (msg : string)
| StWrite (msg : string)
| StToast (msg : string)
| StSubheader (msg : string)
| StSpinner (msg : string)
| StPyplot (fig : plot)
(* the two placeholders of the pipeline *)
| StatusInfo (msg : string)
| StatusSuccess (msg : string)
| StatusEmpty
| ProgressValue (percent : nat)
| ProgressFraction (num den : nat)
| ProgressEmpty
(* the outside world *)
| Sleep (seconds : nat)
| ReadCsv (url : string) (comment : option ascii)
| QueryCriteria (catalog : string) (vmag plx : Z * Z) (pagesize : Z)
| SearchLightcurve (target : string)
    (filters : option (list string * list string))
| Download (index : nat).

Definition trace := list effect.

(** A computation of the script: the effects it performed, then its value
    or the exception that stopped it. *)
Definition M (A : Type) : Type := (trace * result A)%type.

Definition ret {A} (a : A) : M A := ([], Ok a).

Definition bind {A B} (m : M A) (f : A -> M B) : M B :=
  match m with
  | (t, Raise e) => (t, Raise e)
  | (t, Ok a) => let (t', r) := f a in (t ++ t', r)
  end.

Definition emit (e : effect) : M unit := ([e], Ok tt).
Definition lift {A} (r : result A) : M A := ([], r).

(** [try: body except Exception as e: handler(e)] *)
Definition try_except {A} (body : M A) (handler : string -> M A) : M A :=
  match body with
  | (t, Ok a) => (t, Ok a)
  | (t, Raise e) => let (t', r) := handler e in (t ++ t', r)
  end.

Notation "x <- m ;; k" := (bind m (fun x => k))
  (at level 61, m at next level, right associativity).
Notation "m ;;; k" := (bind m (fun _ => k))
  (at level 61, right associativity).

Definition effects {A} (m : M A) : trace := fst m.
Definition outcome {A} (m : M A) : result A := snd m.

(** *** What a trace shows *)

Definition is_plot (e : effect) : bool :=
  match e with StPyplot _ => true | _ => false end.

Definition is_error (e : effect) : bool :=
  match e with StError _ => true | _ => false end.

Definition is_warning (e : effect) : bool :=
  match e with StWarning _ | StSidebarWarning _ => true | _ => false end.

Definition is_search (e : effect) : bool :=
  match e with SearchLightcurve _ _ => true | _ => false end.

(** The figures that reached the page. *)
Definition plots (t : trace) : trace := filter is_plot t.

(** The [st.error] messages that reached the page. *)
Definition errors (t : trace) : trace := filter is_error t.

(** A computation that puts no [st.error] on the page. *)
Definition quiet {A} (m : M A) : Prop := errors (effects m) = [].

(** The warnings that reached the page or its sidebar. *)
Definition warnings (t : trace) : trace := filter is_warning t.

(** The searches sent to the archive. *)
Definition searches (t : trace) : trace := filter is_search t.

(* ================================================================== *)
(** ** The search tab on ASCII text: lines 181-200 of the script *)
(* ================================================================== *)

Module SearchTab.
Import PyStr.

Section Handler.

(** What [lk.search_lightcurve] returns: a collection with a length. *)
Variable SearchResult : Type.
Variable len : SearchResult -> nat.

(** The archive: the answer to a search for [target], with the mission and
    author filters when the call passes them. *)
Variable archive :
  string -> option (list string * list string) -> result SearchResult.

Definition search_lightcurve (target : string)
    (filters : option (list string * list string)) : M SearchResult :=
  emit (SearchLightcurve target filters) ;;; lift (archive target filters).

(** Line 186. *)
Definition search_term (star_id_input : string) : string :=
  strip (replace "EPIC" EmptyString (replace "KIC" EmptyString
    (replace "TIC" EmptyString (upper star_id_input)))).

(** Line 187. *)
Definition is_id_search (star_id_input : string) : bool :=
  isdigit (search_term star_id_input).

(** The body of [if st.button("Search for Data")]: the value is the new
    [st.session_state.search_result]. *)
Definition search_button (star_id_input : string)
    (selected_missions selected_authors : list string)
  : M (option SearchResult) :=
  if is_empty star_id_input then
    emit (StWarning "Please enter a star name.") ;;; ret None
  else
    emit (StSpinner ("Querying for '" ++ star_id_input ++ "'...")) ;;;
    result <-
      (if is_id_search star_id_input then
         emit (StInfo "Numerical ID detected. Searching all available missions and authors...") ;;;
         r <- search_lightcurve star_id_input None ;;
         ret (Some r)
       else
         match selected_missions, selected_authors with
         | _ :: _, _ :: _ =>
             r <- search_lightcurve star_id_input
                    (Some (selected_missions, selected_authors)) ;;
             ret (Some r)
         | _, _ =>
             emit (StSidebarWarning "Please select at least one mission and author for name searches.") ;;;
             ret None
         end) ;;
    match result with
    | Some r =>
        if (0 <? len r)%nat then ret (Some r)
        else emit (StWarning "No data found for the given criteria.") ;;; ret None
    | None =>
        emit (StWarning "No data found for the given criteria.") ;;; ret None
    end.

End Handler.

End SearchTab.

(* ================================================================== *)
(** ** Text as it is typed into the search box *)
(* ================================================================== *)

(** The search box takes any text.  Here a character is its Unicode code
    point and a [str] is the list of its characters.  Python takes from
    the Unicode character database what upper-casing does to a character,
    which characters are blanks and which are digits: below U+0080 these
    rows are written out, above they are read from [tables]. *)
Module Unicode.

Definition text : Type := list N.

Record tables : Type := {
  upper_full : N -> text;
  white_space : N -> bool;
  numeric_digit : N -> bool
}.

(** A literal of the script, which is ASCII. *)
Definition of_ascii (s : string) : text :=
  map N_of_ascii (list_ascii_of_string s).

(** The characters of an ASCII text are below U+0080. *)
Definition ascii_only (s : string) : bool :=
  PyStr.all_chars (fun c => (PyStr.code c <? 128)%nat) s.

(** The bytes of a text in a message or in a request. *)
Definition utf8_char (c : N) : list ascii :=
  if (c <? 128)%N then [ascii_of_N c]
  else if (c <? 2048)%N then
    [ascii_of_N (192 + c / 64); ascii_of_N (128 + c mod 64)]
  else if (c <? 65536)%N then
    [ascii_of_N (224 + c / 4096); ascii_of_N (128 + (c / 64) mod 64);
     ascii_of_N (128 + c mod 64)]
  else
    [ascii_of_N (240 + c / 262144); ascii_of_N (128 + (c / 4096) mod 64);
     ascii_of_N (128 + (c / 64) mod 64); ascii_of_N (128 + c mod 64)].

Definition utf8 (s : text) : string :=
  string_of_list_ascii (flat_map utf8_char s).

Definition between (lo hi c : N) : bool := ((lo <=? c) && (c <=? hi))%N.

Definition is_empty (s : text) : bool :=
  match s with [] => true | _ => false end.

(** [s.startswith(p)] *)
Fixpoint startswith (p s : text) : bool :=
  match p, s with
  | [], _ => true
  | _ :: _, [] => false
  | a :: p', b :: s' => N.eqb a b && startswith p' s'
  end.

(** [s.replace(old, new)] for a non-empty [old]: the occurrences of [old]
    are taken from the left and do not overlap.  [skip] counts the
    characters of a matched occurrence that are still to be dropped. *)
Fixpoint replace_from (old new : text) (skip : nat) (s : text) : text :=
  match s with
  | [] => []
  | c :: s' =>
      match skip with
      | S k => replace_from old new k s'
      | O =>
          if startswith old s
          then new ++ replace_from old new (List.length old - 1) s'
          else c :: replace_from old new 0 s'
      end
  end.

Definition replace (old new s : text) : text := replace_from old new 0 s.

Section Classes.

Variable T : tables.

(** The upper case of one character: a small Latin letter gives its
    capital, any other ASCII character itself. *)
Definition upper_char (c : N) : text :=
  if (c <? 128)%N then [if between 97 122 c then (c - 32)%N else c]
  else upper_full T c.

(** [s.upper()] *)
Definition upper (s : text) : text := flat_map upper_char s.

(** [c.isspace()]: in ASCII TAB..CR, FS..US and the blank. *)
Definition is_space (c : N) : bool :=
  if (c <? 128)%N then between 9 13 c || between 28 32 c
  else white_space T c.

(** [c.isdigit()]: in ASCII '0'..'9'. *)
Definition is_digit (c : N) : bool :=
  if (c <? 128)%N then between 48 57 c else numeric_digit T c.

(** [s.isdigit()]: at least one character, and all of them digits. *)
Definition isdigit (s : text) : bool :=
  negb (is_empty s) && forallb is_digit s.

Fixpoint lstrip (s : text) : text :=
  match s with
  | [] => []
  | c :: s' => if is_space c then lstrip s' else s
  end.

Fixpoint rstrip (s : text) : text :=
  match s with
  | [] => []
  | c :: s' =>
      let r := rstrip s' in
      if is_empty r && is_space c then [] else c :: r
  end.

(** [s.strip()] *)
Definition strip (s : text) : text := rstrip (lstrip s).

End Classes.

End Unicode.

(* ================================================================== *)
(** ** The search tab on any text: lines 181-200 of the script *)
(* ================================================================== *)

Module SearchText.
Import Unicode.

Section Handler.

Variable T : tables.

(** What [lk.search_lightcurve] returns: a collection with a length. *)
Variable SearchResult : Type.
Variable len : SearchResult -> nat.

(** The archive: the answer to a search for [target], with the mission and
    author filters when the call passes them. *)
Variable archive :
  text -> option (list string * list string) -> result SearchResult.

Definition search_lightcurve (target : text)
    (filters : option (list string * list string)) : M SearchResult :=
  emit (SearchLightcurve (utf8 target) filters) ;;;
  lift (archive target filters).

(** Line 186. *)
Definition search_term (star_id_input : text) : text :=
  strip T (replace (of_ascii "EPIC") [] (replace (of_ascii "KIC") []
    (replace (of_ascii "TIC") [] (upper T star_id_input)))).

(** Line 187. *)
Definition is_id_search (star_id_input : text) : bool :=
  isdigit T (search_term star_id_input).

(** The body of [if st.button("Search for Data")], from line 183 on: the
    value is the new [st.session_state.search_result]. *)
Definition search_button (star_id_input : text)
    (selected_missions selected_authors : list string)
  : M (option SearchResult) :=
  if is_empty star_id_input then
    emit (StWarning "Please enter a star name.") ;;; ret None
  else
    emit (StSpinner ("Querying for '" ++ utf8 star_id_input ++ "'...")) ;;;
    result <-
      (if is_id_search star_id_input then
         emit (StInfo "Numerical ID detected. Searching all available missions and authors...") ;;;
         r <- search_lightcurve star_id_input None ;;
         ret (Some r)
       else
         match selected_missions, selected_authors with
         | _ :: _, _ :: _ =>
             r <- search_lightcurve star_id_input
                    (Some (selected_missions, selected_authors)) ;;
             ret (Some r)
         | _, _ =>
             emit (StSidebarWarning "Please select at least one mission and author for name searches.") ;;;
             ret None
         end) ;;
    match result with
    | Some r =>
        if (0 <? len r)%nat then ret (Some r)
        else emit (StWarning "No data found for the given criteria.") ;;; ret None
    | None =>
        emit (StWarning "No data found for the given criteria.") ;;; ret None
    end.

(** [st.session_state.search_result] after the click.  Line 182 sets it
    to [None] before anything else, so [None] is what the session holds
    when the handler raises. *)
Definition search_result_after (run : M (option SearchResult))
  : option SearchResult :=
  match outcome run with
  | Ok stored => stored
  | Raise _ => None
  end.

End Handler.

End SearchText.

(* ================================================================== *)
(** ** The numeric input of the target resolver, in the words of the
       specification *)
(* ================================================================== *)

(** The specification calls an input numeric when its normalization,
    upper-cased, the prefixes TIC, KIC and EPIC removed, whitespace
    stripped, consists entirely of digits.  The definitions of this
    module follow these words, not line 186. *)
Module ResolverSpec.
Import Unicode.

Definition prefixes : list text :=
  [of_ascii "TIC"; of_ascii "KIC"; of_ascii "EPIC"].

(** [word] stands at the front of [s]. *)
Fixpoint begins (word s : text) : bool :=
  match word with
  | [] => true
  | a :: word' =>
      match s with
      | [] => false
      | b :: s' => if N.eq_dec a b then begins word' s' else false
      end
  end.

(** The text without the prefixes: read from the left, each prefix that is
    met is left out.  [skip] counts the characters of a prefix that are
    still to be left out. *)
Fixpoint without_prefixes (skip : nat) (s : text) : text :=
  match s with
  | [] => []
  | c :: rest =>
      match skip with
      | S k => without_prefixes k rest
      | O =>
          match find (fun word => begins word s) prefixes with
          | Some word => without_prefixes (List.length word - 1) rest
          | None => c :: without_prefixes 0 rest
          end
      end
  end.

Section Words.

Variable T : tables.

(** The capital of a character. *)
Definition capital (c : N) : text :=
  if (128 <=? c)%N then upper_full T c
  else if (97 <=? c)%N && (c <=? 122)%N then [(c - 32)%N]
  else [c].

Definition uppercased (s : text) : text := List.concat (map capital s).

(** Whitespace. *)
Definition blank (c : N) : bool :=
  if (128 <=? c)%N then white_space T c
  else existsb (N.eqb c) [9; 10; 11; 12; 13; 28; 29; 30; 31; 32]%N.

(** A digit. *)
Definition digit (c : N) : bool :=
  if (128 <=? c)%N then numeric_digit T c
  else existsb (N.eqb c) [48; 49; 50; 51; 52; 53; 54; 55; 56; 57]%N.

Fixpoint drop_blanks (s : text) : text :=
  match s with
  | [] => []
  | c :: rest => if blank c then drop_blanks rest else s
  end.

(** The text without the whitespace at its two ends. *)
Definition stripped (s : text) : text :=
  rev (drop_blanks (rev (drop_blanks s))).

(** The text consists entirely of digits: it has a character, and each of
    its characters is a digit. *)
Definition all_digits (s : text) : bool :=
  match s with
  | [] => false
  | _ :: _ => forallb digit s
  end.

Definition normalization (input : text) : text :=
  stripped (without_prefixes 0 (uppercased input)).

Definition numeric (input : text) : bool := all_digits (normalization input).

(** A blank or a digit. *)
Definition plain (c : N) : bool := blank c || digit c.

End Words.

(** A text read as plain characters and words of [words]: what is left
    when the words are taken out. *)
Inductive parsed (plain : N -> bool) (words : list text)
  : text -> text -> Prop :=
| parsed_nil : parsed plain words [] []
| parsed_char (c : N) (s left : text) :
    plain c = true -> parsed plain words s left ->
    parsed plain words (c :: s) (c :: left)
| parsed_word (word s left : text) :
    In word words -> parsed plain words s left ->
    parsed plain words (word ++ s) left.

End ResolverSpec.

(* ================================================================== *)
(** ** The light-curve pipeline: [process_selected_data] *)
(* ================================================================== *)

Module Pipeline.
Import PyStr.

(** The lightkurve calls of stages 1 and 2.  Each may raise. *)
Record LightCurveOps : Type := {
  LightCurve : Type;
  (** [lc.remove_nans()] *)
  remove_nans : LightCurve -> result LightCurve;
  (** [len(lc.flux)] *)
  flux_len : LightCurve -> nat;
  (** [lc.normalize()] *)
  normalize : LightCurve -> result LightCurve;
  (** [lk.LightCurveCollection(lcs).stitch()] *)
  stitch : list LightCurve -> result LightCurve
}.

(** The lightkurve and matplotlib calls of stages 3 to 5, over the light
    curves of stages 1 and 2.  Each may raise. *)
Record AnalysisOps (LC : Type) : Type := {
  Periodogram : Type;
  Period : Type;
  Epoch : Type;
  (** [lc.bin(time_bin_size=minutes * u.minute)] *)
  bin : nat -> LC -> result LC;
  (** [lc.flatten()] *)
  flatten : LC -> result LC;
  (** [lc.remove_outliers()] *)
  remove_outliers : LC -> result LC;
  (** [plt.subplots(); lc.plot(ax=ax, ylabel=...)] *)
  plot_lc : LC -> option string -> result unit;
  (** [lc.to_periodogram(method='bls')] *)
  to_periodogram : LC -> result Periodogram;
  (** [periodogram.period_at_max_power] *)
  period_at_max_power : Periodogram -> result Period;
  (** [periodogram.transit_time_at_max_power] *)
  transit_time_at_max_power : Periodogram -> result Epoch;
  (** [f"{period.value:.4f}"] *)
  format_period : Period -> result string;
  (** [plt.subplots(); periodogram.plot(ax=ax)] *)
  plot_periodogram : Periodogram -> result unit;
  (** [lc.fold(period=..., epoch_time=...)] *)
  fold : LC -> Period -> Epoch -> result LC
}.
Arguments Periodogram {LC}.
Arguments Period {LC}.
Arguments Epoch {LC}.
Arguments bin {LC}.
Arguments flatten {LC}.
Arguments remove_outliers {LC}.
Arguments plot_lc {LC}.
Arguments to_periodogram {LC}.
Arguments period_at_max_power {LC}.
Arguments transit_time_at_max_power {LC}.
Arguments format_period {LC}.
Arguments plot_periodogram {LC}.
Arguments fold {LC}.

(** One selected data product: what its [download()] answers. *)
Record SearchItem (LC : Type) : Type := {
  download : result (option LC)
}.
Arguments download {LC}.

Section Run.

Variable L : LightCurveOps.
Variable A : AnalysisOps (LightCurve L).

Local Abbreviation LC := (LightCurve L).

Definition skip_notice (i : nat) : string :=
  "Skipping empty or invalid data for file " ++ str_of_nat (i + 1) ++ ".".

Definition download_notice (i total_files : nat) : string :=
  "⬇️ Downloading and preparing file " ++ str_of_nat (i + 1) ++ " of "
    ++ str_of_nat total_files ++ "...".

Definition start_notice (total_files : nat) : string :=
  "✅ Starting analysis on " ++ str_of_nat total_files
    ++ " selected data products...".

(** Lines 35-40: one segment is kept, normalized, or skipped with a
    notice. *)
Definition prepare (i : nat) (item : SearchItem LC) (processed : list LC)
  : M (list LC) :=
  emit (Download i) ;;;
  lc <- lift (download item) ;;
  match lc with
  | None => emit (StWrite (skip_notice i)) ;;; ret processed
  | Some lc =>
      valid <- lift (remove_nans L lc) ;;
      if (0 <? flux_len L valid)%nat then
        normalized_lc <- lift (normalize L lc) ;;
        ret (processed ++ [normalized_lc])
      else
        emit (StWrite (skip_notice i)) ;;; ret processed
  end.

(** Lines 32-41: the loop [for i in range(total_files)], entered at index
    [i] with the items that are left. *)
Fixpoint download_loop (total_files i : nat) (items : list (SearchItem LC))
    (processed : list LC) : M (list LC) :=
  match items with
  | [] => ret processed
  | item :: rest =>
      emit (StatusInfo (download_notice i total_files)) ;;;
      processed' <- prepare i item processed ;;
      emit (ProgressFraction (i + 1) total_files) ;;;
      download_loop total_files (S i) rest processed'
  end.

(** Stage 1, lines 28-41. *)
Definition stage1 (selected_items : list (SearchItem LC)) : M (list LC) :=
  let total_files := List.length selected_items in
  emit (StatusInfo (start_notice total_files)) ;;;
  emit (ProgressValue 0) ;;;
  download_loop total_files 0 selected_items [].

(** Stage 2, lines 47-48: the stitched series. *)
Definition stage2 (processed_light_curves : list LC) : result LC :=
  match stitch L processed_light_curves with
  | Ok stitched => remove_nans L stitched
  | Raise e => Raise e
  end.

(** Stage 3, lines 50-55. *)
Definition stage3 (lc : LC) : M LC :=
  emit (StatusInfo "🧹 Binning and flattening the light curve to remove noise...") ;;;
  emit ProgressEmpty ;;;
  binned_lc <- lift (bin A 10 lc) ;;
  flat <- lift (flatten A binned_lc) ;;
  clean_lc <- lift (remove_outliers A flat) ;;
  emit (StSubheader "Cleaned & Flattened Light Curve") ;;;
  lift (plot_lc A clean_lc (Some "Normalized Flux")) ;;;
  emit (StPyplot CleanedPlot) ;;;
  ret clean_lc.

(** Stage 4, lines 56-62. *)
Definition stage4 (clean_lc : LC) : M (Period A * Epoch A) :=
  emit (StatusInfo "🔍 Searching for periodic transit signals...") ;;;
  periodogram <- lift (to_periodogram A clean_lc) ;;
  planet_period <- lift (period_at_max_power A periodogram) ;;
  planet_transit_time <- lift (transit_time_at_max_power A periodogram) ;;
  days <- lift (format_period A planet_period) ;;
  emit (StSuccess ("Strongest signal found at a period of: **" ++ days
                     ++ " days**")) ;;;
  emit (StSubheader "Finding a Repeating Signal (Periodogram)") ;;;
  lift (plot_periodogram A periodogram) ;;;
  emit (StPyplot PeriodogramPlot) ;;;
  ret (planet_period, planet_transit_time).

(** Stage 5, lines 63-67. *)
Definition stage5 (clean_lc : LC) (planet_period : Period A)
    (planet_transit_time : Epoch A) : M unit :=
  emit (StatusInfo "🌟 Folding the light curve to reveal the transit...") ;;;
  folded_lc <- lift (fold A clean_lc planet_period planet_transit_time) ;;
  emit (StSubheader "Folded Light Curve: The Final Proof") ;;;
  lift (plot_lc A folded_lc None) ;;;
  days <- lift (format_period A planet_period) ;;
  emit (StPyplot (FoldedPlot ("Light Curve Folded at " ++ days ++ " days"))) ;;;
  emit (StatusSuccess "🎉 Analysis Complete!").

Definition no_data_message : string :=
  "Could not process any of the selected light curve data.".

(** Lines 42-67: what follows the loop. *)
Definition after_download (processed_light_curves : list LC) : M unit :=
  match processed_light_curves with
  | [] =>
      emit (StError no_data_message) ;;;
      emit StatusEmpty ;;; emit ProgressEmpty
  | _ :: _ =>
      emit (StatusInfo "⚙️ All files processed. Stitching data segments together...") ;;;
      lc <- lift (stage2 processed_light_curves) ;;
      emit (Sleep 1) ;;;
      clean_lc <- stage3 lc ;;
      found <- stage4 clean_lc ;;
      stage5 clean_lc (fst found) (snd found)
  end.

(** The body of the [try], lines 28-67. *)
Definition pipeline_body (selected_items : list (SearchItem LC)) : M unit :=
  processed_light_curves <- stage1 selected_items ;;
  after_download processed_light_curves.

(** The handler, lines 69-70. *)
Definition failure_message (e : string) : string :=
  "An error occurred during analysis: " ++ e.

Definition on_exception (e : string) : M unit :=
  emit (StError (failure_message e)) ;;;
  emit StatusEmpty ;;; emit ProgressEmpty.

Definition process_selected_data (selected_items : list (SearchItem LC))
  : M unit :=
  try_except (pipeline_body selected_items) on_exception.

End Run.

(** A data product stage 1 discards: its download is null, or no sample
    is left once the null-flux samples are removed. *)
Definition discarded (L : LightCurveOps) (item : SearchItem (LightCurve L))
  : Prop :=
  download item = Ok None \/
  exists lc valid,
    download item = Ok (Some lc) /\ remove_nans L lc = Ok valid /\
    flux_len L valid = 0%nat.

(** What the loop puts on the page for the discarded product [i]. *)
Definition skipped (total_files i : nat) : trace :=
  [ StatusInfo (download_notice i total_files); Download i;
    StWrite (skip_notice i); ProgressFraction (i + 1) total_files ].

End Pipeline.

(* ================================================================== *)
(** ** Light curves as time series *)
(* ================================================================== *)

Module Series.

(** One cadence.  A flux of [None] is a null (NaN) flux. *)
Record sample : Type := {
  time : Q;
  flux : option Q;
  flux_err : option Q
}.

(** A light curve: its cadences in storage order. *)
Definition series : Type := list sample.

Definition has_flux (x : sample) : bool :=
  match flux x with Some _ => true | None => false end.

Definition times (lc : series) : list Q := map time lc.

(** Timestamps never go down from one cadence to the next. *)
Definition nondecreasing (ts : list Q) : Prop := Sorted Qle ts.

(** A cadence put into a series that is held in time order: in front of
    the first cadence that is not earlier than it. *)
Fixpoint insert_by_time (x : sample) (lc : series) : series :=
  match lc with
  | [] => [x]
  | y :: rest =>
      if Qle_bool (time x) (time y) then x :: lc
      else y :: insert_by_time x rest
  end.

(** The cadences of a series put in time order; cadences with the same
    timestamp keep their order. *)
Definition sort_by_time (lc : series) : series :=
  fold_right insert_by_time [] lc.

(** The part of [x] that is left over a whole number of steps of [p]. *)
Definition Qmod (x p : Q) : Q := (x - p * inject_Z (Qfloor (x / p)))%Q.

(** Modelled from the spec: the phase of a timestamp is the timestamp
    modulo the detected period, anchored at the detected epoch: the time
    since the epoch, less the whole periods in it. *)
Definition phase (period epoch_time t : Q) : Q :=
  Qmod (t - epoch_time) period.

Definition fold_sample (period epoch_time : Q) (x : sample) : sample :=
  {| time := phase period epoch_time (time x);
     flux := flux x;
     flux_err := flux_err x |}.

(** Modelled from the spec: lightkurve's [fold] is not part of the
    repository; the specification has it re-express the timestamps of the
    cleaned series modulo the detected period, anchored at the detected
    transit epoch, the fluxes staying as they are. *)
Definition fold (period epoch_time : Q) (clean_lc : series) : series :=
  map (fold_sample period epoch_time) clean_lc.

Section Model.

(** The flux of one cadence brought to the baseline of its light curve
    (lightkurve divides by the median flux of the curve). *)
Variable rescale : series -> option Q -> option Q.

(** Modelled from the spec: lightkurve's [remove_nans] is not part of the
    repository; the specification has it drop the null-flux samples. *)
Definition remove_nans (lc : series) : series := filter has_flux lc.

(** Modelled from the spec: lightkurve's [normalize] is not part of the
    repository; the specification has it scale the flux of a segment to a
    common baseline, the timestamps staying as they are. *)
Definition normalize (lc : series) : series :=
  map (fun x => {| time := time x;
                   flux := rescale lc (flux x);
                   flux_err := rescale lc (flux_err x) |}) lc.

(** Modelled from the spec: lightkurve's [stitch] is not part of the
    repository; the specification has the stitched series be the
    concatenation of the segments, sorted by timestamp (one ordered
    series). *)
Definition stitch (lcs : list series) : series :=
  sort_by_time (List.concat lcs).

Definition ops : Pipeline.LightCurveOps := {|
  Pipeline.LightCurve := series;
  Pipeline.remove_nans := fun lc => Ok (remove_nans lc);
  Pipeline.flux_len := fun lc => List.length lc;
  Pipeline.normalize := fun lc => Ok (normalize lc);
  Pipeline.stitch := fun lcs => Ok (stitch lcs)
|}.

(** The stitched series of stage 2 for the segments stage 1 retained. *)
Definition stitched (retained : list series) : result series :=
  Pipeline.stage2 ops (map normalize retained).

End Model.

(** A retained segment has at least one sample with a flux. *)
Definition retained_segment (lc : series) : Prop := remove_nans lc <> [].

End Series.

(* ================================================================== *)
(** ** Tables *)
(* ================================================================== *)

Module Pandas.
Import PyStr.

(** A cell: an integer, a text, or the missing value.  The real-valued
    columns of the catalogues (period, radius, magnitude) are carried
    along by the script and never inspected. *)
Inductive value : Type :=
| VInt (z : Z)
| VStr (s : string)
| VNaN.

Definition value_eqb (a b : value) : bool :=
  match a, b with
  | VInt x, VInt y => Z.eqb x y
  | VStr x, VStr y => String.eqb x y
  | VNaN, VNaN => true
  | _, _ => false
  end.

(** A [DataFrame]: the column labels and the rows, each row holding one
    cell per label.  [read_csv] and astropy deliver distinct labels; a
    lookup by label takes the first column of that label. *)
Record DataFrame : Type := {
  columns : list string;
  rows : list (list value)
}.

(** [pd.DataFrame()] *)
Definition empty_frame : DataFrame := {| columns := []; rows := [] |}.

(** [len(df)] *)
Definition len (df : DataFrame) : nat := List.length (rows df).

(** [df.empty]: one of the two axes has length 0. *)
Definition empty (df : DataFrame) : bool :=
  match columns df, rows df with
  | _ :: _, _ :: _ => false
  | _, _ => true
  end.

Fixpoint index_of (label : string) (labels : list string) : option nat :=
  match labels with
  | [] => None
  | l :: rest =>
      if String.eqb label l then Some 0%nat
      else option_map S (index_of label rest)
  end.

(** [label in df.columns] *)
Definition has_column (label : string) (labels : list string) : bool :=
  match index_of label labels with Some _ => true | None => false end.

Definition cell (i : nat) (row : list value) : value := nth i row VNaN.

(** The cell of [row] under [label]. *)
Definition lookup (df : DataFrame) (label : string) (row : list value)
  : option value :=
  option_map (fun i => cell i row) (index_of label (columns df)).

Definition dquote : string := String (ascii_of_nat 34) EmptyString.

(** [str(KeyError(label))] *)
Definition key_error (label : string) : string := "'" ++ label ++ "'".

(** [df[label]]: the column, or [KeyError]. *)
Definition get_column (df : DataFrame) (label : string)
  : result (list value) :=
  match index_of label (columns df) with
  | Some i => Ok (map (cell i) (rows df))
  | None => Raise (key_error label)
  end.

(** [column.isin(values)] *)
Definition isin (values : list value) (column : list value) : list bool :=
  map (fun v => existsb (value_eqb v) values) column.

(** [df[mask]] *)
Definition select_rows (mask : list bool) (df : DataFrame) : DataFrame :=
  {| columns := columns df;
     rows := map snd (filter fst (combine mask (rows df))) |}.

Definition rename_label (mapping : list (string * string)) (label : string)
  : string :=
  match find (fun kv => String.eqb label (fst kv)) mapping with
  | Some kv => snd kv
  | None => label
  end.

(** [df.rename(columns=mapping)] *)
Definition rename (mapping : list (string * string)) (df : DataFrame)
  : DataFrame :=
  {| columns := map (rename_label mapping) (columns df); rows := rows df |}.

Fixpoint positions (labels : list string) (have : list string)
  : result (list nat) :=
  match labels with
  | [] => Ok []
  | l :: rest =>
      match index_of l have with
      | None => Raise (dquote ++ "['" ++ l ++ "'] not in index" ++ dquote)
      | Some i =>
          match positions rest have with
          | Ok ix => Ok (i :: ix)
          | Raise e => Raise e
          end
      end
  end.

(** [df[labels]]: the listed columns in the listed order, or [KeyError]. *)
Definition select_columns (labels : list string) (df : DataFrame)
  : result DataFrame :=
  match positions labels (columns df) with
  | Ok ix =>
      Ok {| columns := labels;
            rows := map (fun row => map (fun i => cell i row) ix) (rows df) |}
  | Raise e => Raise e
  end.

Fixpoint set_nth (i : nat) (v : value) (row : list value) : list value :=
  match row, i with
  | [], _ => []
  | _ :: rest, O => v :: rest
  | x :: rest, S k => x :: set_nth k v rest
  end.

(** [df[label] = column] *)
Definition set_column (label : string) (column : list value)
    (df : DataFrame) : DataFrame :=
  match index_of label (columns df) with
  | Some i =>
      {| columns := columns df;
         rows := map (fun rv => set_nth i (snd rv) (fst rv))
                     (combine (rows df) column) |}
  | None =>
      {| columns := columns df ++ [label];
         rows := map (fun rv => fst rv ++ [snd rv])
                     (combine (rows df) column) |}
  end.

(** [str(v)], as [column.astype(str)] applies it to each cell. *)
Definition astype_str (v : value) : string :=
  match v with
  | VInt z => str_of_Z z
  | VStr s => s
  | VNaN => "nan"
  end.

(** [prefix + column.astype(str)] *)
Definition prefixed (prefix : string) (column : list value) : list value :=
  map (fun v => VStr (prefix ++ astype_str v)) column.

Fixpoint remove_nth {A} (k : nat) (l : list A) : list A :=
  match l, k with
  | [], _ => []
  | _ :: rest, O => rest
  | x :: rest, S j => x :: remove_nth j rest
  end.

(** [n] rows drawn without replacement: each draw picks one of the rows
    that are left.  [draws] is the random source. *)
Fixpoint sample_rows {A} (draws : list nat) (n : nat) (l : list A) : list A :=
  match n, l with
  | O, _ => []
  | _, [] => []
  | S n', x :: _ =>
      let k := (hd 0%nat draws mod List.length l)%nat in
      nth k l x :: sample_rows (tl draws) n' (remove_nth k l)
  end.

(** [df.sample(n=n)]: [ValueError] for a negative or too large [n]. *)
Definition sample (draws : list nat) (n : Z) (df : DataFrame)
  : result DataFrame :=
  if (n <? 0)%Z then
    Raise "A negative number of rows requested. Please provide `n` >= 0."
  else if (Z.of_nat (len df) <? n)%Z then
    Raise "Cannot take a larger sample than population when 'replace=False'"
  else
    Ok {| columns := columns df;
          rows := sample_rows draws (Z.to_nat n) (rows df) |}.

End Pandas.

(* ================================================================== *)
(** ** The catalog client *)
(* ================================================================== *)

Module Catalog.
Import PyStr Pandas.

Definition toi_url : string :=
  "https://exofop.ipac.caltech.edu/tess/download_toi.php?sort=toi&output=csv".

Definition koi_url : string :=
  "https://exoplanetarchive.ipac.caltech.edu/cgi-bin/nstedAPI/nph-nstedAPI?table=cumulative&select=kepid,koi_disposition,koi_period,koi_prad&format=csv".

(** The five variables lines 78-89 set for a mission. *)
Record selection : Type := {
  url : string;
  id_col : string;
  prefix : string;
  disposition_col : string;
  dispositions_to_find : list value
}.

(** Lines 81-82 and 86-87: the catalogue of a mission. *)
Definition tess (dispositions : list value) : selection :=
  {| url := toi_url;
     id_col := "TIC ID"; prefix := "TIC ";
     disposition_col := "TFOPWG Disposition";
     dispositions_to_find := dispositions |}.

Definition kepler (dispositions : list value) : selection :=
  {| url := koi_url;
     id_col := "kepid"; prefix := "KIC ";
     disposition_col := "koi_disposition";
     dispositions_to_find := dispositions |}.

(** Lines 80-91: [None] is the [else] branch, which returns at once. *)
Definition select_catalog (mission_name disposition_type : string)
  : option selection :=
  if String.eqb mission_name "TESS" then
    Some (tess (if String.eqb disposition_type "PLANETS"
                then [VStr "CP"; VStr "PC"] else [VStr "FP"]))
  else if String.eqb mission_name "Kepler" || String.eqb mission_name "K2" then
    Some (kepler (if String.eqb disposition_type "PLANETS"
                  then [VStr "CONFIRMED"; VStr "CANDIDATE"]
                  else [VStr "FALSE POSITIVE"]))
  else None.

(** Lines 100-104. *)
Definition column_map (c : selection) : list (string * string) :=
  [ (id_col c, "Searchable ID"); (disposition_col c, "Status");
    ("Period (days)", "Orbital Period (days)");
    ("koi_period", "Orbital Period (days)");
    ("Planet Radius (R_earth)", "Planet Radius (Earths)");
    ("koi_prad", "Planet Radius (Earths)") ].

(** Line 143. *)
Definition display_names : list (string * string) :=
  [ ("ID", "Searchable ID"); ("Tmag", "TESS Magnitude");
    ("dst", "Distance (pc)") ].

(** Line 147. *)
Definition final_columns : list string :=
  [ "Searchable ID"; "TESS Magnitude"; "Distance (pc)"; "ra"; "dec" ].

(** Line 93. *)
Definition comment_char (u : string) : option ascii :=
  if contains "kepler" (lower u) then Some "#"%char else None.

(** A frame is rectangular: each row holds one cell per label. *)
Definition rectangular (df : DataFrame) : Prop :=
  Forall (fun row => List.length row = List.length (columns df)) (rows df).

(** A row of the planet-candidate table of TESS: a searchable ID that
    starts with [TIC ] and a status of CP or PC. *)
Definition tess_planet_row (df : DataFrame) (row : list value) : Prop :=
  (exists s, lookup df "Searchable ID" row = Some (VStr s) /\
             startswith "TIC " s = true) /\
  (lookup df "Status" row = Some (VStr "CP") \/
   lookup df "Status" row = Some (VStr "PC")).

(** A row of the untested-target table shows a known object: its
    searchable ID is [TIC ] and the text of one of the [known] IDs. *)
Definition shows_known (known : list value) (df : DataFrame)
    (row : list value) : Prop :=
  exists id, In id known /\
             lookup df "Searchable ID" row
             = Some (VStr ("TIC " ++ astype_str id)).

(** Lines 100-107: the sampled rows under the display labels, the ID
    column prefixed. *)
Definition display (c : selection) (final_sample : DataFrame)
  : result DataFrame :=
  let available_cols :=
    filter (fun col => has_column col (columns final_sample))
           (map fst (column_map c)) in
  match select_columns available_cols final_sample with
  | Raise e => Raise e
  | Ok selected =>
      let result_df := rename (column_map c) selected in
      match get_column result_df "Searchable ID" with
      | Raise e => Raise e
      | Ok ids =>
          Ok (set_column "Searchable ID" (prefixed (prefix c) ids) result_df)
      end
  end.

(** Lines 138-149: the sampled stars that are not on the list of known
    IDs, under the display labels. *)
Definition untested (known_toi_tics : list value) (tic_sample_df : DataFrame)
  : result DataFrame :=
  match get_column tic_sample_df "ID" with
  | Raise e => Raise e
  | Ok sampled_ids =>
      let untested_mask := map negb (isin known_toi_tics sampled_ids) in
      let untested_df := select_rows untested_mask tic_sample_df in
      let untested_df := rename display_names untested_df in
      match get_column untested_df "Searchable ID" with
      | Raise e => Raise e
      | Ok ids =>
          let untested_df :=
            set_column "Searchable ID" (prefixed "TIC " ids) untested_df in
          let available_final_cols :=
            filter (fun col => has_column col (columns untested_df))
                   final_columns in
          select_columns available_final_cols untested_df
      end
  end.

Section Client.

(** What [pd.read_csv(url, comment=...)] answers. *)
Variable csv : string -> option ascii -> result DataFrame.

(** What [Catalogs.query_criteria(catalog=..., Vmag=..., plx=...,
    pagesize=...).to_pandas()] answers. *)
Variable tic : string -> Z * Z -> Z * Z -> Z -> result DataFrame.

(** The random source of [DataFrame.sample]. *)
Variable draws : list nat.

Definition read_csv (u : string) (comment : option ascii) : M DataFrame :=
  emit (ReadCsv u comment) ;;; lift (csv u comment).

Definition query_criteria (catalog : string) (vmag plx : Z * Z)
    (pagesize : Z) : M DataFrame :=
  emit (QueryCriteria catalog vmag plx pagesize) ;;;
  lift (tic catalog vmag plx pagesize).

(** Lines 93-108, for the selection [c] of a known mission. *)
Definition fetch_selected (c : selection) (num_targets : Z) : M DataFrame :=
  catalog_df <- read_csv (url c) (comment_char (url c)) ;;
  dispositions <- lift (get_column catalog_df (disposition_col c)) ;;
  let filtered_df :=
    select_rows (isin (dispositions_to_find c) dispositions) catalog_df in
  if empty filtered_df then ret empty_frame
  else
    final_sample <-
      lift (sample draws (Z.min num_targets (Z.of_nat (len filtered_df)))
              filtered_df) ;;
    lift (display c final_sample).

(** [fetch_catalog_targets], lines 74-111. *)
Definition fetch_catalog_targets (mission_name disposition_type : string)
    (num_targets : Z) : M DataFrame :=
  try_except
    (match select_catalog mission_name disposition_type with
     | None => ret empty_frame
     | Some c => fetch_selected c num_targets
     end)
    (fun e =>
       emit (StWarning ("Could not dynamically fetch targets: " ++ e)) ;;;
       ret empty_frame).

(** The body of the [try] of [fetch_untested_targets], lines 122-149. *)
Definition untested_body (num_to_sample : Z) : M DataFrame :=
  emit (StToast "Downloading the list of known planet candidates (TOIs)...") ;;;
  toi_df <- read_csv toi_url None ;;
  known_toi_tics <- lift (get_column toi_df "TIC ID") ;;
  emit (StToast "Fetching a random sample of stars from the TESS Input Catalog...") ;;;
  tic_sample_df <- query_criteria "TIC" (9, 13)%Z (2, 100)%Z num_to_sample ;;
  lift (untested known_toi_tics tic_sample_df).

(** [fetch_untested_targets], lines 115-153. *)
Definition fetch_untested_targets (num_to_sample : Z) : M DataFrame :=
  try_except (untested_body num_to_sample)
    (fun e =>
       emit (StWarning ("Could not fetch untested targets: " ++ e)) ;;;
       ret empty_frame).

End Client.

End Catalog.

(* ================================================================== *)
(** ** Sample inputs *)
(* ================================================================== *)

Module Demo.
Import Pipeline.

(** A library whose light curves carry no data: every call of stages 1
    and 2 answers, and every curve has one valid sample. *)
Definition curves : LightCurveOps := {|
  LightCurve := unit;
  remove_nans := fun lc => Ok lc;
  flux_len := fun _ => 1%nat;
  normalize := fun lc => Ok lc;
  stitch := fun _ => Ok tt
|}.

(** Stages 3 to 5 where the periodic search finds nothing to work on. *)
Definition failing_search : AnalysisOps unit := {|
  Periodogram := unit;
  Period := unit;
  Epoch := unit;
  bin := fun _ lc => Ok lc;
  flatten := fun lc => Ok lc;
  remove_outliers := fun lc => Ok lc;
  plot_lc := fun _ _ => Ok tt;
  to_periodogram := fun _ => Raise "No valid data for the periodogram";
  period_at_max_power := fun _ => Ok tt;
  transit_time_at_max_power := fun _ => Ok tt;
  format_period := fun _ => Ok "3.1416";
  plot_periodogram := fun _ => Ok tt;
  fold := fun lc _ _ => Ok lc
|}.

(** Stages 3 to 5 where every call answers. *)
Definition search : AnalysisOps unit := {|
  Periodogram := unit;
  Period := unit;
  Epoch := unit;
  bin := fun _ lc => Ok lc;
  flatten := fun lc => Ok lc;
  remove_outliers := fun lc => Ok lc;
  plot_lc := fun _ _ => Ok tt;
  to_periodogram := fun _ => Ok tt;
  period_at_max_power := fun _ => Ok tt;
  transit_time_at_max_power := fun _ => Ok tt;
  format_period := fun _ => Ok "3.1416";
  plot_periodogram := fun _ => Ok tt;
  fold := fun lc _ _ => Ok lc
|}.

(** One product that downloads. *)
Definition one_product : list (SearchItem unit) :=
  [ {| download := Ok (Some tt) |} ].

(** Two products whose download is null. *)
Definition null_products : list (SearchItem unit) :=
  [ {| download := Ok None |}; {| download := Ok None |} ].

(** The flux left as it is: a baseline of 1. *)
Definition unit_baseline (_ : Series.series) (f : option Q) : option Q := f.

Definition cadence (t f : Q) : Series.sample :=
  {| Series.time := t; Series.flux := Some f; Series.flux_err := None |}.

(** Two observing runs, each in time order. *)
Definition first_run : Series.series :=
  [ cadence 1 1; cadence 2 (99 # 100) ]%Q.
Definition second_run : Series.series :=
  [ cadence 30 1; cadence 31 (101 # 100) ]%Q.

(** The two runs selected in time order, and the later one first. *)
Definition in_order : list Series.series := [ first_run; second_run ].
Definition later_first : list Series.series := [ second_run; first_run ].

(** A transiting-object catalogue of four objects. *)
Definition toi_table : Pandas.DataFrame := {|
  Pandas.columns := ["TOI"; "TIC ID"; "TFOPWG Disposition"; "Period (days)"];
  Pandas.rows :=
    [ [Pandas.VInt 101; Pandas.VInt 100; Pandas.VStr "CP"; Pandas.VInt 3];
      [Pandas.VInt 102; Pandas.VInt 200; Pandas.VStr "FP"; Pandas.VInt 4];
      [Pandas.VInt 103; Pandas.VInt 300; Pandas.VStr "PC"; Pandas.VInt 5];
      [Pandas.VInt 104; Pandas.VInt 400; Pandas.VStr "PC"; Pandas.VNaN] ]
|}.

(** A star catalogue answer of three stars, the first a known object. *)
Definition star_table : Pandas.DataFrame := {|
  Pandas.columns := ["ID"; "ra"; "dec"; "Tmag"; "dst"];
  Pandas.rows :=
    [ [Pandas.VInt 100; Pandas.VInt 10; Pandas.VInt 20; Pandas.VInt 9;
       Pandas.VInt 50];
      [Pandas.VInt 101; Pandas.VInt 11; Pandas.VInt 21; Pandas.VInt 10;
       Pandas.VInt 60];
      [Pandas.VInt 102; Pandas.VInt 12; Pandas.VInt 22; Pandas.VInt 11;
       Pandas.VInt 70] ]
|}.

(** A transiting-object catalogue of false positives only. *)
Definition fp_table : Pandas.DataFrame := {|
  Pandas.columns := ["TIC ID"; "TFOPWG Disposition"];
  Pandas.rows :=
    [ [Pandas.VInt 200; Pandas.VStr "FP"];
      [Pandas.VInt 201; Pandas.VStr "FP"] ]
|}.

(** The transiting-object archive answers with [toi_table]. *)
Definition toi_csv (_ : string) (_ : option ascii)
  : result Pandas.DataFrame := Ok toi_table.

(** The archive is out of reach. *)
Definition failing_csv (_ : string) (_ : option ascii)
  : result Pandas.DataFrame := Raise "HTTP Error 503: Service Unavailable".

(** The star catalogue answers with all of [star_table], whatever the page
    size. *)
Definition star_query (_ : string) (_ _ : Z * Z) (_ : Z)
  : result Pandas.DataFrame := Ok star_table.

(** The same three stars with the ID column held as text, not as
    integers. *)
Definition text_star_table : Pandas.DataFrame := {|
  Pandas.columns := ["ID"; "ra"; "dec"; "Tmag"; "dst"];
  Pandas.rows :=
    [ [Pandas.VStr "100"; Pandas.VInt 10; Pandas.VInt 20; Pandas.VInt 9;
       Pandas.VInt 50];
      [Pandas.VStr "101"; Pandas.VInt 11; Pandas.VInt 21; Pandas.VInt 10;
       Pandas.VInt 60];
      [Pandas.VStr "102"; Pandas.VInt 12; Pandas.VInt 22; Pandas.VInt 11;
       Pandas.VInt 70] ]
|}.

Definition text_star_query (_ : string) (_ _ : Z * Z) (_ : Z)
  : result Pandas.DataFrame := Ok text_star_table.

(** Some rows of the Unicode character database above ASCII: the capitals
    of the small letters of Latin-1, the blanks (the no-break space among
    them), and the superscript and Arabic-Indic digits. *)
Definition unicode_rows : Unicode.tables := {|
  Unicode.upper_full := fun c =>
    if (c =? 223)%N then [83; 83]%N
    else if Unicode.between 224 254 c && negb (c =? 247)%N then [(c - 32)%N]
    else [c];
  Unicode.white_space := fun c =>
    existsb (N.eqb c) [133; 160; 5760; 8232; 8233; 8239; 8287; 12288]%N
    || Unicode.between 8192 8202 c;
  Unicode.numeric_digit := fun c =>
    existsb (N.eqb c) [178; 179; 185]%N || Unicode.between 1632 1641 c
|}.

(** [tic 261136679] typed in small letters, with a no-break space after
    the prefix and a blank at the end. *)
Definition typed_id : Unicode.text :=
  (Unicode.of_ascii "tic" ++ [160] ++ Unicode.of_ascii "261136679 ")%N.

(** A star name with an accent. *)
Definition typed_name : Unicode.text :=
  (Unicode.of_ascii "Proxima Centauri " ++ [233])%N.

End Demo.

From Stdlib Require DecimalPos.

(* ================================================================== *)
(** ** More of what a trace shows *)
(* ================================================================== *)

Definition is_download (e : effect) : bool :=
  match e with Download _ => true | _ => false end.

Definition is_fetch (e : effect) : bool :=
  match e with ReadCsv _ _ | QueryCriteria _ _ _ _ => true | _ => false end.

(** The products that were downloaded, in order. *)
Definition downloads (t : trace) : trace := filter is_download t.

(** The requests sent to the two catalogues, in order. *)
Definition fetches (t : trace) : trace := filter is_fetch t.

(* ================================================================== *)
(** ** What stage 1 does with one product *)
(* ================================================================== *)

Module Stage1.
Import Pipeline.

(** A product stage 1 retains, with the normalized curve it hands on: the
    download answers with a curve, a sample is left once the null-flux
    samples are removed, and the curve normalizes. *)
Definition retained (L : LightCurveOps) (item : SearchItem (LightCurve L))
    (normalized_lc : LightCurve L) : Prop :=
  exists lc valid,
    download item = Ok (Some lc) /\ remove_nans L lc = Ok valid /\
    (0 < flux_len L valid)%nat /\ normalize L lc = Ok normalized_lc.

(** How stage 1 handles a product whose calls all answer: [Some] curve
    when it is retained, [None] when it is discarded. *)
Definition handled (L : LightCurveOps) (item : SearchItem (LightCurve L))
    (kept : option (LightCurve L)) : Prop :=
  match kept with
  | Some normalized_lc => retained L item normalized_lc
  | None => discarded L item
  end.

(** A product on which stage 1 raises [e]: its download raises, or the
    removal of its null-flux samples does, or its normalization does. *)
Definition raising (L : LightCurveOps) (item : SearchItem (LightCurve L))
    (e : string) : Prop :=
  download item = Raise e \/
  exists lc,
    download item = Ok (Some lc) /\
    (remove_nans L lc = Raise e \/
     exists valid,
       remove_nans L lc = Ok valid /\ (0 < flux_len L valid)%nat /\
       normalize L lc = Raise e).

(** The curves among the handled products. *)
Definition kept_curves {X} (ks : list (option X)) : list X :=
  flat_map (fun k => match k with Some x => [x] | None => [] end) ks.

End Stage1.

(* ================================================================== *)
(** ** What the rows of the catalog tables show *)
(* ================================================================== *)

Module CatalogRows.
Import PyStr Pandas Catalog.

(** A row of the table [fetch_catalog_targets] returns for the catalogue
    [c]: a searchable ID that starts with the prefix of the catalogue and
    a status that is one of the wanted dispositions. *)
Definition catalog_row (c : selection) (df : DataFrame) (row : list value)
  : Prop :=
  (exists s, lookup df "Searchable ID" row = Some (VStr s) /\
             startswith (prefix c) s = true) /\
  (exists v, lookup df "Status" row = Some v /\
             In v (dispositions_to_find c)).

(** The rows of a catalogue whose cell [d] is a wanted disposition. *)
Definition matching (c : selection) (d : nat) (catalog_df : DataFrame)
  : list (list value) :=
  filter (fun r => existsb (value_eqb (cell d r)) (dispositions_to_find c))
         (rows catalog_df).

(** The sampled stars whose cell [i] equals none of the [known] cells, as
    [isin] compares them: an integer with an integer, a text with a text,
    and never an integer with a text. *)
Definition unmatched_stars (known : list value) (i : nat)
    (tic_sample_df : DataFrame) : list (list value) :=
  filter (fun r => negb (existsb (value_eqb (cell i r)) known))
         (rows tic_sample_df).

(** The searchable ID the untested-target table shows for a star. *)
Definition shown_id (i : nat) (r : list value) : option value :=
  Some (VStr ("TIC " ++ astype_str (cell i r))).

End CatalogRows.

Module Samples.
Import Pipeline.

(** A sort order for data products: those whose download is null in
    front of the others, each group in the order it had. *)
Definition null_first (items : list (SearchItem unit))
  : list (SearchItem unit) :=
  filter (fun item => match download item with
                      | Ok None => true | _ => false end) items
  ++ filter (fun item => match download item with
                         | Ok None => false | _ => true end) items.

(** A product whose download times out between two that download. *)
Definition interrupted_products : list (SearchItem unit) :=
  [ {| download := Ok (Some tt) |}; {| download := Raise "Timeout" |};
    {| download := Ok (Some tt) |} ].

(** A product that downloads between two whose download is null. *)
Definition mixed_products : list (SearchItem unit) :=
  [ {| download := Ok None |}; {| download := Ok (Some tt) |};
    {| download := Ok None |} ].

(** A Kepler candidate table. *)
Definition koi_table : Pandas.DataFrame := {|
  Pandas.columns := ["kepid"; "koi_disposition"; "koi_period"; "koi_prad"];
  Pandas.rows :=
    [ [Pandas.VInt 10797460; Pandas.VStr "CONFIRMED"; Pandas.VInt 9;
       Pandas.VInt 2];
      [Pandas.VInt 10811496; Pandas.VStr "CANDIDATE"; Pandas.VInt 19;
       Pandas.VInt 14];
      [Pandas.VInt 10848459; Pandas.VStr "FALSE POSITIVE"; Pandas.VInt 1;
       Pandas.VInt 33] ]
|}.

(** A transiting-object table that lost its ID column. *)
Definition toi_without_ids : Pandas.DataFrame := {|
  Pandas.columns := ["TOI"; "TFOPWG Disposition"];
  Pandas.rows :=
    [ [Pandas.VInt 101; Pandas.VStr "CP"];
      [Pandas.VInt 102; Pandas.VStr "PC"] ]
|}.

(** The star catalogue is out of reach. *)
Definition failing_query (_ : string) (_ _ : Z * Z) (_ : Z)
  : result Pandas.DataFrame := Raise "Timeout".

End Samples.

(* ================================================================== *)
(** ** More Python text: [split] and [int] *)
(* ================================================================== *)

Module PyText.
Import PyStr.

(** [s.split(sep)] for a separator of one character: the pieces between
    the separators, at least one piece. *)
Fixpoint split (sep : ascii) (s : string) : list string :=
  match s with
  | EmptyString => [EmptyString]
  | String c s' =>
      if Ascii.eqb c sep then EmptyString :: split sep s'
      else
        match split sep s' with
        | piece :: pieces => String c piece :: pieces
        | [] => [String c EmptyString]
        end
  end.

(** [pieces[-1]] *)
Definition last_piece (pieces : list string) : string :=
  last pieces EmptyString.

Definition digit_value (c : ascii) : Z := Z.of_nat (code c - 48).

(** The digits of a decimal literal, read from the left; one underscore
    may stand between two digits.  [after_digit] tells whether the
    character just read was a digit. *)
Fixpoint int_digits (after_digit : bool) (acc : Z) (s : string) : option Z :=
  match s with
  | EmptyString => if after_digit then Some acc else None
  | String c s' =>
      if is_digit c then int_digits true (10 * acc + digit_value c) s'
      else if Ascii.eqb c "_" && after_digit then int_digits false acc s'
      else None
  end.

(** [int(s)] on ASCII text: blanks around the literal are dropped, a sign
    may come first; anything else is a [ValueError]. *)
Definition py_int (s : string) : result Z :=
  let literal := strip s in
  let parsed :=
    match literal with
    | EmptyString => None
    | String c rest =>
        if Ascii.eqb c "+" then int_digits false 0 rest
        else if Ascii.eqb c "-" then option_map Z.opp (int_digits false 0 rest)
        else int_digits false 0 literal
    end in
  match parsed with
  | Some z => Ok z
  | None => Raise ("invalid literal for int() with base 10: '" ++ s ++ "'")
  end.

End PyText.

(* ================================================================== *)
(** ** The search tab: lines 202-219 of the script *)
(* ================================================================== *)

Module SelectTab.
Import PyStr PyText Pandas Pipeline.

Definition tess_link : string :=
  "https://exofop.ipac.caltech.edu/tess/target.php?id=".

Definition kepler_link : string :=
  "https://exoplanetarchive.ipac.caltech.edu/overview/".

(** Lines 206-210: the table of the search result with its link column. *)
Definition with_archive_links (results_df : DataFrame) : DataFrame :=
  let link_col_name := "Archive Link" in
  match get_column results_df "TIC ID" with
  | Ok ids => set_column link_col_name (prefixed tess_link ids) results_df
  | Raise _ =>
      match get_column results_df "KIC ID" with
      | Ok ids => set_column link_col_name (prefixed kepler_link ids) results_df
      | Raise _ => results_df
      end
  end.

(** Line 212. *)
Definition option_label (i : nat) : string :=
  "Data Product #" ++ str_of_nat i.

Definition options (count : nat) : list string :=
  map option_label (seq 0 count).

(** Line 217, for one option: [int(opt.split('#')[-1])]. *)
Definition selected_index (opt : string) : result Z :=
  py_int (last_piece (split "#" opt)).

(** Line 217: the list comprehension. *)
Fixpoint selected_indices (selected_options : list string) : result (list Z) :=
  match selected_options with
  | [] => Ok []
  | opt :: rest =>
      match selected_index opt with
      | Raise e => Raise e
      | Ok i =>
          match selected_indices rest with
          | Raise e => Raise e
          | Ok ix => Ok (i :: ix)
          end
      end
  end.

Section Handler.

Variable L : LightCurveOps.
Variable A : AnalysisOps (LightCurve L).

Local Abbreviation Item := (SearchItem (LightCurve L)).

(** The order in which lightkurve puts the rows of a search result it
    builds: it sorts the table of every new [SearchResult] by its own
    keys (distance, project, author priority, start time, exposure). *)
Variable arrange : list Item -> list Item.

(** The row [i] of the table of a search result: negative
    indexes count from the end, an index out of range is an
    [IndexError]. *)
Definition entry (search_result : list Item) (i : Z) : result Item :=
  let size := Z.of_nat (List.length search_result) in
  let position := if (i <? 0)%Z then (i + size)%Z else i in
  match (if (0 <=? position)%Z && (position <? size)%Z
         then nth_error search_result (Z.to_nat position) else None) with
  | Some item => Ok item
  | None =>
      Raise ("index " ++ str_of_Z i ++ " is out of bounds for axis 0 with size "
               ++ str_of_Z size)
  end.

(** The rows of the table at a list of indexes, in the order of the
    indexes. *)
Fixpoint rows_at (search_result : list Item) (ix : list Z)
  : result (list Item) :=
  match ix with
  | [] => Ok []
  | i :: rest =>
      match entry search_result i with
      | Raise e => Raise e
      | Ok item =>
          match rows_at search_result rest with
          | Raise e => Raise e
          | Ok items => Ok (item :: items)
          end
      end
  end.

(** Line 218: [search_result[selected_indices]].  lightkurve hands back an
    empty search result as it is; of any other it takes the rows at the
    indexes and builds a new search result from them, which puts them in
    its own order. *)
Definition entries (search_result : list Item) (ix : list Z)
  : result (list Item) :=
  match search_result with
  | [] => Ok []
  | _ :: _ =>
      match rows_at search_result ix with
      | Raise e => Raise e
      | Ok [] => Ok []
      | Ok (item :: items) => Ok (arrange (item :: items))
      end
  end.

(** Lines 214-219: the body of [if st.button("Process Selected Files")]. *)
Definition process_button (search_result : list Item)
    (selected_options : list string) : M unit :=
  match selected_options with
  | [] => emit (StWarning "Please select at least one data product.")
  | _ :: _ =>
      ix <- lift (selected_indices selected_options) ;;
      selected_data_products <- lift (entries search_result ix) ;;
      process_selected_data L A selected_data_products
  end.

End Handler.

End SelectTab.

(* ================================================================== *)
(** ** The session state: lines 159-160 of the script *)
(* ================================================================== *)

Module Session.

Section State.

(** What the session keeps under a key; [None] is Python's [None]. *)
Variable V : Type.

(** [st.session_state]: the keys with their values, first binding first. *)
Definition state : Type := list (string * option V).

Fixpoint lookup (key : string) (s : state) : option (option V) :=
  match s with
  | [] => None
  | (k, v) :: rest => if String.eqb key k then Some v else lookup key rest
  end.

(** [if key not in st.session_state: st.session_state[key] = None] *)
Definition init_key (s : state) (key : string) : state :=
  match lookup key s with
  | Some _ => s
  | None => s ++ [(key, None)]
  end.

Definition session_keys : list string :=
  [ "search_result"; "explore_planets_results"; "explore_fps_results";
    "untested_results" ].

(** Lines 159-160. *)
Definition init (s : state) : state := fold_left init_key session_keys s.

End State.

End Session.

(* ================================================================== *)
(** ** The three catalogue tabs: lines 221-265 of the script *)
(* ================================================================== *)

Module Tabs.
Import Pandas Catalog.

(** What a tab puts on the page: the effects of the calls it makes, and
    the elements only the tabs use. *)
Inductive element : Type :=
| Ran (e : effect)
| StHeader (text : string)
| StMarkdown (text : string)
| StSelectbox (label : string) (choices : list string)
| StDataframe (df : DataFrame).

Definition planets_intro : list element :=
  [ StHeader "Discover High-Interest Planet Candidates";
    StMarkdown "Select a mission below to fetch a sample of stars with confirmed planets or planet candidates.";
    StSelectbox "Select a mission:" ["TESS"; "Kepler"] ].

Definition fps_intro : list element :=
  [ StHeader "Discover Non-Planet Signals (False Positives)";
    StMarkdown "Find stars with signals that look like planets but are not. This is crucial for training the AI.";
    StSelectbox "Select a mission:" ["TESS"; "Kepler"] ].

Definition untested_intro : list element :=
  [ StHeader "Find Potentially Un-tested Targets";
    StMarkdown "This tool fetches a random sample of bright, nearby stars and checks if they are already on the official TESS Object of Interest (TOI) list. Any star shown below has TESS data but is not a known planet candidate, making it a great place to search for new signals." ].

(** Lines 228-234, 243-249 and 259-265: what a tab shows of the table it
    holds. *)
Definition shown (results : option DataFrame) (nothing title hint : string)
  : list element :=
  match results with
  | None => []
  | Some df =>
      if empty df then [Ran (StError nothing)]
      else [StMarkdown title; StDataframe df; Ran (StInfo hint)]
  end.

(** A button of a tab: when clicked, the call runs under a spinner and its
    table replaces the one the session holds. *)
Definition on_click (clicked : bool) (spinner : string) (call : M DataFrame)
    (held : option DataFrame) : list element * result (option DataFrame) :=
  if clicked then
    match call with
    | (t, Ok df) => (Ran (StSpinner spinner) :: map Ran t, Ok (Some df))
    | (t, Raise e) => (Ran (StSpinner spinner) :: map Ran t, Raise e)
    end
  else ([], Ok held).

(** A tab: its heading, the button, then the table when the script gets
    that far. *)
Definition tab (intro : list element)
    (button : list element * result (option DataFrame))
    (nothing title hint : string)
  : list element * result (option DataFrame) :=
  match button with
  | (page, Ok results) =>
      (intro ++ page ++ shown results nothing title hint, Ok results)
  | (page, Raise e) => (intro ++ page, Raise e)
  end.

Section Page.

Variable csv : string -> option ascii -> result DataFrame.
Variable tic : string -> Z * Z -> Z * Z -> Z -> result DataFrame.
Variable draws : list nat.

(** Lines 221-234. *)
Definition planets_tab (mission_choice_planets : string) (clicked : bool)
    (explore_planets_results : option DataFrame)
  : list element * result (option DataFrame) :=
  tab planets_intro
    (on_click clicked
       ("Downloading " ++ mission_choice_planets ++ " catalog... (Cached daily)")
       (fetch_catalog_targets csv draws mission_choice_planets "PLANETS" 25)
       explore_planets_results)
    "No targets were found. This could be a temporary issue with the data archive."
    ("#### Sample of Planet Candidates from **" ++ mission_choice_planets ++ "**:")
    "You can copy a 'Searchable ID' and paste it into the 'Search for a Star' tab.".

(** Lines 236-249. *)
Definition fps_tab (mission_choice_fps : string) (clicked : bool)
    (explore_fps_results : option DataFrame)
  : list element * result (option DataFrame) :=
  tab fps_intro
    (on_click clicked
       ("Downloading " ++ mission_choice_fps ++ " catalog... (Cached daily)")
       (fetch_catalog_targets csv draws mission_choice_fps "FALSE_POSITIVES" 25)
       explore_fps_results)
    "No targets were found for this category."
    ("#### Sample of False Positives from **" ++ mission_choice_fps ++ "**:")
    "You can copy a 'Searchable ID' and paste it into the 'Search for a Star' tab.".

(** Lines 251-265. *)
Definition untested_tab (clicked : bool) (untested_results : option DataFrame)
  : list element * result (option DataFrame) :=
  tab untested_intro
    (on_click clicked
       "Cross-referencing TESS catalogs... (Cached daily, may take a moment the first time)"
       (fetch_untested_targets csv tic 100)
       untested_results)
    "No untested targets were found in the random sample, or an error occurred."
    "#### Potentially Un-tested TESS Targets:"
    "Copy a 'Searchable ID' and paste it into the 'Search for a Star' tab to analyze it.".

End Page.

(** The tables a page shows. *)
Definition tables (page : list element) : list DataFrame :=
  flat_map (fun x => match x with StDataframe df => [df] | _ => [] end) page.

(** The effects a page ran, in order. *)
Definition ran (page : list element) : trace :=
  flat_map (fun x => match x with Ran e => [e] | _ => [] end) page.

End Tabs.

(* ================================================================== *)
(** * Properties *)
(* ================================================================== *)

(** ** The script monad *)

Lemma bind_ok {A B} (t : trace) (a : A) (f : A -> M B) :
  bind (t, Ok a) f = (t ++ fst (f a), snd (f a)).
Proof. unfold bind. destruct (f a); reflexivity. Qed.

Lemma bind_raise {A B} (t : trace) (e : string) (f : A -> M B) :
  bind (t, Raise e) f = (t, Raise e).
Proof. reflexivity. Qed.

Lemma bind_inv {A B} (m : M A) (f : A -> M B) (t : trace) (r : result B) :
  bind m f = (t, r) ->
  (exists e, m = (t, Raise e) /\ r = Raise e) \/
  (exists t1 a t2, m = (t1, Ok a) /\ f a = (t2, r) /\ t = t1 ++ t2).
Proof.
  destruct m as [t1 [a | e]]; simpl.
  - destruct (f a) as [t2 r2] eqn:Hf. intros H. inversion H; subst.
    right. exists t1, a, t2. auto.
  - intros H. inversion H; subst. left. exists e. auto.
Qed.

Lemma errors_app (t1 t2 : trace) : errors (t1 ++ t2) = errors t1 ++ errors t2.
Proof. apply filter_app. Qed.

Lemma plots_app (t1 t2 : trace) : plots (t1 ++ t2) = plots t1 ++ plots t2.
Proof. apply filter_app. Qed.

(** ** The target resolver *)

Module SearchTabFacts.
Import PyStr SearchTab.

Example search_term_of_default : search_term "TIC 261136679" = "261136679".
Proof. reflexivity. Qed.

Example search_term_lower_case : search_term " kic 8462852 " = "8462852".
Proof. reflexivity. Qed.

Example search_term_of_name : search_term "Kepler-10" = "KEPLER-10".
Proof. reflexivity. Qed.

Example bare_prefix_is_a_name : is_id_search "TIC" = false.
Proof. reflexivity. Qed.

Example name_search_passes_filters :
  search_button (list nat) (@List.length nat) (fun _ _ => Ok [1%nat])
    "Kepler-10" ["Kepler"] ["Kepler"; "SPOC"]
  = ([StSpinner "Querying for 'Kepler-10'...";
      SearchLightcurve "Kepler-10" (Some (["Kepler"], ["Kepler"; "SPOC"]))],
     Ok (Some [1%nat])).
Proof. reflexivity. Qed.

End SearchTabFacts.

(** ** The target resolver on any text *)

Module SearchTextFacts.
Import Unicode SearchText.

(** *** The words of the specification and line 186 *)

Section Words.

Variable T : tables.

Local Abbreviation blank := (ResolverSpec.blank T).
Local Abbreviation digit := (ResolverSpec.digit T).
Local Abbreviation plain := (ResolverSpec.plain T).

Lemma capital_upper_char (c : N) : ResolverSpec.capital T c = upper_char T c.
Proof.
  unfold ResolverSpec.capital, upper_char, between.
  destruct (N.ltb_spec c 128) as [Hlt | Hge].
  - destruct (N.leb_spec 128 c); [lia |].
    destruct ((97 <=? c)%N && (c <=? 122)%N); reflexivity.
  - destruct (N.leb_spec 128 c); [reflexivity | lia].
Qed.

Lemma uppercased_upper (s : text) : ResolverSpec.uppercased T s = upper T s.
Proof.
  unfold ResolverSpec.uppercased, upper. rewrite flat_map_concat_map.
  f_equal. apply map_ext, capital_upper_char.
Qed.

Lemma in_list_between (c lo hi : N) (l : list N) :
  (forall x, In x l <-> (lo <= x <= hi)%N) ->
  existsb (N.eqb c) l = between lo hi c.
Proof.
  intros H. unfold between.
  destruct (existsb (N.eqb c) l) eqn:E.
  - apply existsb_exists in E as (x & Hx & Hc).
    apply N.eqb_eq in Hc. subst x. apply H in Hx.
    symmetry. apply andb_true_iff. split; apply N.leb_le; lia.
  - destruct (N.leb_spec lo c); [| reflexivity].
    destruct (N.leb_spec c hi); [| reflexivity].
    exfalso. assert (Hin : In c l) by (apply H; lia).
    assert (Ht : existsb (N.eqb c) l = true)
      by (apply existsb_exists; exists c; split; [exact Hin | apply N.eqb_refl]).
    congruence.
Qed.

Lemma blank_is_space (c : N) : blank c = is_space T c.
Proof.
  unfold ResolverSpec.blank, is_space.
  destruct (N.ltb_spec c 128) as [Hlt | Hge];
    destruct (N.leb_spec 128 c); try lia; [| reflexivity].
  change [9; 10; 11; 12; 13; 28; 29; 30; 31; 32]%N
    with ([9; 10; 11; 12; 13] ++ [28; 29; 30; 31; 32])%N.
  rewrite existsb_app. f_equal; apply in_list_between; intros x; simpl; lia.
Qed.

Lemma digit_is_digit (c : N) : digit c = is_digit T c.
Proof.
  unfold ResolverSpec.digit, is_digit.
  destruct (N.ltb_spec c 128) as [Hlt | Hge];
    destruct (N.leb_spec 128 c); try lia; [| reflexivity].
  apply in_list_between; intros x; simpl; lia.
Qed.

Lemma all_digits_isdigit (s : text) : ResolverSpec.all_digits T s = isdigit T s.
Proof.
  unfold ResolverSpec.all_digits, isdigit.
  destruct s as [| c s]; [reflexivity |]. cbn [is_empty negb andb].
  generalize (c :: s). intros l.
  induction l as [| x l IH]; [reflexivity |].
  cbn [forallb]. rewrite digit_is_digit, IH. reflexivity.
Qed.

Lemma drop_blanks_lstrip (s : text) : ResolverSpec.drop_blanks T s = lstrip T s.
Proof.
  induction s as [| c s IH]; [reflexivity |].
  cbn [ResolverSpec.drop_blanks lstrip]. rewrite blank_is_space, IH.
  reflexivity.
Qed.

Lemma drop_blanks_snoc (l : text) (c : N) :
  ResolverSpec.drop_blanks T (l ++ [c])
  = if is_empty (ResolverSpec.drop_blanks T l)
    then (if blank c then [] else [c])
    else ResolverSpec.drop_blanks T l ++ [c].
Proof.
  induction l as [| a l IH]; cbn [app ResolverSpec.drop_blanks is_empty].
  - destruct (blank c); reflexivity.
  - destruct (blank a); [exact IH | reflexivity].
Qed.

Lemma is_empty_rev (s : text) : is_empty (rev s) = is_empty s.
Proof.
  destruct s as [| c s]; [reflexivity |]. simpl.
  destruct (rev s); reflexivity.
Qed.

Lemma rstrip_rev (s : text) :
  rstrip T s = rev (ResolverSpec.drop_blanks T (rev s)).
Proof.
  induction s as [| c s IH]; [reflexivity |].
  cbn [rstrip rev]. rewrite drop_blanks_snoc, IH, is_empty_rev.
  rewrite <- blank_is_space.
  destruct (ResolverSpec.drop_blanks T (rev s)) as [| a l] eqn:E.
  - cbn [is_empty andb rev]. destruct (blank c); reflexivity.
  - cbn [is_empty andb]. rewrite rev_app_distr. reflexivity.
Qed.

Lemma stripped_strip (s : text) : ResolverSpec.stripped T s = strip T s.
Proof.
  unfold ResolverSpec.stripped, strip.
  rewrite rstrip_rev, (drop_blanks_lstrip s). reflexivity.
Qed.

(** What is left in front of the first character that is no blank is
    blanks. *)
Lemma drop_blanks_split (s : text) :
  exists lead, s = lead ++ ResolverSpec.drop_blanks T s /\
               Forall (fun c => blank c = true) lead.
Proof.
  induction s as [| c s (lead & Hs & Hlead)].
  - exists []. split; [reflexivity | constructor].
  - cbn [ResolverSpec.drop_blanks]. destruct (blank c) eqn:Hc.
    + exists (c :: lead). split; [simpl; f_equal; exact Hs |].
      constructor; assumption.
    + exists []. split; [reflexivity | constructor].
Qed.

(** A text that is digits once it is stripped holds blanks and digits
    only. *)
Lemma stripped_digits_plain (s : text) :
  ResolverSpec.all_digits T (ResolverSpec.stripped T s) = true ->
  Forall (fun c => plain c = true) s.
Proof.
  intros H.
  assert (Hd : Forall (fun c => digit c = true) (ResolverSpec.stripped T s)).
  { unfold ResolverSpec.all_digits in H.
    destruct (ResolverSpec.stripped T s); [discriminate |].
    apply Forall_forall. apply forallb_forall. exact H. }
  unfold ResolverSpec.stripped in Hd.
  destruct (drop_blanks_split s) as (lead & Hs & Hlead).
  destruct (drop_blanks_split (rev (ResolverSpec.drop_blanks T s)))
    as (trail & Ht & Htrail).
  set (core := ResolverSpec.drop_blanks T
                 (rev (ResolverSpec.drop_blanks T s))) in *.
  assert (Hmid : ResolverSpec.drop_blanks T s = rev core ++ rev trail).
  { rewrite <- rev_app_distr, <- Ht, rev_involutive. reflexivity. }
  rewrite Hs, Hmid.
  assert (Hb : forall l, Forall (fun c => blank c = true) l ->
                         Forall (fun c => plain c = true) l).
  { intros l Hl. eapply Forall_impl; [| exact Hl].
    intros c Hc. unfold ResolverSpec.plain. rewrite Hc. reflexivity. }
  apply Forall_app. split; [exact (Hb _ Hlead) |].
  apply Forall_app. split.
  - eapply Forall_impl; [| exact Hd].
    intros c Hc. unfold ResolverSpec.plain. rewrite Hc. apply orb_true_r.
  - apply Hb, Forall_rev, Htrail.
Qed.

(** A blank or a digit is none of the letters T, K and E. *)
Lemma plain_no_initial (a c : N) :
  In a [84; 75; 69]%N -> plain c = true -> N.eqb a c = false.
Proof.
  intros Ha Hc. apply N.eqb_neq. intros <-.
  destruct Ha as [<- | [<- | [<- | []]]]; discriminate.
Qed.

End Words.

(** *** Taking the prefixes out *)

Lemma begins_app (word s : text) :
  ResolverSpec.begins word s = true -> exists rest, s = word ++ rest.
Proof.
  revert s. induction word as [| a word IH]; intros s H.
  - exists s. reflexivity.
  - destruct s as [| b s]; [discriminate |]. cbn [ResolverSpec.begins] in H.
    destruct (N.eq_dec a b) as [<- |]; [| discriminate].
    destruct (IH s H) as (rest & ->). exists rest. reflexivity.
Qed.

Lemma without_prefixes_skip (word s : text) :
  ResolverSpec.without_prefixes (List.length word) (word ++ s)
  = ResolverSpec.without_prefixes 0 s.
Proof.
  induction word as [| a word IH]; [reflexivity |].
  cbn [List.length app ResolverSpec.without_prefixes]. exact IH.
Qed.

(** When what is left without the prefixes is plain, the text reads as
    plain characters and prefixes. *)
Lemma without_prefixes_parsed (plain : N -> bool) (n : nat) :
  forall s : text,
    (List.length s <= n)%nat ->
    Forall (fun c => plain c = true) (ResolverSpec.without_prefixes 0 s) ->
    ResolverSpec.parsed plain ResolverSpec.prefixes s
      (ResolverSpec.without_prefixes 0 s).
Proof.
  induction n as [| n IH]; intros s Hlen Hplain.
  - destruct s; [constructor | simpl in Hlen; lia].
  - destruct s as [| c rest]; [constructor |].
    cbn [ResolverSpec.without_prefixes] in Hplain |- *.
    destruct (find (fun word => ResolverSpec.begins word (c :: rest))
                ResolverSpec.prefixes) as [word |] eqn:F.
    + apply find_some in F as [Hin Hb].
      destruct (begins_app _ _ Hb) as (rest' & Hs).
      assert (Hw : exists a word', word = a :: word').
      { destruct Hin as [<- | [<- | [<- | []]]]; eexists; eexists;
          reflexivity. }
      destruct Hw as (a & word' & ->).
      cbn [app] in Hs. injection Hs as Hc Hrest. subst c rest.
      cbn [List.length Nat.sub] in Hplain |- *. rewrite Nat.sub_0_r in *.
      rewrite without_prefixes_skip in *.
      apply (ResolverSpec.parsed_word plain ResolverSpec.prefixes
               (a :: word') rest' _ Hin).
      apply IH; [| exact Hplain].
      simpl in Hlen. rewrite length_app in Hlen. lia.
    + inversion Hplain as [| ? ? Hc Hrest]; subst.
      apply ResolverSpec.parsed_char; [exact Hc |].
      apply IH; [simpl in Hlen; lia | exact Hrest].
Qed.

Lemma startswith_self (word s : text) : startswith word (word ++ s) = true.
Proof.
  induction word as [| a word IH]; [reflexivity |].
  cbn [app startswith]. rewrite N.eqb_refl. exact IH.
Qed.

Lemma replace_from_skip (old new word s : text) :
  replace_from old new (List.length word) (word ++ s)
  = replace_from old new 0 s.
Proof.
  induction word as [| a word IH]; [reflexivity |].
  cbn [List.length app replace_from]. exact IH.
Qed.

(** An occurrence at the front is replaced. *)
Lemma replace_from_word (a : N) (old new s : text) :
  replace_from (a :: old) new 0 ((a :: old) ++ s)
  = new ++ replace_from (a :: old) new 0 s.
Proof.
  pose proof (startswith_self (a :: old) s) as E.
  cbn [app] in E |- *. cbn [replace_from]. rewrite E.
  cbn [List.length Nat.sub]. rewrite Nat.sub_0_r, replace_from_skip.
  reflexivity.
Qed.

(** A word that does not hold the first letter of [old] is passed over. *)
Lemma replace_from_pass (a : N) (old new word s : text) :
  Forall (fun c => N.eqb a c = false) word ->
  replace_from (a :: old) new 0 (word ++ s)
  = word ++ replace_from (a :: old) new 0 s.
Proof.
  induction 1 as [| c word Hc _ IH]; [reflexivity |].
  cbn [app replace_from startswith]. rewrite Hc. cbn [andb].
  rewrite IH. reflexivity.
Qed.

(** One [replace] takes one word out of a text that reads as plain
    characters and words, when the first letter of the word is no plain
    character and stands in none of the other words. *)
Lemma replace_parsed (plain : N -> bool) (a : N) (old : text)
    (words : list text) (s left : text) :
  (forall c, plain c = true -> N.eqb a c = false) ->
  Forall (Forall (fun c => N.eqb a c = false)) words ->
  ResolverSpec.parsed plain ((a :: old) :: words) s left ->
  ResolverSpec.parsed plain words (replace (a :: old) [] s) left.
Proof.
  intros Hplain Hwords H. unfold replace.
  remember ((a :: old) :: words) as all eqn:Eall.
  induction H as [| c s left Hc _ IH | word s left Hin _ IH]; subst all.
  - constructor.
  - cbn [replace_from startswith]. rewrite (Hplain c Hc). cbn [andb].
    apply ResolverSpec.parsed_char; [exact Hc | exact IH].
  - destruct Hin as [<- | Hin].
    + rewrite replace_from_word. exact IH.
    + rewrite Forall_forall in Hwords.
      rewrite (replace_from_pass a old [] word s (Hwords word Hin)).
      apply ResolverSpec.parsed_word; [exact Hin | exact IH].
Qed.

Lemma parsed_no_words (plain : N -> bool) (s left : text) :
  ResolverSpec.parsed plain [] s left -> s = left.
Proof.
  induction 1 as [| c s left _ _ IH | word s left [] _ _];
    [reflexivity | f_equal; exact IH].
Qed.

Section Refinement.

Variable T : tables.

(** The three [replace] calls of line 186 leave what is left without the
    prefixes, when that is blanks and digits. *)
Lemma replaced_is_without_prefixes (s : text) :
  Forall (fun c => ResolverSpec.plain T c = true)
         (ResolverSpec.without_prefixes 0 s) ->
  replace (of_ascii "EPIC") [] (replace (of_ascii "KIC") []
    (replace (of_ascii "TIC") [] s))
  = ResolverSpec.without_prefixes 0 s.
Proof.
  intros Hplain.
  pose proof (without_prefixes_parsed (ResolverSpec.plain T)
                (List.length s) s (Nat.le_refl _) Hplain) as Hp.
  apply (parsed_no_words (ResolverSpec.plain T)).
  apply (replace_parsed (ResolverSpec.plain T) 69 (of_ascii "PIC") []).
  { intros c Hc. apply (plain_no_initial T); [simpl; auto | exact Hc]. }
  { constructor. }
  apply (replace_parsed (ResolverSpec.plain T) 75 (of_ascii "IC")
           [of_ascii "EPIC"]).
  { intros c Hc. apply (plain_no_initial T); [simpl; auto | exact Hc]. }
  { repeat constructor. }
  apply (replace_parsed (ResolverSpec.plain T) 84 (of_ascii "IC")
           [of_ascii "KIC"; of_ascii "EPIC"]).
  { intros c Hc. apply (plain_no_initial T); [simpl; auto | exact Hc]. }
  { repeat constructor. }
  exact Hp.
Qed.

(** An input that is numeric in the words of the specification has its
    normalization as search term, and line 187 takes it as an ID. *)
Lemma numeric_is_id (input : text) :
  ResolverSpec.numeric T input = true ->
  search_term T input = ResolverSpec.normalization T input /\
  is_id_search T input = true.
Proof.
  intros H. unfold ResolverSpec.numeric, ResolverSpec.normalization in H.
  assert (Hterm : search_term T input = ResolverSpec.normalization T input).
  { unfold search_term, ResolverSpec.normalization.
    rewrite <- uppercased_upper.
    rewrite (replaced_is_without_prefixes _ (stripped_digits_plain T _ H)).
    symmetry. apply stripped_strip. }
  split; [exact Hterm |].
  unfold is_id_search. rewrite Hterm, <- all_digits_isdigit. exact H.
Qed.

End Refinement.

(** *** The handler *)

Section Handler.

Variable T : tables.
Variable SearchResult : Type.
Variable len : SearchResult -> nat.
Variable archive :
  text -> option (list string * list string) -> result SearchResult.

Local Abbreviation click :=
  (search_button T SearchResult len archive).

(** The filters a search for [star_id_input] is sent with: none for a
    numeric ID, the two selections for a name. *)
Lemma search_text_cases (star_id_input : text)
    (selected_missions selected_authors : list string) :
  let run := click star_id_input selected_missions selected_authors in
  (searches (effects run) = [] /\ outcome run = Ok None /\
   warnings (effects run) <> []) \/
  (exists filters,
     searches (effects run)
     = [SearchLightcurve (utf8 star_id_input) filters] /\
     (filters = None /\ is_id_search T star_id_input = true \/
      filters = Some (selected_missions, selected_authors) /\
      is_id_search T star_id_input = false /\
      selected_missions <> [] /\ selected_authors <> []) /\
     match archive star_id_input filters with
     | Raise e => outcome run = Raise e /\ warnings (effects run) = []
     | Ok r =>
         if (0 <? len r)%nat
         then outcome run = Ok (Some r) /\ warnings (effects run) = []
         else outcome run = Ok None /\ warnings (effects run) <> []
     end).
Proof.
  intros run. subst run. unfold search_button, search_lightcurve.
  destruct (is_empty star_id_input);
    [left; cbn; repeat split; discriminate |].
  destruct (is_id_search T star_id_input) eqn:Hid.
  - right. exists None.
    destruct (archive star_id_input None) as [r | e] eqn:Ha;
      cbn -[Nat.ltb append utf8].
    + destruct (0 <? len r)%nat; cbn -[append utf8];
        (split; [reflexivity |]); (split; [auto |]);
        split; (reflexivity || discriminate).
    + split; [reflexivity |]. split; [auto |]. split; reflexivity.
  - destruct selected_missions as [| m ms];
      [left; cbn; repeat split; discriminate |].
    destruct selected_authors as [| a au];
      [left; cbn; repeat split; discriminate |].
    right. exists (Some (m :: ms, a :: au)).
    destruct (archive star_id_input (Some (m :: ms, a :: au))) as [r | e] eqn:Ha;
      cbn -[Nat.ltb append utf8].
    + destruct (0 <? len r)%nat; cbn -[append utf8];
        (split; [reflexivity |]);
        (split; [right; repeat split; discriminate |]);
        split; (reflexivity || discriminate).
    + split; [reflexivity |].
      split; [right; repeat split; discriminate |]. split; reflexivity.
Qed.

Lemma id_search_not_empty (input : text) :
  is_id_search T input = true -> is_empty input = false.
Proof. destruct input; [discriminate | reflexivity]. Qed.

(** C4.  An input is numeric when its normalization consists entirely of
    digits: in the words of the specification (upper-cased, the prefixes
    TIC, KIC and EPIC removed, whitespace stripped: [ResolverSpec.numeric])
    or as line 186 computes the search term.  Every numeric input, of
    any characters, is taken as a numeric ID: the page says so and the
    archive is searched once, for the input as typed and with no mission
    or author filter, whatever the two selections are, empty ones
    included. *)
Theorem numeric_id_search_ignores_filters
    (star_id_input : text) (selected_missions selected_authors : list string) :
  ResolverSpec.numeric T star_id_input = true \/
  isdigit T (search_term T star_id_input) = true ->
  let run := click star_id_input selected_missions selected_authors in
  is_id_search T star_id_input = true /\
  In (StInfo "Numerical ID detected. Searching all available missions and authors...")
     (effects run) /\
  searches (effects run) = [SearchLightcurve (utf8 star_id_input) None].
Proof.
  intros Hnum run. subst run.
  assert (Hid : is_id_search T star_id_input = true).
  { destruct Hnum as [Hspec | Hcode];
      [exact (proj2 (numeric_is_id T _ Hspec)) | exact Hcode]. }
  split; [exact Hid |].
  pose proof (id_search_not_empty _ Hid) as Hne.
  unfold search_button, search_lightcurve. rewrite Hne, Hid.
  destruct (archive star_id_input None) as [r | e];
    cbn -[Nat.ltb append utf8].
  - destruct (0 <? len r)%nat; cbn -[append utf8]; auto.
  - auto.
Qed.

(** C5.  An input error, an empty search string or a name search (an
    input line 187 does not take as a numeric ID) while the mission
    selection or the author selection is empty, puts a warning on the
    page, sends no search to the archive and leaves no search result. *)
Theorem input_error_warns_without_search
    (star_id_input : text) (selected_missions selected_authors : list string) :
  star_id_input = [] \/
  (is_id_search T star_id_input = false /\
   (selected_missions = [] \/ selected_authors = [])) ->
  let run := click star_id_input selected_missions selected_authors in
  warnings (effects run) <> [] /\
  searches (effects run) = [] /\
  outcome run = Ok None.
Proof.
  intros H run. subst run. unfold search_button.
  destruct H as [-> | [Hname Hsel]]; [simpl; repeat split; discriminate |].
  destruct (is_empty star_id_input); [simpl; repeat split; discriminate |].
  rewrite Hname.
  destruct Hsel as [-> | ->].
  - cbn -[append utf8]. repeat split; discriminate.
  - destruct selected_missions; cbn -[append utf8]; repeat split;
      discriminate.
Qed.

(** X13.  The search result the session holds after the click is never an
    empty collection: it is the answer of the archive to the one search
    that was sent, and that answer has at least one entry.  When the
    session holds no result, either the handler has returned and the page
    shows a warning, or the one search that was sent has raised: then the
    handler raises the same exception and the page shows no warning. *)
Theorem stored_result_is_not_empty (star_id_input : text)
    (selected_missions selected_authors : list string) :
  let run := click star_id_input selected_missions selected_authors in
  (forall r, search_result_after SearchResult run = Some r ->
     (0 < len r)%nat /\
     exists filters,
       archive star_id_input filters = Ok r /\
       searches (effects run)
       = [SearchLightcurve (utf8 star_id_input) filters]) /\
  (search_result_after SearchResult run = None ->
     (outcome run = Ok None /\ warnings (effects run) <> []) \/
     (exists e filters,
        outcome run = Raise e /\
        archive star_id_input filters = Raise e /\
        searches (effects run)
        = [SearchLightcurve (utf8 star_id_input) filters] /\
        warnings (effects run) = [])).
Proof.
  intros run. unfold search_result_after.
  destruct (search_text_cases star_id_input selected_missions
              selected_authors) as [(Hs & Ho & Hw) | (f & Hs & _ & Ha)];
    fold run in Hs |- *.
  - fold run in Ho, Hw. rewrite Ho.
    split; [intros r Hr; discriminate | intros _; left; auto].
  - fold run in Ha. destruct (archive star_id_input f) as [r0 | e] eqn:Harch.
    + destruct (0 <? len r0)%nat eqn:Hlen; destruct Ha as [Ho Hw]; rewrite Ho.
      * split; [| intros H; discriminate].
        intros r Hr. injection Hr as <-.
        split; [apply Nat.ltb_lt; exact Hlen |].
        exists f. split; [exact Harch | exact Hs].
      * split; [intros r Hr; discriminate | intros _; left; auto].
    + destruct Ha as [Ho Hw]. rewrite Ho.
      split; [intros r Hr; discriminate |].
      intros _. right. exists e, f. auto.
Qed.

(** X15.  A name, an input of any characters that line 187 does not take
    as a numeric ID, is searched once, with the two selections passed on
    as they are, when neither of them is empty. *)
Theorem name_search_passes_selections (star_id_input : text)
    (selected_missions selected_authors : list string) :
  star_id_input <> [] ->
  is_id_search T star_id_input = false ->
  selected_missions <> [] -> selected_authors <> [] ->
  searches (effects (click star_id_input selected_missions selected_authors))
  = [SearchLightcurve (utf8 star_id_input)
       (Some (selected_missions, selected_authors))].
Proof.
  intros Hne Hname Hm Ha. unfold search_button, search_lightcurve.
  destruct star_id_input as [| c s]; [congruence |]. cbn [is_empty].
  rewrite Hname.
  destruct selected_missions as [| m ms]; [congruence |].
  destruct selected_authors as [| a au]; [congruence |].
  destruct (archive _ _) as [r | e]; cbn -[Nat.ltb append utf8];
    [| reflexivity].
  destruct (0 <? len r)%nat; reflexivity.
Qed.

End Handler.

(** A no-break space after the prefix is stripped like a blank, and the
    input is an ID. *)
Example no_break_space_is_stripped :
  search_term Demo.unicode_rows Demo.typed_id = of_ascii "261136679" /\
  ResolverSpec.normalization Demo.unicode_rows Demo.typed_id
  = of_ascii "261136679".
Proof. split; reflexivity. Qed.

(** Arabic-Indic digits are digits. *)
Example arabic_indic_digits_are_an_id :
  is_id_search Demo.unicode_rows [1633; 1634; 1635]%N = true.
Proof. reflexivity. Qed.

(** A prefix inside another one: [replace] takes TIC out of KTICIC and
    then KIC out of what is left, so line 187 takes the input as an ID,
    which the words of the specification do not. *)
Example nested_prefix_is_an_id :
  is_id_search Demo.unicode_rows (of_ascii "KTICIC 5") = true /\
  ResolverSpec.numeric Demo.unicode_rows (of_ascii "KTICIC 5") = false.
Proof. split; reflexivity. Qed.

(** An ID typed in small letters with a no-break space, both selections
    empty. *)
Lemma numeric_id_search_ignores_filters_witness :
  (ResolverSpec.numeric Demo.unicode_rows Demo.typed_id = true \/
   isdigit Demo.unicode_rows (search_term Demo.unicode_rows Demo.typed_id)
   = true) /\
  searches (effects (search_button Demo.unicode_rows (list nat)
                       (@List.length nat) (fun _ _ => Ok [1%nat])
                       Demo.typed_id [] []))
  = [SearchLightcurve (utf8 Demo.typed_id) None].
Proof.
  split; [left; reflexivity |].
  apply (numeric_id_search_ignores_filters Demo.unicode_rows (list nat)
           (@List.length nat) (fun _ _ => Ok [1%nat]) Demo.typed_id [] []).
  left. reflexivity.
Defined.

(** A star name typed while no mission is selected. *)
Lemma input_error_warns_without_search_witness :
  is_id_search Demo.unicode_rows Demo.typed_name = false /\
  searches (effects (search_button Demo.unicode_rows (list nat)
                       (@List.length nat) (fun _ _ => Ok [1%nat])
                       Demo.typed_name [] ["SPOC"]))
  = [].
Proof.
  split; [reflexivity |].
  apply (input_error_warns_without_search Demo.unicode_rows (list nat)
           (@List.length nat) (fun _ _ => Ok [1%nat]) Demo.typed_name
           [] ["SPOC"]).
  right. split; [reflexivity | left; reflexivity].
Defined.

(** A search that finds two products, and a search on which the archive
    times out. *)
Lemma stored_result_is_not_empty_witness :
  (search_result_after (list nat)
     (search_button Demo.unicode_rows (list nat) (@List.length nat)
        (fun _ _ => Ok [1; 2]%nat) Demo.typed_id [] [])
   = Some [1; 2]%nat /\
   (0 < List.length [1; 2]%nat)%nat) /\
  (search_result_after (list nat)
     (search_button Demo.unicode_rows (list nat) (@List.length nat)
        (fun _ _ => Raise "Timeout") Demo.typed_id [] [])
   = None /\
   warnings (effects (search_button Demo.unicode_rows (list nat)
                        (@List.length nat) (fun _ _ => Raise "Timeout")
                        Demo.typed_id [] []))
   = []).
Proof.
  split; (split; [reflexivity |]).
  - exact (proj1 (proj1 (stored_result_is_not_empty Demo.unicode_rows
                           (list nat) (@List.length nat)
                           (fun _ _ => Ok [1; 2]%nat) Demo.typed_id [] [])
                    [1; 2]%nat eq_refl)).
  - destruct (proj2 (stored_result_is_not_empty Demo.unicode_rows
                       (list nat) (@List.length nat)
                       (fun _ _ => Raise "Timeout") Demo.typed_id [] [])
                eq_refl) as [[Hok _] | (e & f & _ & _ & _ & Hw)];
      [discriminate Hok | exact Hw].
Defined.

Lemma name_search_passes_selections_witness :
  searches (effects (search_button Demo.unicode_rows (list nat)
                       (@List.length nat) (fun _ _ => Ok [1%nat])
                       Demo.typed_name ["TESS"] ["SPOC"; "QLP"]))
  = [SearchLightcurve (utf8 Demo.typed_name)
       (Some (["TESS"], ["SPOC"; "QLP"]))].
Proof.
  apply name_search_passes_selections; try discriminate. reflexivity.
Defined.

End SearchTextFacts.

(** ** The pipeline *)

Module PipelineFacts.
Import PyStr Pipeline.

(** A run in which every call answers: the three figures, in order. *)
Example complete_run_plots :
  plots (effects (process_selected_data Demo.curves Demo.search
                    Demo.one_product))
  = [StPyplot CleanedPlot; StPyplot PeriodogramPlot;
     StPyplot (FoldedPlot "Light Curve Folded at 3.1416 days")].
Proof. reflexivity. Qed.

Example complete_run_ends_well :
  last (effects (process_selected_data Demo.curves Demo.search
                   Demo.one_product)) StatusEmpty
  = StatusSuccess "🎉 Analysis Complete!".
Proof. reflexivity. Qed.

(** The periodic search raises: the handler's three effects come last. *)
Example failed_search_trace :
  process_selected_data Demo.curves Demo.failing_search Demo.one_product
  = ([StatusInfo (start_notice 1); ProgressValue 0;
      StatusInfo (download_notice 0 1); Download 0; ProgressFraction 1 1;
      StatusInfo "⚙️ All files processed. Stitching data segments together...";
      Sleep 1;
      StatusInfo "🧹 Binning and flattening the light curve to remove noise...";
      ProgressEmpty;
      StSubheader "Cleaned & Flattened Light Curve";
      StPyplot CleanedPlot;
      StatusInfo "🔍 Searching for periodic transit signals...";
      StError (failure_message "No valid data for the periodogram");
      StatusEmpty; ProgressEmpty],
     Ok tt).
Proof. reflexivity. Qed.

Ltac msimpl :=
  cbn -[Nat.ltb skip_notice download_notice start_notice failure_message
        str_of_nat append].

Ltac msimpl_in H :=
  cbn -[Nat.ltb skip_notice download_notice start_notice failure_message
        str_of_nat append] in H.

(** Case analysis on the answers of the library calls of a stage, in the
    order in which the stage makes them. *)
Ltac library_cases :=
  repeat (match goal with
          | |- context [match ?r with Ok _ => _ | Raise _ => _ end] =>
              destruct r
          end; msimpl).

Ltac stage_trace H :=
  revert H; msimpl; library_cases; intros H; inversion H; subst; reflexivity.

Section Run.

Variable L : LightCurveOps.
Variable A : AnalysisOps (LightCurve L).

Local Abbreviation LC := (LightCurve L).

Lemma prepare_discarded (i : nat) (item : SearchItem LC) (acc : list LC) :
  discarded L item ->
  prepare L i item acc = ([Download i; StWrite (skip_notice i)], Ok acc).
Proof.
  unfold prepare. intros [H | (lc & valid & H & Hv & Hn)]; rewrite H.
  - reflexivity.
  - msimpl. rewrite Hv. msimpl. rewrite Hn. reflexivity.
Qed.

Lemma download_loop_discarded (total_files : nat) (items : list (SearchItem LC)) :
  Forall (discarded L) items ->
  forall (i : nat) (acc : list LC),
    download_loop L total_files i items acc
    = (flat_map (skipped total_files) (seq i (List.length items)), Ok acc).
Proof.
  induction 1 as [| item rest Hitem _ IH]; intros i acc.
  - reflexivity.
  - cbn [download_loop List.length seq flat_map].
    rewrite (prepare_discarded i item acc Hitem).
    msimpl. rewrite IH. reflexivity.
Qed.

Lemma plots_skipped (total_files : nat) (l : list nat) :
  plots (flat_map (skipped total_files) l) = [].
Proof. induction l as [| i l IH]; [reflexivity | exact IH]. Qed.

Lemma errors_skipped (total_files : nat) (l : list nat) :
  errors (flat_map (skipped total_files) l) = [].
Proof. induction l as [| i l IH]; [reflexivity | exact IH]. Qed.

(** C3.  When every selected product is discarded, a null download or no
    sample with a flux, the run shows the start notice, one download
    notice, skip notice and progress step per product, then the error
    [no_data_message]; it clears the two indicators and returns.  No later
    stage leaves a notice and no figure reaches the page. *)
Theorem all_discarded_aborts (selected_items : list (SearchItem LC)) :
  Forall (discarded L) selected_items ->
  let run := process_selected_data L A selected_items in
  let total_files := List.length selected_items in
  effects run
  = [StatusInfo (start_notice total_files); ProgressValue 0]
      ++ flat_map (skipped total_files) (seq 0 total_files)
      ++ [StError no_data_message; StatusEmpty; ProgressEmpty] /\
  outcome run = Ok tt /\
  errors (effects run) = [StError no_data_message] /\
  plots (effects run) = [].
Proof.
  intros H run total_files.
  assert (Hrun : run
    = ([StatusInfo (start_notice total_files); ProgressValue 0]
         ++ flat_map (skipped total_files) (seq 0 total_files)
         ++ [StError no_data_message; StatusEmpty; ProgressEmpty], Ok tt)).
  { subst run. unfold process_selected_data, pipeline_body, stage1.
    fold total_files. msimpl.
    rewrite (download_loop_discarded total_files selected_items H). msimpl.
    reflexivity. }
  rewrite Hrun. cbn [effects outcome fst snd].
  repeat split.
  - rewrite errors_app. msimpl. rewrite errors_app, errors_skipped. reflexivity.
  - rewrite plots_app. msimpl. rewrite plots_app, plots_skipped. reflexivity.
Qed.

(** *** No [st.error] before the handler *)

Lemma prepare_quiet (i : nat) (item : SearchItem LC) (acc : list LC)
    (t : trace) (r : result (list LC)) :
  prepare L i item acc = (t, r) -> errors t = [].
Proof.
  unfold prepare. intros H.
  destruct (download item) as [[lc |] | e]; msimpl_in H.
  - destruct (remove_nans L lc) as [valid | e]; msimpl_in H.
    + destruct (0 <? flux_len L valid)%nat; msimpl_in H.
      * destruct (normalize L lc); msimpl_in H; inversion H; reflexivity.
      * inversion H; reflexivity.
    + inversion H; reflexivity.
  - inversion H; reflexivity.
  - inversion H; reflexivity.
Qed.

Lemma download_loop_quiet (total_files : nat) (items : list (SearchItem LC)) :
  forall (i : nat) (acc : list LC) (t : trace) (r : result (list LC)),
    download_loop L total_files i items acc = (t, r) -> errors t = [].
Proof.
  induction items as [| item rest IH]; intros i acc t r H.
  - inversion H; reflexivity.
  - cbn [download_loop] in H.
    destruct (prepare L i item acc) as [tp [acc' | e]] eqn:Hp;
      pose proof (prepare_quiet _ _ _ _ _ Hp) as Hq.
    + msimpl_in H.
      destruct (download_loop L total_files (S i) rest acc') as [tl rl] eqn:Hl.
      inversion H; subst. unfold errors in *.
      cbn [filter is_error]. rewrite filter_app, Hq.
      cbn [filter is_error app]. exact (IH _ _ _ _ Hl).
    + msimpl_in H. inversion H; subst. msimpl. exact Hq.
Qed.

Lemma stage1_quiet (items : list (SearchItem LC)) (t : trace)
    (r : result (list LC)) :
  stage1 L items = (t, r) -> errors t = [].
Proof.
  unfold stage1. msimpl. intros H.
  destruct (download_loop L (List.length items) 0 items []) as [tl rl] eqn:Hl.
  inversion H; subst. msimpl. exact (download_loop_quiet _ _ _ _ _ _ Hl).
Qed.

Lemma stage3_quiet (lc : LC) (t : trace) (r : result LC) :
  stage3 L A lc = (t, r) -> errors t = [].
Proof. unfold stage3. intros H. stage_trace H. Qed.

Lemma stage4_quiet (lc : LC) (t : trace) (r : result (Period A * Epoch A)) :
  stage4 L A lc = (t, r) -> errors t = [].
Proof. unfold stage4. intros H. stage_trace H. Qed.

Lemma stage5_quiet (lc : LC) (p : Period A) (t0 : Epoch A) (t : trace)
    (r : result unit) :
  stage5 L A lc p t0 = (t, r) -> errors t = [].
Proof. unfold stage5. intros H. stage_trace H. Qed.

Lemma quiet_bind {X Y} (m : M X) (f : X -> M Y) :
  quiet m -> (forall x, quiet (f x)) -> quiet (bind m f).
Proof.
  unfold quiet, effects. destruct m as [t [x | e]]; simpl; intros Hm Hf.
  - specialize (Hf x). destruct (f x) as [t' r]. simpl in *.
    rewrite errors_app, Hm, Hf. reflexivity.
  - exact Hm.
Qed.

Lemma quiet_of {X} (m : M X) :
  (forall t r, m = (t, r) -> errors t = []) -> quiet m.
Proof. destruct m as [t r]. intros H. exact (H t r eq_refl). Qed.

Lemma after_download_quiet (processed : list LC) (t : trace) (e : string) :
  after_download L A processed = (t, Raise e) -> errors t = [].
Proof.
  destruct processed as [| lc rest]; [discriminate |].
  intros H. change (errors (effects (t, @Raise unit e)) = []).
  rewrite <- H. unfold after_download.
  apply quiet_bind; [reflexivity | intros _].
  apply quiet_bind; [reflexivity | intros stitched].
  apply quiet_bind; [reflexivity | intros _].
  apply quiet_bind; [apply quiet_of, stage3_quiet | intros clean_lc].
  apply quiet_bind; [apply quiet_of, stage4_quiet | intros found].
  apply quiet_of, stage5_quiet.
Qed.

Lemma pipeline_body_quiet (items : list (SearchItem LC)) (t : trace)
    (e : string) :
  pipeline_body L A items = (t, Raise e) -> errors t = [].
Proof.
  unfold pipeline_body. intros H.
  apply bind_inv in H as [(e' & H1 & _) | (t1 & a & t2 & H1 & H2 & ->)].
  - exact (stage1_quiet _ _ _ H1).
  - rewrite errors_app, (stage1_quiet _ _ _ H1),
      (after_download_quiet _ _ _ H2). reflexivity.
Qed.

(** C7, as the code has it.  An exception raised in any stage is caught by
    the handler of the pipeline: the run returns normally, with no value;
    the one [st.error] of the run is the handler's, built from the text of
    the exception; the status and progress indicators are emptied last.
    What the stages put on the page before the exception stays there, the
    figures included. *)
Theorem failure_is_reported_once (selected_items : list (SearchItem LC))
    (t : trace) (e : string) :
  pipeline_body L A selected_items = (t, Raise e) ->
  let run := process_selected_data L A selected_items in
  effects run = t ++ [StError (failure_message e); StatusEmpty; ProgressEmpty] /\
  outcome run = Ok tt /\
  errors (effects run) = [StError (failure_message e)] /\
  plots (effects run) = plots t.
Proof.
  intros H run. subst run. unfold process_selected_data. rewrite H.
  cbn [try_except on_exception]. msimpl. repeat split.
  - rewrite errors_app, (pipeline_body_quiet _ _ _ H). reflexivity.
  - rewrite plots_app. cbn. apply app_nil_r.
Qed.

End Run.

(** Two null downloads: the run stops after stage 1 with no figure. *)
Lemma all_discarded_aborts_witness :
  Forall (discarded Demo.curves) Demo.null_products /\
  plots (effects (process_selected_data Demo.curves Demo.failing_search
                    Demo.null_products)) = [].
Proof.
  assert (H : Forall (discarded Demo.curves) Demo.null_products)
    by (repeat constructor).
  split; [exact H |].
  exact (proj2 (proj2 (proj2
    (all_discarded_aborts Demo.curves Demo.failing_search
       Demo.null_products H)))).
Defined.

(** The periodic search raises on the one downloaded product. *)
Lemma failure_is_reported_once_witness :
  outcome (process_selected_data Demo.curves Demo.failing_search
             Demo.one_product) = Ok tt.
Proof.
  refine (proj1 (proj2
    (failure_is_reported_once Demo.curves Demo.failing_search
       Demo.one_product _ _ _))).
  vm_compute. reflexivity.
Defined.

(** C7, as stated, fails: when stage 4 raises, the figure of stage 3 is
    already on the page and stays there. *)
Lemma failure_keeps_earlier_plot :
  exists t e,
    pipeline_body Demo.curves Demo.failing_search Demo.one_product
      = (t, Raise e) /\
    plots (effects (process_selected_data Demo.curves Demo.failing_search
                      Demo.one_product)) = [StPyplot CleanedPlot].
Proof. do 2 eexists. split; vm_compute; reflexivity. Qed.

End PipelineFacts.

(** ** The stitched series *)

Module SeriesFacts.
Import Series.

Lemma strongly_sorted_filter (p : sample -> bool) (lc : series) :
  StronglySorted Qle (times lc) -> StronglySorted Qle (times (filter p lc)).
Proof.
  unfold times. induction lc as [| x lc IH]; intros H; [constructor |].
  simpl in H. inversion H as [| ? ? Hs Hall]; subst. simpl.
  destruct (p x); [| exact (IH Hs)].
  simpl. constructor; [exact (IH Hs) |].
  rewrite Forall_forall in *. intros q Hq.
  apply in_map_iff in Hq as (y & <- & Hy).
  apply filter_In in Hy as [Hy _].
  apply Hall, in_map, Hy.
Qed.

Lemma nondecreasing_filter (p : sample -> bool) (lc : series) :
  nondecreasing (times lc) -> nondecreasing (times (filter p lc)).
Proof.
  unfold nondecreasing. intros H.
  apply StronglySorted_Sorted, strongly_sorted_filter.
  apply Sorted_StronglySorted; [| exact H].
  intros x y z. apply Qle_trans.
Qed.

Lemma insert_by_time_perm (x : sample) (lc : series) :
  Permutation (insert_by_time x lc) (x :: lc).
Proof.
  induction lc as [| y rest IH]; simpl; [reflexivity |].
  destruct (Qle_bool (time x) (time y)); [reflexivity |].
  rewrite IH. apply perm_swap.
Qed.

Lemma sort_by_time_perm (lc : series) : Permutation (sort_by_time lc) lc.
Proof.
  induction lc as [| x rest IH]; simpl; [reflexivity |].
  rewrite insert_by_time_perm. constructor. exact IH.
Qed.

Lemma insert_by_time_sorted (x : sample) (lc : series) :
  nondecreasing (times lc) -> nondecreasing (times (insert_by_time x lc)).
Proof.
  unfold nondecreasing, times.
  induction lc as [| y rest IH]; intros H; simpl.
  - repeat constructor.
  - destruct (Qle_bool (time x) (time y)) eqn:E.
    + simpl. constructor; [exact H |].
      constructor. apply Qle_bool_iff, E.
    + assert (Hyx : (time y <= time x)%Q).
      { apply Qlt_le_weak, Qnot_le_lt. intros Hle.
        apply Qle_bool_iff in Hle. congruence. }
      simpl in H. inversion H as [| ? ? Hs Hd]; subst.
      simpl. constructor; [exact (IH Hs) |].
      destruct rest as [| z rest']; simpl.
      * constructor. exact Hyx.
      * destruct (Qle_bool (time x) (time z)); simpl.
        -- constructor. exact Hyx.
        -- inversion Hd; subst. constructor. assumption.
Qed.

Lemma sort_by_time_sorted (lc : series) :
  nondecreasing (times (sort_by_time lc)).
Proof.
  induction lc as [| x rest IH]; simpl.
  - constructor.
  - apply insert_by_time_sorted, IH.
Qed.

Lemma filter_perm (p : sample -> bool) (l l' : series) :
  Permutation l l' -> Permutation (filter p l) (filter p l').
Proof.
  induction 1 as [| x l l' _ IH | x y l | l l' l'' _ IH1 _ IH2]; simpl.
  - constructor.
  - destruct (p x); [constructor |]; exact IH.
  - destruct (p x), (p y); try reflexivity. apply perm_swap.
  - etransitivity; eassumption.
Qed.

(** The floor of a number moved by a whole number moves by that number. *)
Lemma Qfloor_add_Z (q : Q) (k : Z) :
  Qfloor (q + inject_Z k) = (Qfloor q + k)%Z.
Proof.
  apply Z.le_antisymm.
  - apply Z.lt_succ_r. rewrite Zlt_Qlt.
    eapply Qle_lt_trans; [apply Qfloor_le |].
    replace (Z.succ (Qfloor q + k)) with ((Qfloor q + 1) + k)%Z by lia.
    rewrite inject_Z_plus.
    apply Qplus_lt_le_compat; [apply Qlt_floor | apply Qle_refl].
  - rewrite <- (Qfloor_Z (Qfloor q + k)).
    apply Qfloor_resp_le. rewrite inject_Z_plus.
    apply Qplus_le_compat; [apply Qfloor_le | apply Qle_refl].
Qed.

Lemma Qmod_add_multiple (x p : Q) (k : Z) :
  ~ p == 0 -> Qmod (x + inject_Z k * p) p == Qmod x p.
Proof.
  intros Hp. unfold Qmod.
  assert (E : (x + inject_Z k * p) / p == x / p + inject_Z k)
    by (field; exact Hp).
  rewrite (Qfloor_comp _ _ E), Qfloor_add_Z, inject_Z_plus. ring.
Qed.

Lemma phase_add_multiple (period epoch_time t : Q) (k : Z) :
  ~ period == 0 ->
  phase period epoch_time (t + inject_Z k * period)
  == phase period epoch_time t.
Proof.
  intros Hp. unfold phase.
  rewrite <- (Qmod_add_multiple (t - epoch_time) period k Hp).
  unfold Qmod.
  assert (E : t + inject_Z k * period - epoch_time
              == t - epoch_time + inject_Z k * period) by ring.
  assert (E' : (t + inject_Z k * period - epoch_time) / period
               == (t - epoch_time + inject_Z k * period) / period)
    by (rewrite E; reflexivity).
  rewrite (Qfloor_comp _ _ E'), E. reflexivity.
Qed.

Lemma phase_comp (period epoch_time t t' : Q) :
  t == t' -> phase period epoch_time t == phase period epoch_time t'.
Proof.
  intros E. unfold phase, Qmod.
  assert (E' : (t - epoch_time) / period == (t' - epoch_time) / period)
    by (rewrite E; reflexivity).
  rewrite (Qfloor_comp _ _ E'), E. reflexivity.
Qed.

(** The phase lies within one period, counted from the epoch. *)
Lemma phase_range (period epoch_time t : Q) :
  0 < period ->
  0 <= phase period epoch_time t /\ phase period epoch_time t < period.
Proof.
  intros Hp. unfold phase, Qmod.
  set (x := t - epoch_time).
  assert (Hne : ~ period == 0).
  { intros E. rewrite E in Hp. discriminate. }
  assert (Ex : x == period * (x / period)) by (field; exact Hne).
  pose proof (Qfloor_le (x / period)) as Hlo.
  pose proof (Qlt_floor (x / period)) as Hhi.
  rewrite inject_Z_plus in Hhi.
  split.
  - apply (Qmult_le_l _ _ period Hp) in Hlo.
    rewrite <- Ex in Hlo.
    apply (Qplus_le_l _ _ (period * inject_Z (Qfloor (x / period)))).
    ring_simplify. exact Hlo.
  - apply (Qmult_lt_l _ _ period Hp) in Hhi.
    rewrite <- Ex in Hhi.
    apply (Qplus_lt_l _ _ (period * inject_Z (Qfloor (x / period)))).
    ring_simplify. ring_simplify in Hhi. exact Hhi.
Qed.

(** C9.  Modelled from the spec: the fold of stage 5 maps the timestamps
    of the cleaned series modulo the detected period, anchored at the
    detected epoch.  For every period other than zero (every detected
    period is positive), every epoch and every cleaned series, two samples
    of the series whose timestamps differ by a whole multiple of the
    period are folded to samples of the folded series with the same
    phase.  The phases are exact rationals, so the tolerance is zero. *)
Theorem fold_is_periodic (period epoch_time : Q) (clean_lc : series)
    (x y : sample) (k : Z) :
  ~ period == 0 ->
  In x clean_lc -> In y clean_lc ->
  time y == time x + inject_Z k * period ->
  In (fold_sample period epoch_time x) (fold period epoch_time clean_lc) /\
  In (fold_sample period epoch_time y) (fold period epoch_time clean_lc) /\
  time (fold_sample period epoch_time y)
  == time (fold_sample period epoch_time x).
Proof.
  intros Hp Hx Hy Ht. unfold fold.
  split; [apply in_map, Hx |]. split; [apply in_map, Hy |].
  cbn [fold_sample time].
  rewrite (phase_comp _ _ _ _ Ht). apply phase_add_multiple, Hp.
Qed.

Section Model.

Variable rescale : series -> option Q -> option Q.

Lemma stitched_eq (retained : list series) :
  stitched rescale retained
  = Ok (remove_nans (stitch (map (normalize rescale) retained))).
Proof. reflexivity. Qed.

(** C8.  Modelled from the spec: the stitched series is the concatenation
    of the normalized segments sorted by timestamp, with the null-flux
    samples dropped.  For every list of retained segments (every valid
    non-empty one among them), stage 2 yields a stitched series; its
    timestamps never go down; it has no null-flux sample; and it holds
    the samples with a flux of the normalized segments, each as often as
    the segments do. *)
Theorem stitched_is_sorted (retained : list series) :
  exists s,
    stitched rescale retained = Ok s /\
    nondecreasing (times s) /\
    Forall (fun x => has_flux x = true) s /\
    Permutation s
      (filter has_flux (List.concat (map (normalize rescale) retained))).
Proof.
  rewrite stitched_eq. eexists. split; [reflexivity |].
  unfold remove_nans, stitch. repeat split.
  - apply nondecreasing_filter, sort_by_time_sorted.
  - apply Forall_forall. intros x Hx. apply filter_In in Hx. tauto.
  - apply filter_perm, sort_by_time_perm.
Qed.

End Model.

(** Two runs selected with the later one first: the stitched series
    starts with the earlier run. *)
Example stitched_later_first :
  exists s,
    stitched Demo.unit_baseline Demo.later_first = Ok s /\
    times s = [1; 2; 30; 31]%Q.
Proof. eexists. split; reflexivity. Qed.

(** A period of three days and an epoch at day one: day two and day
    eleven fall on the same phase. *)
Lemma fold_is_periodic_witness :
  ~ 3 == 0 /\
  time (fold_sample 3 1 (Demo.cadence 11 1))
  == time (fold_sample 3 1 (Demo.cadence 2 1)).
Proof.
  split; [discriminate |].
  apply (fold_is_periodic 3 1
           [Demo.cadence 2 1; Demo.cadence 11 1]
           (Demo.cadence 2 1) (Demo.cadence 11 1) 3).
  - discriminate.
  - simpl. left. reflexivity.
  - simpl. right. left. reflexivity.
  - reflexivity.
Defined.

End SeriesFacts.

(** ** The catalog client *)

Module CatalogFacts.
Import PyStr Pandas Catalog.

Example planets_of_four_objects :
  fetch_catalog_targets Demo.toi_csv [5; 1; 7]%nat "TESS" "PLANETS" 2
  = ([ReadCsv toi_url None],
     Ok {| columns := ["Searchable ID"; "Status"; "Orbital Period (days)"];
           rows := [ [VStr "TIC 400"; VStr "PC"; VNaN];
                     [VStr "TIC 300"; VStr "PC"; VInt 5] ] |}).
Proof. reflexivity. Qed.

(** The Kepler labels are not those of the table that came back. *)
Example schema_mismatch_warns :
  fetch_catalog_targets Demo.toi_csv [] "Kepler" "PLANETS" 25
  = ([ReadCsv koi_url None;
      StWarning "Could not dynamically fetch targets: 'koi_disposition'"],
     Ok empty_frame).
Proof. reflexivity. Qed.

(** No planet candidate among false positives: empty, and no warning. *)
Example no_match_is_silent :
  fetch_catalog_targets (fun _ _ => Ok Demo.fp_table) [] "TESS" "PLANETS" 25
  = ([ReadCsv toi_url None], Ok empty_frame).
Proof. reflexivity. Qed.

Example untested_of_three_stars :
  outcome (fetch_untested_targets Demo.toi_csv Demo.star_query 100)
  = Ok {| columns := ["Searchable ID"; "TESS Magnitude"; "Distance (pc)";
                      "ra"; "dec"];
          rows := [ [VStr "TIC 101"; VInt 10; VInt 60; VInt 11; VInt 21];
                    [VStr "TIC 102"; VInt 11; VInt 70; VInt 12; VInt 22] ] |}.
Proof. reflexivity. Qed.

Lemma startswith_app (p s : string) : startswith p (p ++ s) = true.
Proof.
  induction p as [| a p IH]; [reflexivity |].
  simpl. rewrite Ascii.eqb_refl. exact IH.
Qed.

Lemma value_eqb_eq (a b : value) : value_eqb a b = true <-> a = b.
Proof.
  destruct a, b; simpl; split; intros H; try discriminate; try reflexivity.
  - apply Z.eqb_eq in H. congruence.
  - injection H as ->. apply Z.eqb_refl.
  - apply String.eqb_eq in H. congruence.
  - injection H as ->. apply String.eqb_refl.
Qed.

Lemma isin_spec (v : value) (values : list value) :
  existsb (value_eqb v) values = true <-> In v values.
Proof.
  rewrite existsb_exists. split.
  - intros (x & Hx & Heq). apply value_eqb_eq in Heq. subst. exact Hx.
  - intros H. exists v. split; [exact H | apply value_eqb_eq; reflexivity].
Qed.

Lemma masked_rows {X} (f : X -> bool) (l : list X) :
  map snd (filter fst (combine (map f l) l)) = filter f l.
Proof.
  induction l as [| x l IH]; [reflexivity |].
  simpl. destruct (f x); simpl; rewrite IH; reflexivity.
Qed.

Lemma combine_with_map {X Y Z} (f : X -> Y) (g : X * Y -> Z) (l : list X) :
  map g (combine l (map f l)) = map (fun x => g (x, f x)) l.
Proof.
  induction l as [| x l IH]; [reflexivity |]. simpl. rewrite IH. reflexivity.
Qed.

Lemma remove_nth_incl {X} (k : nat) (l : list X) : incl (remove_nth k l) l.
Proof.
  revert k. induction l as [| x l IH]; intros k y Hy; [destruct k; exact Hy |].
  destruct k as [| k]; simpl in Hy.
  - right. exact Hy.
  - destruct Hy as [-> | Hy]; [left; reflexivity | right; exact (IH k y Hy)].
Qed.

Lemma sample_rows_incl {X} (n : nat) :
  forall (draws : list nat) (l : list X), incl (sample_rows draws n l) l.
Proof.
  induction n as [| n IH]; intros draws l y Hy; [destruct l; destruct Hy |].
  destruct l as [| x l]; [destruct Hy |].
  cbn [sample_rows] in Hy. destruct Hy as [<- | Hy].
  - destruct (nth_in_or_default (hd 0%nat draws mod List.length (x :: l))
                (x :: l) x) as [H | ->]; [exact H | left; reflexivity].
  - apply IH in Hy. exact (remove_nth_incl _ _ _ Hy).
Qed.

Lemma sample_rows_length {X} (n : nat) :
  forall (draws : list nat) (l : list X),
    (List.length (sample_rows draws n l) <= n)%nat.
Proof.
  induction n as [| n IH]; intros draws l; [destruct l; simpl; lia |].
  destruct l as [| x l]; [simpl; lia |].
  cbn [sample_rows List.length]. specialize (IH (tl draws)
    (remove_nth (hd 0%nat draws mod S (List.length l)) (x :: l))). lia.
Qed.

Lemma positions_available (have : list string) (labels : list string) :
  exists ix,
    positions (filter (fun l => has_column l have) labels) have = Ok ix.
Proof.
  induction labels as [| l labels [ix IH]]; [exists []; reflexivity |].
  simpl. unfold has_column at 1.
  destruct (index_of l have) as [i |] eqn:Hi.
  - simpl. rewrite Hi, IH. eexists; reflexivity.
  - exists ix. exact IH.
Qed.

Lemma prefix_column (p l : string) (df : DataFrame) (j : nat) :
  index_of l (columns df) = Some j ->
  match get_column df l with
  | Raise e => Raise e
  | Ok ids => Ok (set_column l (prefixed p ids) df)
  end
  = Ok {| columns := columns df;
          rows := map (fun r => set_nth j (VStr (p ++ astype_str (cell j r))) r)
                      (rows df) |}.
Proof.
  intros Hj. unfold get_column, set_column, prefixed. rewrite Hj.
  rewrite map_map. rewrite combine_with_map. reflexivity.
Qed.

Lemma display_tess (ds : list value) (cols : list string)
    (rs : list (list value)) (d : nat) (df : DataFrame) :
  index_of "TFOPWG Disposition" cols = Some d ->
  display (tess ds) {| columns := cols; rows := rs |} = Ok df ->
  exists i others extra,
    columns df = "Searchable ID" :: "Status" :: others /\
    rows df = map (fun r => VStr ("TIC " ++ astype_str (cell i r))
                              :: cell d r :: extra r) rs.
Proof.
  intros Hd. unfold display, select_columns.
  cbn [columns rows column_map tess id_col disposition_col prefix map fst].
  cbn [filter]. unfold has_column. rewrite Hd.
  destruct (index_of "TIC ID" cols) as [i |] eqn:Hi;
  destruct (index_of "Period (days)" cols) as [i1 |] eqn:H1;
  destruct (index_of "koi_period" cols) as [i2 |] eqn:H2;
  destruct (index_of "Planet Radius (R_earth)" cols) as [i3 |] eqn:H3;
  destruct (index_of "koi_prad" cols) as [i4 |] eqn:H4;
  cbn [positions]; rewrite ?Hd, ?Hi, ?H1, ?H2, ?H3, ?H4;
  try (erewrite prefix_column by reflexivity);
  try (unfold get_column; cbn; discriminate);
  intros H; injection H as <-; cbn [columns rows];
  exists i; eexists; eexists; (split; [reflexivity |]);
  rewrite map_map; cbn [set_nth cell nth map]; reflexivity.
Qed.

Lemma isin_rows (values : list value) (d : nat) (rs : list (list value)) :
  map snd (filter fst (combine (isin values (map (cell d) rs)) rs))
  = filter (fun r => existsb (value_eqb (cell d r)) values) rs.
Proof. unfold isin. rewrite map_map. apply masked_rows. Qed.

Lemma not_isin_rows (values : list value) (d : nat) (rs : list (list value)) :
  map snd (filter fst
             (combine (map negb (isin values (map (cell d) rs))) rs))
  = filter (fun r => negb (existsb (value_eqb (cell d r)) values)) rs.
Proof. unfold isin. rewrite !map_map. apply masked_rows. Qed.

Lemma rows_select_isin (values : list value) (d : nat) (df : DataFrame) :
  rows (select_rows (isin values (map (cell d) (rows df))) df)
  = filter (fun r => existsb (value_eqb (cell d r)) values) (rows df).
Proof. apply isin_rows. Qed.

Lemma rows_select_not_isin (values : list value) (d : nat) (df : DataFrame) :
  rows (select_rows (map negb (isin values (map (cell d) (rows df)))) df)
  = filter (fun r => negb (existsb (value_eqb (cell d r)) values)) (rows df).
Proof. apply not_isin_rows. Qed.

Lemma set_prefixed (p l : string) (df : DataFrame) (j : nat) :
  index_of l (columns df) = Some j ->
  set_column l (prefixed p (map (cell j) (rows df))) df
  = {| columns := columns df;
       rows := map (fun r => set_nth j (VStr (p ++ astype_str (cell j r))) r)
                   (rows df) |}.
Proof.
  intros Hj. unfold set_column, prefixed. rewrite Hj.
  rewrite map_map, combine_with_map. reflexivity.
Qed.

Lemma index_of_lt (l : string) (labels : list string) :
  forall i, index_of l labels = Some i -> (i < List.length labels)%nat.
Proof.
  induction labels as [| a labels IH]; intros i H; [discriminate |].
  simpl in H. destruct (String.eqb l a).
  - injection H as <-. simpl. lia.
  - destruct (index_of l labels) as [j |]; [| discriminate].
    injection H as <-. specialize (IH j eq_refl). simpl. lia.
Qed.

Lemma cell_set_nth (v : value) (row : list value) :
  forall i, (i < List.length row)%nat -> cell i (set_nth i v row) = v.
Proof.
  unfold cell. induction row as [| x row IH]; intros i Hi; [simpl in Hi; lia |].
  destruct i as [| i]; [reflexivity |]. simpl. apply IH. simpl in Hi. lia.
Qed.

(** The renamed ID column is the first column labelled [Searchable ID]
    when the catalogue answer has no column of that label. *)
Lemma index_of_display_id (labels : list string) :
  ~ In "Searchable ID" labels ->
  forall i, index_of "ID" labels = Some i ->
    index_of "Searchable ID" (map (rename_label display_names) labels)
    = Some i.
Proof.
  induction labels as [| a labels IH]; intros Hno i Hi; [discriminate |].
  cbn [index_of] in Hi. cbn [map index_of].
  destruct (String.eqb "ID" a) eqn:Ha.
  - apply String.eqb_eq in Ha. subst a. injection Hi as <-. reflexivity.
  - assert (Hsid : String.eqb "Searchable ID" a = false).
    { apply String.eqb_neq. intros E. apply Hno. left. symmetry. exact E. }
    assert (Hren : String.eqb "Searchable ID"
                     (rename_label display_names a) = false).
    { unfold rename_label, display_names. cbn [find fst snd].
      rewrite (String.eqb_sym a "ID"), Ha.
      destruct (String.eqb a "Tmag"); [reflexivity |].
      destruct (String.eqb a "dst"); [reflexivity | exact Hsid]. }
    rewrite Hren.
    destruct (index_of "ID" labels) as [j |]; [| discriminate].
    injection Hi as <-.
    rewrite (IH (fun H => Hno (or_intror H)) j eq_refl). reflexivity.
Qed.

Lemma filter_none {X} (f : X -> bool) (l : list X) :
  (forall x, In x l -> f x = false) -> filter f l = [].
Proof.
  induction l as [| x l IH]; intros H; [reflexivity |].
  simpl. rewrite (H x (or_introl eq_refl)).
  apply IH. intros y Hy. apply H. right. exact Hy.
Qed.

Section Client.

Variable csv : string -> option ascii -> result DataFrame.
Variable tic : string -> Z * Z -> Z * Z -> Z -> result DataFrame.
Variable draws : list nat.

(** What [fetch_selected] returns, call by call. *)
Lemma fetch_selected_eq (c : selection) (n : Z) :
  fetch_selected csv draws c n
  = ([ReadCsv (url c) (comment_char (url c))],
     match csv (url c) (comment_char (url c)) with
     | Raise e => Raise e
     | Ok catalog_df =>
         match get_column catalog_df (disposition_col c) with
         | Raise e => Raise e
         | Ok dispositions =>
             let filtered_df :=
               select_rows (isin (dispositions_to_find c) dispositions)
                 catalog_df in
             if empty filtered_df then Ok empty_frame
             else
               match sample draws
                       (Z.min n (Z.of_nat (len filtered_df))) filtered_df with
               | Raise e => Raise e
               | Ok final_sample => display c final_sample
               end
         end
     end).
Proof.
  unfold fetch_selected, read_csv. cbn [emit bind lift app fst snd].
  destruct (csv (url c) (comment_char (url c))) as [catalog_df | e];
    [| reflexivity].
  cbn [bind app]. destruct (get_column catalog_df (disposition_col c));
    [| reflexivity].
  cbn [bind app].
  destruct (empty _); [reflexivity |].
  destruct (sample _ _ _); [| reflexivity].
  cbn [bind app lift]. destruct (display c a0); reflexivity.
Qed.

Lemma fetch_catalog_targets_eq (m d : string) (n : Z) (c : selection) :
  select_catalog m d = Some c ->
  fetch_catalog_targets csv draws m d n
  = match snd (fetch_selected csv draws c n) with
    | Ok df => ([ReadCsv (url c) (comment_char (url c))], Ok df)
    | Raise e =>
        ([ReadCsv (url c) (comment_char (url c));
          StWarning ("Could not dynamically fetch targets: " ++ e)],
         Ok empty_frame)
    end.
Proof.
  intros Hc. unfold fetch_catalog_targets. rewrite Hc, fetch_selected_eq.
  cbn [snd]. destruct (match csv _ _ with Ok _ => _ | Raise _ => _ end);
    reflexivity.
Qed.

Lemma tess_planet_rows (d : nat) (rs picked : list (list value))
    (df : DataFrame) (i : nat) (others : list string)
    (extra : list value -> list value) :
  incl picked
    (filter (fun r => existsb (value_eqb (cell d r)) [VStr "CP"; VStr "PC"])
       rs) ->
  columns df = "Searchable ID" :: "Status" :: others ->
  rows df = map (fun r => VStr ("TIC " ++ astype_str (cell i r))
                            :: cell d r :: extra r) picked ->
  forall row, In row (rows df) -> tess_planet_row df row.
Proof.
  intros Hincl Hcols Hrows row Hrow. rewrite Hrows in Hrow.
  apply in_map_iff in Hrow as (r & <- & Hr).
  apply Hincl, filter_In in Hr as [_ Hstatus].
  apply isin_spec in Hstatus.
  unfold tess_planet_row, lookup. rewrite Hcols. cbn [index_of String.eqb
    Ascii.eqb Bool.eqb option_map cell nth]. split.
  - eexists. split; [reflexivity | apply startswith_app].
  - destruct Hstatus as [<- | [<- | []]]; auto.
Qed.

(** C2.  A call for the planet candidates of TESS with a count of 25
    returns a table of at most 25 rows; in each row the searchable ID
    starts with [TIC ] and the status is CP or PC. *)
Theorem tess_planets_sample (df : DataFrame) :
  outcome (fetch_catalog_targets csv draws "TESS" "PLANETS" 25) = Ok df ->
  (len df <= 25)%nat /\
  forall row, In row (rows df) -> tess_planet_row df row.
Proof.
  rewrite (fetch_catalog_targets_eq "TESS" "PLANETS" 25
             (tess [VStr "CP"; VStr "PC"]) eq_refl).
  rewrite fetch_selected_eq. cbn [snd].
  assert (Hempty : (len empty_frame <= 25)%nat /\
            forall row, In row (rows empty_frame) ->
                        tess_planet_row empty_frame row)
    by (split; [cbn; lia | intros row []]).
  destruct (csv _ _) as [catalog_df | e];
    [| cbn; intros H; injection H as <-; exact Hempty].
  unfold get_column. cbn [disposition_col tess dispositions_to_find].
  destruct (index_of "TFOPWG Disposition" (columns catalog_df)) as [d |] eqn:Hd;
    [| cbn; intros H; injection H as <-; exact Hempty].
  cbv zeta. destruct (empty _);
    [cbn; intros H; injection H as <-; exact Hempty |].
  unfold sample.
  destruct (_ <? 0)%Z; [cbn; intros H; injection H as <-; exact Hempty |].
  destruct (_ <? _)%Z; [cbn; intros H; injection H as <-; exact Hempty |].
  destruct (display _ _) as [shown | e] eqn:Hshown;
    [| cbn; intros H; injection H as <-; exact Hempty].
  cbn [outcome snd]. intros H; injection H as <-.
  destruct (display_tess _ _ _ _ _ Hd Hshown)
    as (i & others & extra & Hcols & Hrows).
  split.
  - unfold len. rewrite Hrows, length_map.
    etransitivity; [apply sample_rows_length | lia].
  - eapply tess_planet_rows; [| exact Hcols | exact Hrows].
    rewrite rows_select_isin. apply sample_rows_incl.
Qed.

(** C10.  For a mission other than TESS, Kepler and K2 the function
    returns the empty table at once: nothing is fetched and nothing is
    put on the page. *)
Theorem unknown_mission_fetches_nothing (mission_name disposition_type : string)
    (num_targets : Z) :
  mission_name <> "TESS" -> mission_name <> "Kepler" -> mission_name <> "K2" ->
  fetch_catalog_targets csv draws mission_name disposition_type num_targets
  = ([], Ok empty_frame).
Proof.
  intros H1 H2 H3. unfold fetch_catalog_targets, select_catalog.
  apply String.eqb_neq in H1, H2, H3. rewrite H1, H2, H3. reflexivity.
Qed.

(** C6.  [fetch_catalog_targets] never raises.  For a known mission: when
    the fetch raises, or the table lacks the disposition column, the page
    gets one warning with the text of the exception and the empty table
    comes back; when no row has one of the wanted dispositions, the empty
    table comes back with no warning. *)
Theorem fetch_catalog_targets_degrades (mission_name disposition_type : string)
    (num_targets : Z) :
  let run :=
    fetch_catalog_targets csv draws mission_name disposition_type num_targets in
  (exists df, outcome run = Ok df) /\
  forall c, select_catalog mission_name disposition_type = Some c ->
    let request := ReadCsv (url c) (comment_char (url c)) in
    let warning e :=
      StWarning ("Could not dynamically fetch targets: " ++ e) in
    (forall e,
        csv (url c) (comment_char (url c)) = Raise e ->
        run = ([request; warning e], Ok empty_frame)) /\
    (forall catalog_df e,
        csv (url c) (comment_char (url c)) = Ok catalog_df ->
        get_column catalog_df (disposition_col c) = Raise e ->
        run = ([request; warning e], Ok empty_frame)) /\
    (forall catalog_df dispositions,
        csv (url c) (comment_char (url c)) = Ok catalog_df ->
        get_column catalog_df (disposition_col c) = Ok dispositions ->
        (forall v, In v dispositions -> ~ In v (dispositions_to_find c)) ->
        run = ([request], Ok empty_frame)).
Proof.
  intros run. subst run. split.
  - destruct (select_catalog mission_name disposition_type) as [c |] eqn:Hc.
    + rewrite (fetch_catalog_targets_eq _ _ _ c Hc).
      destruct (snd _); eexists; reflexivity.
    + unfold fetch_catalog_targets. rewrite Hc. eexists; reflexivity.
  - intros c Hc request warning.
    rewrite (fetch_catalog_targets_eq _ _ _ c Hc), fetch_selected_eq.
    cbn [snd]. repeat split.
    + intros e ->. reflexivity.
    + intros catalog_df e -> ->. reflexivity.
    + intros catalog_df dispositions -> Hcol Hnone. rewrite Hcol. cbv zeta.
      unfold get_column in Hcol.
      destruct (index_of (disposition_col c) (columns catalog_df)) as [d |];
        [| discriminate].
      injection Hcol as <-.
      assert (Hrows : rows (select_rows
                (isin (dispositions_to_find c)
                   (map (cell d) (rows catalog_df))) catalog_df) = []).
      { rewrite rows_select_isin. apply filter_none. intros r Hr.
        destruct (existsb _ _) eqn:Hex; [| reflexivity].
        apply isin_spec in Hex. exfalso.
        exact (Hnone _ (in_map (cell d) _ _ Hr) Hex). }
      unfold empty. rewrite Hrows.
      destruct (columns _); reflexivity.
Qed.

End Client.

(** A planet-candidate table drawn from four objects. *)
Lemma tess_planets_sample_witness :
  exists df,
    outcome (fetch_catalog_targets Demo.toi_csv [5; 1; 7]%nat
               "TESS" "PLANETS" 25) = Ok df /\
    len df = 3%nat /\
    forall row, In row (rows df) -> tess_planet_row df row.
Proof.
  eexists. split; [reflexivity |]. split; [reflexivity |].
  exact (proj2 (tess_planets_sample Demo.toi_csv [5; 1; 7]%nat _ eq_refl)).
Defined.

(** A mission the client does not know. *)
Lemma unknown_mission_fetches_nothing_witness :
  fetch_catalog_targets Demo.toi_csv [] "JWST" "PLANETS" 25
  = ([], Ok empty_frame).
Proof.
  apply unknown_mission_fetches_nothing; discriminate.
Defined.

(** The archive is out of reach while the Kepler table is asked for. *)
Lemma fetch_catalog_targets_degrades_witness :
  fetch_catalog_targets Demo.failing_csv [] "Kepler" "FALSE_POSITIVES" 25
  = ([ReadCsv koi_url None;
      StWarning ("Could not dynamically fetch targets: "
                   ++ "HTTP Error 503: Service Unavailable")],
     Ok empty_frame).
Proof.
  exact (proj1 (proj2 (fetch_catalog_targets_degrades Demo.failing_csv []
                         "Kepler" "FALSE_POSITIVES" 25)
                  (kepler [VStr "FALSE POSITIVE"]) eq_refl)
           "HTTP Error 503: Service Unavailable" eq_refl).
Defined.

(** C1 fails on the code.  The list of known objects holds the ID 100 as
    the integer [read_csv] parses; the answer of the star catalogue holds
    the same ID as text.  [isin] finds no integer equal to a text, so no
    star is filtered out, and the table that comes back, without a
    warning, shows [TIC 100], the ID of a known object. *)
Theorem known_object_comes_back :
  exists df row,
    get_column Demo.toi_table "TIC ID"
    = Ok [VInt 100; VInt 200; VInt 300; VInt 400] /\
    fetch_untested_targets Demo.toi_csv Demo.text_star_query 100
    = ([StToast "Downloading the list of known planet candidates (TOIs)...";
        ReadCsv toi_url None;
        StToast "Fetching a random sample of stars from the TESS Input Catalog...";
        QueryCriteria "TIC" (9, 13)%Z (2, 100)%Z 100], Ok df) /\
    map (lookup df "Searchable ID") (rows df)
    = [Some (VStr "TIC 100"); Some (VStr "TIC 101"); Some (VStr "TIC 102")] /\
    In row (rows df) /\
    shows_known [VInt 100; VInt 200; VInt 300; VInt 400] df row.
Proof.
  eexists. eexists. split; [reflexivity |]. split; [reflexivity |].
  split; [reflexivity |]. split; [left; reflexivity |].
  exists (VInt 100). split; [left; reflexivity | reflexivity].
Qed.

(** The size of the table is not cut to [num_to_sample] either: the star
    catalogue answers a query of page size 1 with three stars, and the two
    that are not known objects both come back. *)
Example untested_targets_exceed_page_size :
  exists df,
    fetch_untested_targets Demo.toi_csv Demo.star_query 1
    = ([StToast "Downloading the list of known planet candidates (TOIs)...";
        ReadCsv toi_url None;
        StToast "Fetching a random sample of stars from the TESS Input Catalog...";
        QueryCriteria "TIC" (9, 13)%Z (2, 100)%Z 1], Ok df) /\
    map (lookup df "Searchable ID") (rows df)
    = [Some (VStr "TIC 101"); Some (VStr "TIC 102")] /\
    ~ (Z.of_nat (len df) <= 1)%Z.
Proof.
  eexists. split; [reflexivity |]. split; [reflexivity |].
  cbn. lia.
Qed.

End CatalogFacts.

(* ================================================================== *)
(** * Further properties *)
(* ================================================================== *)

(** ** The pipeline, run by run *)

Module PipelineRuns.
Import PyStr Pipeline PipelineFacts Stage1.

Lemma downloads_app (t1 t2 : trace) :
  downloads (t1 ++ t2) = downloads t1 ++ downloads t2.
Proof. apply filter_app. Qed.

Section Run.

Variable L : LightCurveOps.
Variable A : AnalysisOps (LightCurve L).

Local Abbreviation LC := (LightCurve L).

Lemma prepare_shape (i : nat) (item : SearchItem LC) (acc : list LC)
    (t : trace) (r : result (list LC)) :
  prepare L i item acc = (t, r) ->
  downloads t = [Download i] /\ plots t = [].
Proof.
  unfold prepare. intros H.
  destruct (download item) as [[lc |] | e]; msimpl_in H.
  - destruct (remove_nans L lc) as [valid | e]; msimpl_in H.
    + destruct (0 <? flux_len L valid)%nat; msimpl_in H.
      * destruct (normalize L lc); msimpl_in H; inversion H; split; reflexivity.
      * inversion H; split; reflexivity.
    + inversion H; split; reflexivity.
  - inversion H; split; reflexivity.
  - inversion H; split; reflexivity.
Qed.

Lemma download_loop_shape (total_files : nat) (items : list (SearchItem LC)) :
  forall (i : nat) (acc : list LC) (t : trace) (r : result (list LC)),
    download_loop L total_files i items acc = (t, r) ->
    plots t = [] /\
    exists k, (k <= List.length items)%nat /\
              downloads t = map Download (seq i k) /\
              (forall x, r = Ok x -> k = List.length items).
Proof.
  induction items as [| item rest IH]; intros i acc t r H.
  - inversion H; subst. split; [reflexivity |].
    exists 0%nat. repeat split; auto.
  - cbn [download_loop] in H.
    destruct (prepare L i item acc) as [tp [acc' | e]] eqn:Hp;
      destruct (prepare_shape _ _ _ _ _ Hp) as [Hd Hpl].
    + msimpl_in H.
      destruct (download_loop L total_files (S i) rest acc') as [tl rl] eqn:Hl.
      inversion H; subst.
      destruct (IH _ _ _ _ Hl) as (Hpl' & k & Hk & Hdl & Hall).
      split.
      * unfold plots in *. cbn [filter is_plot]. rewrite filter_app, Hpl.
        cbn [filter is_plot app]. exact Hpl'.
      * exists (S k). split; [cbn; lia |]. split.
        -- unfold downloads in *. cbn [filter is_download].
           rewrite filter_app, Hd. cbn [filter is_download app seq map].
           rewrite Hdl. reflexivity.
        -- intros x Hx. cbn. f_equal. exact (Hall x Hx).
    + msimpl_in H. inversion H; subst. split.
      * unfold plots in *. cbn [filter is_plot]. exact Hpl.
      * exists 1%nat. split; [cbn; lia |]. split.
        -- unfold downloads in *. cbn [filter is_download]. exact Hd.
        -- intros x Hx. discriminate.
Qed.

Lemma stage1_shape (items : list (SearchItem LC)) (t : trace)
    (r : result (list LC)) :
  stage1 L items = (t, r) ->
  plots t = [] /\
  exists k, (k <= List.length items)%nat /\
            downloads t = map Download (seq 0 k) /\
            (forall x, r = Ok x -> k = List.length items).
Proof.
  unfold stage1. msimpl. intros H.
  destruct (download_loop L (List.length items) 0 items []) as [tl rl] eqn:Hl.
  inversion H; subst. exact (download_loop_shape _ _ _ _ _ _ Hl).
Qed.

(** What the stages after the loop leave on the page, when at least one
    curve was retained. *)
Lemma after_download_shape (lc : LC) (rest : list LC) (t : trace)
    (r : result unit) :
  after_download L A (lc :: rest) = (t, r) ->
  errors t = [] /\ downloads t = [] /\
  ((r = Ok tt /\
    last t StatusEmpty = StatusSuccess "🎉 Analysis Complete!" /\
    exists title,
      plots t = [StPyplot CleanedPlot; StPyplot PeriodogramPlot;
                 StPyplot (FoldedPlot title)]) \/
   ((exists e, r = Raise e) /\
    (plots t = [] \/ plots t = [StPyplot CleanedPlot] \/
     plots t = [StPyplot CleanedPlot; StPyplot PeriodogramPlot]))).
Proof.
  unfold after_download, stage2, stage3, stage4, stage5. intros H.
  revert H; msimpl; library_cases; intros H; inversion H; subst;
    (split; [reflexivity |]); (split; [reflexivity |]);
    solve [ left; split; [reflexivity |]; split; [reflexivity |];
            eexists; reflexivity
          | right; split; [eexists; reflexivity |]; auto ].
Qed.

Lemma last_app_nonempty {X} (l1 l2 : list X) (d : X) :
  l2 <> [] -> last (l1 ++ l2) d = last l2 d.
Proof.
  intros H. induction l1 as [| x l1 IH]; [reflexivity |].
  cbn [app]. rewrite <- IH.
  destruct (l1 ++ l2) eqn:E; [| reflexivity].
  apply app_eq_nil in E. tauto.
Qed.

(** The two ways a run can go. *)
Lemma run_cases (selected_items : list (SearchItem LC)) :
  let run := process_selected_data L A selected_items in
  outcome run = Ok tt /\
  ((errors (effects run) = [] /\
    last (effects run) StatusEmpty = StatusSuccess "🎉 Analysis Complete!" /\
    exists title,
      plots (effects run)
      = [StPyplot CleanedPlot; StPyplot PeriodogramPlot;
         StPyplot (FoldedPlot title)]) \/
   (exists t msg,
      effects run = t ++ [StError msg; StatusEmpty; ProgressEmpty] /\
      errors t = [] /\
      (plots t = [] \/ plots t = [StPyplot CleanedPlot] \/
       plots t = [StPyplot CleanedPlot; StPyplot PeriodogramPlot]))).
Proof.
  intros run. subst run. unfold process_selected_data.
  destruct (pipeline_body L A selected_items) as [t [[] | e]] eqn:Hb;
    cbn [try_except on_exception emit bind app fst snd outcome effects].
  - split; [reflexivity |]. unfold pipeline_body in Hb.
    apply bind_inv in Hb as [(e & _ & He) | (t1 & processed & t2 & H1 & H2 & ->)];
      [discriminate |].
    destruct (stage1_shape _ _ _ H1) as [Hpl1 _].
    pose proof (stage1_quiet _ _ _ _ H1) as Hq1.
    destruct processed as [| lc rest].
    + cbn in H2. inversion H2; subst. right.
      exists t1, no_data_message. auto.
    + destruct (after_download_shape _ _ _ _ H2)
        as (Hq2 & _ & [(_ & Hlast & title & Hpl2) | ((e & He) & _)]);
        [| discriminate].
      left. split; [rewrite errors_app, Hq1, Hq2; reflexivity |].
      split.
      * rewrite last_app_nonempty; [exact Hlast |].
        intros ->. discriminate.
      * exists title. rewrite plots_app, Hpl1, Hpl2. reflexivity.
  - split; [reflexivity |]. right. exists t, (failure_message e).
    split; [reflexivity |]. split; [exact (pipeline_body_quiet _ _ _ _ _ Hb) |].
    unfold pipeline_body in Hb.
    apply bind_inv in Hb as [(e' & H1 & _) | (t1 & processed & t2 & H1 & H2 & ->)].
    + left. exact (proj1 (stage1_shape _ _ _ H1)).
    + destruct (stage1_shape _ _ _ H1) as [Hpl1 _].
      destruct processed as [| lc rest]; [cbn in H2; discriminate |].
      destruct (after_download_shape _ _ _ _ H2)
        as (_ & _ & [(Hok & _) | (_ & Hpl2)]); [discriminate |].
      rewrite plots_app, Hpl1. exact Hpl2.
Qed.

(** X1.  Every run returns normally, whatever the library calls do, and leaves
    the two indicators resolved: the status shows the success notice as
    the last effect of the run, or an [st.error] is followed by the
    emptying of the status and of the progress bar, with nothing after. *)
Theorem every_run_ends_resolved (selected_items : list (SearchItem LC)) :
  let run := process_selected_data L A selected_items in
  outcome run = Ok tt /\
  (last (effects run) StatusEmpty = StatusSuccess "🎉 Analysis Complete!" \/
   exists t msg,
     effects run = t ++ [StError msg; StatusEmpty; ProgressEmpty]).
Proof.
  intros run.
  destruct (run_cases selected_items) as [Hok [(_ & Hlast & _) | (t & msg & Ht & _)]].
  - split; [exact Hok | left; exact Hlast].
  - split; [exact Hok | right; exists t, msg; exact Ht].
Qed.

(** X2.  A run shows either the three figures, cleaned curve, periodogram and
    folded curve in that order, and no error; or exactly one error and
    only the figures that come before the point of failure: none, the
    first, or the first two. *)
Theorem figures_or_one_error (selected_items : list (SearchItem LC)) :
  let run := process_selected_data L A selected_items in
  (errors (effects run) = [] /\
   exists title,
     plots (effects run)
     = [StPyplot CleanedPlot; StPyplot PeriodogramPlot;
        StPyplot (FoldedPlot title)]) \/
  (exists msg,
     errors (effects run) = [StError msg] /\
     (plots (effects run) = [] \/
      plots (effects run) = [StPyplot CleanedPlot] \/
      plots (effects run) = [StPyplot CleanedPlot; StPyplot PeriodogramPlot])).
Proof.
  intros run.
  destruct (run_cases selected_items)
    as [_ [(Herr & _ & Hplots) | (t & msg & Ht & Hq & Hpl)]].
  - left. split; [exact Herr | exact Hplots].
  - right. exists msg. fold run in Ht. rewrite Ht.
    rewrite errors_app, Hq, plots_app. cbn [app errors plots filter is_error
      is_plot]. rewrite app_nil_r. split; [reflexivity | exact Hpl].
Qed.

Lemma prepare_raising (i : nat) (item : SearchItem LC) (acc : list LC)
    (e : string) :
  raising L item e -> exists t, prepare L i item acc = (t, Raise e).
Proof.
  unfold prepare.
  intros [H | (lc & H & [Hv | (valid & Hv & Hn & Hnorm)])]; rewrite H; msimpl.
  - eexists; reflexivity.
  - rewrite Hv. eexists; reflexivity.
  - rewrite Hv. msimpl. apply Nat.ltb_lt in Hn. rewrite Hn, Hnorm. msimpl.
    eexists; reflexivity.
Qed.

Lemma prepare_handled (i : nat) (item : SearchItem LC) (acc : list LC)
    (kept : option LC) :
  handled L item kept ->
  exists t,
    prepare L i item acc
    = (t, Ok (acc ++ match kept with Some x => [x] | None => [] end)).
Proof.
  destruct kept as [normalized_lc |]; cbn [handled].
  - intros (lc & valid & Hdl & Hv & Hn & Hnorm). unfold prepare.
    rewrite Hdl. msimpl. rewrite Hv. msimpl.
    apply Nat.ltb_lt in Hn. rewrite Hn. rewrite Hnorm. msimpl.
    eexists; reflexivity.
  - intros H. rewrite (prepare_discarded L i item acc H), app_nil_r.
    eexists; reflexivity.
Qed.

Lemma download_loop_handled (total_files : nat)
    (items : list (SearchItem LC)) (ks : list (option LC)) :
  Forall2 (handled L) items ks ->
  forall (i : nat) (acc : list LC),
    outcome (download_loop L total_files i items acc)
    = Ok (acc ++ kept_curves ks).
Proof.
  induction 1 as [| item kept items ks Hitem _ IH]; intros i acc.
  - cbn. rewrite app_nil_r. reflexivity.
  - cbn [download_loop].
    destruct (prepare_handled i item acc kept Hitem) as [t Ht]. rewrite Ht.
    msimpl. specialize (IH (S i) (acc ++ match kept with
                                        | Some x => [x] | None => [] end)).
    destruct (download_loop L total_files (S i) items _) as [tl rl].
    cbn [outcome snd] in *. rewrite IH, <- app_assoc. reflexivity.
Qed.

(** The loop on a selection whose first product that raises comes after
    products that are all handled: the downloads go up to that product,
    and the loop raises what the product raises. *)
Lemma download_loop_raising (total_files : nat)
    (before : list (SearchItem LC)) (ks : list (option LC))
    (item : SearchItem LC) (after : list (SearchItem LC)) (e : string) :
  Forall2 (handled L) before ks -> raising L item e ->
  forall (i : nat) (acc : list LC),
  exists t,
    download_loop L total_files i (before ++ item :: after) acc
    = (t, Raise e) /\
    downloads t = map Download (seq i (S (List.length before))).
Proof.
  intros Hbefore Hitem.
  induction Hbefore as [| first kept before ks Hfirst _ IH]; intros i acc.
  - cbn [app download_loop].
    destruct (prepare_raising i item acc e Hitem) as [t Ht].
    destruct (prepare_shape _ _ _ _ _ Ht) as [Hd _].
    rewrite Ht. msimpl. eexists. split; [reflexivity |].
    unfold downloads in *. cbn [filter is_download]. exact Hd.
  - cbn [app download_loop].
    destruct (prepare_handled i first acc kept Hfirst) as [t Ht].
    destruct (prepare_shape _ _ _ _ _ Ht) as [Hd _].
    rewrite Ht. msimpl.
    destruct (IH (S i) (acc ++ match kept with
                               | Some x => [x] | None => [] end))
      as (tl & Hl & Hdl).
    rewrite Hl. msimpl. eexists. split; [reflexivity |].
    unfold downloads in *. cbn [filter is_download].
    rewrite filter_app, Hd. cbn [filter is_download app].
    rewrite Hdl. reflexivity.
Qed.

(** X3.  The products are downloaded one by one in the order of the
    selection, each at most once; when stage 1 comes to its end every
    product has been downloaded; and when the calls of stage 1 answer for
    the products in front of one on which a call raises, the downloads
    are those of the products up to that one and no other, and the run
    reports what was raised as its one error. *)
Theorem downloads_follow_selection (selected_items : list (SearchItem LC)) :
  let run := process_selected_data L A selected_items in
  (exists k,
     (k <= List.length selected_items)%nat /\
     downloads (effects run) = map Download (seq 0 k) /\
     (forall t processed,
         stage1 L selected_items = (t, Ok processed) ->
         k = List.length selected_items)) /\
  (forall before item after ks e,
     selected_items = before ++ item :: after ->
     Forall2 (handled L) before ks ->
     raising L item e ->
     downloads (effects run)
     = map Download (seq 0 (S (List.length before))) /\
     errors (effects run) = [StError (failure_message e)] /\
     plots (effects run) = []).
Proof.
  intros run. subst run. split.
  - unfold process_selected_data, pipeline_body.
    destruct (stage1 L selected_items) as [t1 r1] eqn:H1.
    destruct (stage1_shape _ _ _ H1) as (_ & k & Hk & Hd & Hall).
    exists k. split; [exact Hk |]. split.
    + destruct r1 as [processed | e].
      * rewrite bind_ok.
        destruct (after_download L A processed) as [t2 r2] eqn:H2.
        assert (Hd2 : downloads t2 = []).
        { destruct processed as [| lc rest].
          - cbn in H2. inversion H2; reflexivity.
          - exact (proj1 (proj2 (after_download_shape _ _ _ _ H2))). }
        cbn [fst snd].
        destruct r2 as [[] | e]; cbn [try_except on_exception emit bind app fst
          snd effects]; rewrite ?downloads_app, Hd, Hd2; cbn;
          rewrite ?app_nil_r; reflexivity.
      * rewrite bind_raise. cbn [try_except on_exception emit bind app fst snd
          effects]. rewrite downloads_app, Hd. cbn. apply app_nil_r.
    + intros t processed Heq. inversion Heq; subst. exact (Hall _ eq_refl).
  - intros before item after ks e -> Hbefore Hitem.
    destruct (download_loop_raising (List.length (before ++ item :: after))
                before ks item after e Hbefore Hitem 0%nat [])
      as (tl & Hl & Hdl).
    assert (H1 : exists t1,
              stage1 L (before ++ item :: after) = (t1, Raise e) /\
              downloads t1 = map Download (seq 0 (S (List.length before)))).
    { unfold stage1. msimpl. rewrite Hl. eexists. split; [reflexivity |].
      exact Hdl. }
    destruct H1 as (t1 & H1 & Hd1).
    pose proof (stage1_quiet _ _ _ _ H1) as Hq.
    destruct (stage1_shape _ _ _ H1) as (Hpl & _).
    unfold process_selected_data, pipeline_body. rewrite H1, bind_raise.
    unfold try_except, on_exception.
    cbn [emit bind fst snd effects].
    change ([StError (failure_message e)] ++ [StatusEmpty] ++ [ProgressEmpty])
      with [StError (failure_message e); StatusEmpty; ProgressEmpty].
    rewrite downloads_app, errors_app, plots_app, Hq, Hpl, Hd1.
    cbn [app]. rewrite app_nil_r. auto.
Qed.

(** X4.  When every call of stage 1 answers, stage 1 hands on the normalized
    curves of the products it retains, in the order of the selection;
    discarded products leave no gap. *)
Theorem stage1_keeps_selection_order (selected_items : list (SearchItem LC))
    (ks : list (option LC)) :
  Forall2 (handled L) selected_items ks ->
  outcome (stage1 L selected_items) = Ok (kept_curves ks).
Proof.
  intros H. unfold stage1. msimpl.
  pose proof (download_loop_handled (List.length selected_items) _ _ H 0%nat [])
    as Hloop.
  destruct (download_loop L (List.length selected_items) 0 selected_items [])
    as [tl rl].
  cbn [outcome snd] in *. exact Hloop.
Qed.

End Run.

(** A product that downloads between two null downloads. *)
Lemma stage1_keeps_selection_order_witness :
  outcome (stage1 Demo.curves Samples.mixed_products) = Ok [tt].
Proof.
  apply (stage1_keeps_selection_order Demo.curves Samples.mixed_products
           [None; Some tt; None]).
  repeat constructor.
  exists tt, tt. repeat split. cbn. lia.
Defined.

(** The download of the second of three products times out: the third
    is not downloaded. *)
Lemma downloads_follow_selection_witness :
  downloads (effects (process_selected_data Demo.curves Demo.search
                        Samples.interrupted_products))
  = [Download 0; Download 1] /\
  errors (effects (process_selected_data Demo.curves Demo.search
                     Samples.interrupted_products))
  = [StError (failure_message "Timeout")] /\
  plots (effects (process_selected_data Demo.curves Demo.search
                    Samples.interrupted_products))
  = [].
Proof.
  apply (proj2 (downloads_follow_selection Demo.curves Demo.search
                  Samples.interrupted_products)
           [ {| download := Ok (Some tt) |} ]
           {| download := Raise "Timeout" |}
           [ {| download := Ok (Some tt) |} ]
           [Some tt] "Timeout" eq_refl).
  - repeat constructor. exists tt, tt. repeat split. cbn. lia.
  - left. reflexivity.
Defined.

End PipelineRuns.

(** ** The catalog client, call by call *)

Module CatalogCalls.
Import PyStr Pandas Catalog CatalogFacts CatalogRows.

Lemma remove_nth_length {X} (l : list X) :
  forall k, (k < List.length l)%nat ->
            List.length (remove_nth k l) = (List.length l - 1)%nat.
Proof.
  induction l as [| x l IH]; intros k Hk; [simpl in Hk; lia |].
  destruct k as [| k]; simpl; [lia |].
  simpl in Hk. rewrite IH by lia. destruct l; simpl in *; lia.
Qed.

Lemma sample_rows_exact {X} (n : nat) :
  forall (draws : list nat) (l : list X),
    List.length (sample_rows draws n l) = Nat.min n (List.length l).
Proof.
  induction n as [| n IH]; intros draws l; [destruct l; reflexivity |].
  destruct l as [| x l]; [reflexivity |].
  cbn [sample_rows]. cbn [List.length]. rewrite IH.
  rewrite remove_nth_length.
  - cbn [List.length]. lia.
  - apply Nat.mod_upper_bound. discriminate.
Qed.

(** Lines 100-107 for the two catalogues: with the disposition column at
    [d], the table is built when the ID column is there, and the lookup of
    [Searchable ID] raises when it is not. *)
Lemma display_shape (c : selection) (cols : list string)
    (rs : list (list value)) (d : nat) :
  (exists ds, c = tess ds) \/ (exists ds, c = kepler ds) ->
  index_of (disposition_col c) cols = Some d ->
  match index_of (id_col c) cols with
  | Some i =>
      exists others extra,
        display c {| columns := cols; rows := rs |}
        = Ok {| columns := "Searchable ID" :: "Status" :: others;
                rows := map (fun r =>
                               VStr (prefix c ++ astype_str (cell i r))
                                 :: cell d r :: extra r) rs |}
  | None =>
      display c {| columns := cols; rows := rs |}
      = Raise (key_error "Searchable ID")
  end.
Proof.
  intros [[ds ->] | [ds ->]] Hd; unfold display, select_columns;
    cbn [columns rows column_map tess kepler id_col disposition_col prefix
         map fst] in *;
    cbn [filter]; unfold has_column; rewrite Hd;
    [ destruct (index_of "TIC ID" cols) as [i |] eqn:Hi
    | destruct (index_of "kepid" cols) as [i |] eqn:Hi ];
    destruct (index_of "Period (days)" cols) as [i1 |] eqn:H1;
    destruct (index_of "koi_period" cols) as [i2 |] eqn:H2;
    destruct (index_of "Planet Radius (R_earth)" cols) as [i3 |] eqn:H3;
    destruct (index_of "koi_prad" cols) as [i4 |] eqn:H4;
    cbn [positions]; rewrite ?Hd, ?Hi, ?H1, ?H2, ?H3, ?H4;
    try (unfold get_column; cbn; reflexivity);
    do 2 eexists; erewrite prefix_column by reflexivity;
    cbn [columns rows rename]; rewrite map_map; cbn [set_nth cell nth map];
    reflexivity.
Qed.

Lemma select_catalog_cases (m d : string) (c : selection) :
  select_catalog m d = Some c ->
  ((exists ds, c = tess ds) \/ (exists ds, c = kepler ds)) /\
  (url c = toi_url \/ url c = koi_url) /\
  comment_char (url c) = None.
Proof.
  unfold select_catalog. intros H.
  destruct (String.eqb m "TESS").
  - injection H as <-. split; [left; eexists; reflexivity |].
    split; [left; reflexivity | reflexivity].
  - destruct (String.eqb m "Kepler" || String.eqb m "K2"); [| discriminate].
    injection H as <-. split; [right; eexists; reflexivity |].
    split; [right; reflexivity | reflexivity].
Qed.

Lemma empty_iff_no_rows (df : DataFrame) (l : string) (j : nat) :
  index_of l (columns df) = Some j ->
  empty df = match rows df with [] => true | _ :: _ => false end.
Proof.
  unfold empty. destruct (columns df); [discriminate | reflexivity].
Qed.

Section Client.

Variable csv : string -> option ascii -> result DataFrame.
Variable tic : string -> Z * Z -> Z * Z -> Z -> result DataFrame.
Variable draws : list nat.

Lemma rows_fit (mission_name disposition_type : string)
    (num_targets : Z) (df : DataFrame) :
  outcome (fetch_catalog_targets csv draws mission_name disposition_type
             num_targets) = Ok df ->
  (len df <= Z.to_nat num_targets)%nat /\
  forall row, In row (rows df) ->
    exists c, select_catalog mission_name disposition_type = Some c /\
              catalog_row c df row.
Proof.
  assert (Hempty : (len empty_frame <= Z.to_nat num_targets)%nat /\
            forall row, In row (rows empty_frame) ->
              exists c, select_catalog mission_name disposition_type = Some c /\
                        catalog_row c empty_frame row)
    by (split; [cbn; lia | intros row []]).
  destruct (select_catalog mission_name disposition_type) as [c |] eqn:Hc;
    [| unfold fetch_catalog_targets; rewrite Hc; cbn;
       intros H; injection H as <-; exact Hempty].
  destruct (select_catalog_cases _ _ _ Hc) as (Hkind & _ & _).
  rewrite (fetch_catalog_targets_eq csv draws _ _ num_targets c Hc).
  rewrite fetch_selected_eq. cbn [snd].
  destruct (csv _ _) as [catalog_df | e];
    [| cbn; intros H; injection H as <-; exact Hempty].
  unfold get_column.
  destruct (index_of (disposition_col c) (columns catalog_df)) as [d |] eqn:Hd;
    [| cbn; intros H; injection H as <-; exact Hempty].
  cbv zeta. destruct (empty _);
    [cbn; intros H; injection H as <-; exact Hempty |].
  unfold sample.
  destruct (_ <? 0)%Z;
    [cbn; intros H; injection H as <-; exact Hempty |].
  destruct (_ <? _)%Z; [cbn; intros H; injection H as <-; exact Hempty |].
  pose proof (display_shape c (columns catalog_df)
                (sample_rows draws
                   (Z.to_nat (Z.min num_targets
                      (Z.of_nat (len (select_rows
                         (isin (dispositions_to_find c)
                            (map (cell d) (rows catalog_df))) catalog_df)))))
                   (rows (select_rows
                      (isin (dispositions_to_find c)
                         (map (cell d) (rows catalog_df))) catalog_df)))
                d Hkind Hd) as Hshape.
  cbn [columns select_rows].
  destruct (index_of (id_col c) (columns catalog_df)) as [i |].
  - destruct Hshape as (others & extra & ->).
    cbn [outcome snd]. intros H; injection H as <-. split.
    + unfold len at 1. cbn [rows]. rewrite length_map.
      etransitivity; [apply sample_rows_length | lia].
    + cbn [rows]. intros row Hrow.
      apply in_map_iff in Hrow as (r & <- & Hr).
      apply sample_rows_incl in Hr. cbn [rows] in Hr.
      rewrite isin_rows in Hr. apply filter_In in Hr as [_ Hstatus].
      apply isin_spec in Hstatus.
      exists c. split; [reflexivity |].
      unfold catalog_row, lookup.
      cbn [columns index_of String.eqb Ascii.eqb Bool.eqb option_map cell nth].
      split.
      * eexists. split; [reflexivity | apply startswith_app].
      * eexists. split; [reflexivity | exact Hstatus].
  - rewrite Hshape. cbn. intros H; injection H as <-. exact Hempty.
Qed.

(** X5.  Whatever the mission and the disposition type, the rows of the table
    that comes back fit the request: at most [num_targets] of them, each
    with a searchable ID under the prefix of the catalogue of the mission
    ([KIC ] for K2 as for Kepler) and a status among the dispositions the
    type stands for (those of false positives for every type other than
    [PLANETS]). *)
Theorem catalog_rows_fit_request (mission_name disposition_type : string)
    (num_targets : Z) (df : DataFrame) :
  outcome (fetch_catalog_targets csv draws mission_name disposition_type
             num_targets) = Ok df ->
  (len df <= Z.to_nat num_targets)%nat /\
  forall row, In row (rows df) ->
    exists c, select_catalog mission_name disposition_type = Some c /\
              catalog_row c df row.
Proof. exact (rows_fit mission_name disposition_type num_targets df). Qed.

Lemma warning_means_empty (mission_name disposition_type : string)
    (num_targets : Z) :
  let run :=
    fetch_catalog_targets csv draws mission_name disposition_type num_targets in
  (exists df, outcome run = Ok df) /\
  (warnings (effects run) <> [] -> outcome run = Ok empty_frame).
Proof.
  intros run. subst run.
  destruct (select_catalog mission_name disposition_type) as [c |] eqn:Hc.
  - rewrite (fetch_catalog_targets_eq csv draws _ _ num_targets c Hc).
    destruct (snd _); cbn; split; try (eexists; reflexivity); auto.
    intros H. congruence.
  - unfold fetch_catalog_targets. rewrite Hc. cbn.
    split; [eexists; reflexivity | reflexivity].
Qed.


(** X6.  When the catalogue of a known mission comes back with its ID and
    disposition columns and at least one row matches, a call with a count
    of zero or more returns, without a warning, exactly as many rows as
    the count allows: the smaller of the count and the number of matching
    rows. *)
Theorem catalog_sample_size (mission_name disposition_type : string)
    (num_targets : Z) (c : selection) (catalog_df : DataFrame) (d i : nat) :
  select_catalog mission_name disposition_type = Some c ->
  csv (url c) None = Ok catalog_df ->
  index_of (disposition_col c) (columns catalog_df) = Some d ->
  index_of (id_col c) (columns catalog_df) = Some i ->
  (0 <= num_targets)%Z ->
  matching c d catalog_df <> [] ->
  exists df,
    fetch_catalog_targets csv draws mission_name disposition_type num_targets
    = ([ReadCsv (url c) None], Ok df) /\
    len df = Nat.min (Z.to_nat num_targets)
               (List.length (matching c d catalog_df)).
Proof.
  intros Hc Hcsv Hd Hi Hn Hsome.
  destruct (select_catalog_cases _ _ _ Hc) as (Hkind & _ & Hcomment).
  rewrite (fetch_catalog_targets_eq csv draws _ _ num_targets c Hc).
  rewrite fetch_selected_eq, Hcomment, Hcsv. cbn [snd].
  unfold get_column. rewrite Hd. cbv zeta.
  set (filtered := select_rows _ catalog_df).
  assert (Hrows : rows filtered = matching c d catalog_df)
    by apply rows_select_isin.
  rewrite (empty_iff_no_rows filtered _ d Hd), Hrows.
  destruct (matching c d catalog_df) as [| r0 rest] eqn:Hm; [congruence |].
  unfold sample, len. rewrite Hrows.
  destruct (Z.ltb_spec (Z.min num_targets
                          (Z.of_nat (List.length (r0 :: rest)))) 0);
    [lia |].
  destruct (Z.ltb_spec (Z.of_nat (List.length (r0 :: rest)))
              (Z.min num_targets (Z.of_nat (List.length (r0 :: rest)))));
    [lia |].
  pose proof (display_shape c (columns catalog_df)
                (sample_rows draws
                   (Z.to_nat (Z.min num_targets
                                (Z.of_nat (List.length (r0 :: rest)))))
                   (r0 :: rest)) d Hkind Hd) as Hshape.
  rewrite Hi in Hshape. destruct Hshape as (others & extra & Hshape).
  change (columns filtered) with (columns catalog_df).
  rewrite Hshape. eexists. split; [reflexivity |].
  cbn [rows]. rewrite length_map, sample_rows_exact. lia.
Qed.

Lemma call_shape (mission_name disposition_type : string)
    (num_targets : Z) :
  let run :=
    fetch_catalog_targets csv draws mission_name disposition_type num_targets in
  run = ([], Ok empty_frame) \/
  exists u, (u = toi_url \/ u = koi_url) /\
    ((exists df, run = ([ReadCsv u None], Ok df)) \/
     (exists w, run = ([ReadCsv u None; StWarning w], Ok empty_frame))).
Proof.
  intros run. subst run.
  destruct (select_catalog mission_name disposition_type) as [c |] eqn:Hc.
  - right. destruct (select_catalog_cases _ _ _ Hc) as (_ & Hurl & Hcomment).
    exists (url c). split; [exact Hurl |].
    rewrite (fetch_catalog_targets_eq csv draws _ _ num_targets c Hc), Hcomment.
    destruct (snd _); [left | right]; eexists; reflexivity.
  - left. unfold fetch_catalog_targets. rewrite Hc. reflexivity.
Qed.

(** X7.  A call sends at most one request, to the TESS or to the Kepler table,
    and reads it with no comment character; it puts at most one warning on
    the page, and a warning always comes with the empty table. *)
Theorem catalog_call_shape (mission_name disposition_type : string)
    (num_targets : Z) :
  let run :=
    fetch_catalog_targets csv draws mission_name disposition_type num_targets in
  run = ([], Ok empty_frame) \/
  exists u, (u = toi_url \/ u = koi_url) /\
    ((exists df, run = ([ReadCsv u None], Ok df)) \/
     (exists w, run = ([ReadCsv u None; StWarning w], Ok empty_frame))).
Proof. exact (call_shape mission_name disposition_type num_targets). Qed.

(** X8.  When rows match but the catalogue has no ID column, the lookup of the
    renamed column fails: the page gets the warning that names
    [Searchable ID], and the empty table comes back. *)
Theorem catalog_without_ids_warns (mission_name disposition_type : string)
    (num_targets : Z) (c : selection) (catalog_df : DataFrame) (d : nat) :
  select_catalog mission_name disposition_type = Some c ->
  csv (url c) None = Ok catalog_df ->
  index_of (disposition_col c) (columns catalog_df) = Some d ->
  index_of (id_col c) (columns catalog_df) = None ->
  (0 <= num_targets)%Z ->
  matching c d catalog_df <> [] ->
  fetch_catalog_targets csv draws mission_name disposition_type num_targets
  = ([ReadCsv (url c) None;
      StWarning "Could not dynamically fetch targets: 'Searchable ID'"],
     Ok empty_frame).
Proof.
  intros Hc Hcsv Hd Hi Hn Hsome.
  destruct (select_catalog_cases _ _ _ Hc) as (Hkind & _ & Hcomment).
  rewrite (fetch_catalog_targets_eq csv draws _ _ num_targets c Hc).
  rewrite fetch_selected_eq, Hcomment, Hcsv. cbn [snd].
  unfold get_column. rewrite Hd. cbv zeta.
  set (filtered := select_rows _ catalog_df).
  assert (Hrows : rows filtered = matching c d catalog_df)
    by apply rows_select_isin.
  rewrite (empty_iff_no_rows filtered _ d Hd), Hrows.
  destruct (matching c d catalog_df) as [| r0 rest] eqn:Hm; [congruence |].
  unfold sample, len. rewrite Hrows.
  destruct (Z.ltb_spec (Z.min num_targets
                          (Z.of_nat (List.length (r0 :: rest)))) 0);
    [lia |].
  destruct (Z.ltb_spec (Z.of_nat (List.length (r0 :: rest)))
              (Z.min num_targets (Z.of_nat (List.length (r0 :: rest)))));
    [lia |].
  pose proof (display_shape c (columns catalog_df)
                (sample_rows draws
                   (Z.to_nat (Z.min num_targets
                                (Z.of_nat (List.length (r0 :: rest)))))
                   (r0 :: rest)) d Hkind Hd) as Hshape.
  rewrite Hi in Hshape.
  change (columns filtered) with (columns catalog_df).
  rewrite Hshape. reflexivity.
Qed.

(** Lines 138-149, row by row: the table holds one row per sampled star
    whose ID cell [isin] finds in no known cell, in the order of the
    sample. *)
Lemma untested_exact (known : list value) (tic_sample_df : DataFrame)
    (i : nat) :
  index_of "ID" (columns tic_sample_df) = Some i ->
  ~ In "Searchable ID" (columns tic_sample_df) ->
  rectangular tic_sample_df ->
  exists df,
    untested known tic_sample_df = Ok df /\
    columns df
    = filter (fun l => has_column l
                (map (rename_label display_names) (columns tic_sample_df)))
        final_columns /\
    map (lookup df "Searchable ID") (rows df)
    = map (shown_id i) (unmatched_stars known i tic_sample_df).
Proof.
  intros Hi Hno Hrect. unfold untested, get_column at 1. rewrite Hi. cbv zeta.
  set (kept := select_rows _ tic_sample_df).
  assert (Hkept : rows kept = unmatched_stars known i tic_sample_df)
    by apply rows_select_not_isin.
  pose proof (index_of_display_id _ Hno i Hi) as Hsid.
  unfold get_column.
  change (columns (rename display_names kept))
    with (map (rename_label display_names) (columns tic_sample_df)).
  rewrite Hsid.
  change (rows (rename display_names kept)) with (rows kept).
  change (map (cell i) (rows kept))
    with (map (cell i) (rows (rename display_names kept))).
  rewrite (set_prefixed "TIC " "Searchable ID" (rename display_names kept) i
             Hsid).
  cbn [columns rows rename].
  set (labels := map (rename_label display_names) (columns tic_sample_df)) in *.
  unfold select_columns. cbn [columns rows].
  change final_columns with ("Searchable ID" :: tl final_columns).
  cbn [filter].
  change (map (rename_label display_names) (columns kept)) with labels.
  destruct (positions_available labels (tl final_columns)) as [ix Hix].
  unfold has_column in Hix |- *. rewrite Hsid.
  cbn [positions]. rewrite Hsid, Hix.
  eexists. split; [reflexivity |]. split; [reflexivity |].
  cbn [rows]. rewrite Hkept, !map_map.
  apply map_ext_in. intros r Hr.
  unfold unmatched_stars in Hr. apply filter_In in Hr as [Hr _].
  unfold lookup, shown_id.
  cbn [columns index_of String.eqb Ascii.eqb Bool.eqb option_map cell nth map].
  f_equal. apply cell_set_nth.
  unfold rectangular in Hrect. rewrite Forall_forall in Hrect.
  rewrite (Hrect r Hr). exact (index_of_lt _ _ _ Hi).
Qed.

(** X9.  Under the conditions in which the call succeeds, the table is the
    sample without the rows [isin] matched, in the order of the sample:
    its searchable IDs are [TIC ] and the ID of each sampled star whose
    ID cell equals no cell of the [TIC ID] column, where a cell equals a
    cell of the same type and value only (a text ID equals no integer
    ID); and the columns are the display columns the renamed sample has,
    in display order, every other column of the catalogue being
    dropped. *)
Theorem untested_table_is_the_unmatched_sample (num_to_sample : Z)
    (toi_df tic_sample_df : DataFrame) (known_toi_tics : list value)
    (i : nat) :
  csv toi_url None = Ok toi_df ->
  get_column toi_df "TIC ID" = Ok known_toi_tics ->
  tic "TIC" (9, 13)%Z (2, 100)%Z num_to_sample = Ok tic_sample_df ->
  index_of "ID" (columns tic_sample_df) = Some i ->
  ~ In "Searchable ID" (columns tic_sample_df) ->
  rectangular tic_sample_df ->
  exists df,
    outcome (fetch_untested_targets csv tic num_to_sample) = Ok df /\
    columns df
    = filter (fun l => has_column l
                (map (rename_label display_names) (columns tic_sample_df)))
        final_columns /\
    map (lookup df "Searchable ID") (rows df)
    = map (shown_id i) (unmatched_stars known_toi_tics i tic_sample_df).
Proof.
  intros Hcsv Hknown Htic Hi Hno Hrect.
  destruct (untested_exact known_toi_tics tic_sample_df i Hi Hno Hrect)
    as (df & Hdf & Hcols & Hids).
  exists df.
  unfold fetch_untested_targets, untested_body, read_csv, query_criteria.
  rewrite Hcsv. cbn [emit lift bind app]. rewrite Hknown.
  cbn [bind app]. rewrite Htic. cbn [bind app]. rewrite Hdf.
  cbn [try_except outcome snd]. auto.
Qed.

(** X10.  [fetch_untested_targets] never raises, and it stops at the first
    failure with one warning that carries the text of the exception and
    the empty table.  When the list of known objects cannot be read, or
    lacks the [TIC ID] column, the star catalogue is not queried. *)
Theorem untested_stops_at_first_failure (num_to_sample : Z) :
  let run := fetch_untested_targets csv tic num_to_sample in
  let warning e := StWarning ("Could not fetch untested targets: " ++ e) in
  let first :=
    [StToast "Downloading the list of known planet candidates (TOIs)...";
     ReadCsv toi_url None] in
  let second :=
    [StToast "Fetching a random sample of stars from the TESS Input Catalog...";
     QueryCriteria "TIC" (9, 13)%Z (2, 100)%Z num_to_sample] in
  (exists df, outcome run = Ok df) /\
  (forall e,
      csv toi_url None = Raise e ->
      run = (first ++ [warning e], Ok empty_frame)) /\
  (forall toi_df,
      csv toi_url None = Ok toi_df ->
      has_column "TIC ID" (columns toi_df) = false ->
      run = (first ++ [warning "'TIC ID'"], Ok empty_frame)) /\
  (forall toi_df e,
      csv toi_url None = Ok toi_df ->
      has_column "TIC ID" (columns toi_df) = true ->
      tic "TIC" (9, 13)%Z (2, 100)%Z num_to_sample = Raise e ->
      run = (first ++ second ++ [warning e], Ok empty_frame)) /\
  (forall toi_df tic_sample_df,
      csv toi_url None = Ok toi_df ->
      has_column "TIC ID" (columns toi_df) = true ->
      tic "TIC" (9, 13)%Z (2, 100)%Z num_to_sample = Ok tic_sample_df ->
      has_column "ID" (columns tic_sample_df) = false ->
      run = (first ++ second ++ [warning "'ID'"], Ok empty_frame)).
Proof.
  intros run warning first second. subst run warning first second.
  unfold fetch_untested_targets, untested_body, read_csv, query_criteria.
  cbn [emit lift bind app].
  split; [| split; [| split; [| split]]].
  - destruct (csv toi_url None) as [toi_df | e]; cbn [bind app];
      [| eexists; reflexivity].
    destruct (get_column toi_df "TIC ID"); cbn [bind app];
      [| eexists; reflexivity].
    destruct (tic _ _ _ _); cbn [bind app]; [| eexists; reflexivity].
    destruct (untested _ _); eexists; reflexivity.
  - intros e ->. reflexivity.
  - intros toi_df -> Hno. unfold get_column, has_column in *.
    destruct (index_of "TIC ID" (columns toi_df)); [discriminate |].
    reflexivity.
  - intros toi_df e -> Hyes ->. unfold get_column, has_column in *.
    destruct (index_of "TIC ID" (columns toi_df)); [| discriminate].
    reflexivity.
  - intros toi_df tic_sample_df -> Hyes -> Hno.
    unfold get_column at 1. unfold has_column in Hyes.
    destruct (index_of "TIC ID" (columns toi_df)); [| discriminate].
    cbn [bind app]. unfold untested, get_column, has_column in *.
    destruct (index_of "ID" (columns tic_sample_df)); [discriminate |].
    reflexivity.
Qed.

End Client.

(** The K2 candidates of a Kepler table: two rows under [KIC ]. *)
Lemma catalog_rows_fit_request_witness :
  exists df,
    outcome (fetch_catalog_targets (fun _ _ => Ok Samples.koi_table) [3]%nat
               "K2" "PLANETS" 25) = Ok df /\
    map (lookup df "Searchable ID") (rows df)
    = [Some (VStr "KIC 10811496"); Some (VStr "KIC 10797460")] /\
    forall row, In row (rows df) ->
      exists c, select_catalog "K2" "PLANETS" = Some c /\
                catalog_row c df row.
Proof.
  eexists. split; [reflexivity |]. split; [reflexivity |].
  exact (proj2 (catalog_rows_fit_request (fun _ _ => Ok Samples.koi_table)
                  [3]%nat "K2" "PLANETS" 25 _ eq_refl)).
Defined.

(** A count of 1 against the two false positives of a table. *)
Lemma catalog_sample_size_witness :
  exists df,
    fetch_catalog_targets (fun _ _ => Ok Demo.fp_table) [] "TESS"
      "FALSE_POSITIVES" 1
    = ([ReadCsv toi_url None], Ok df) /\
    len df = 1%nat.
Proof.
  apply (catalog_sample_size (fun _ _ => Ok Demo.fp_table) [] "TESS"
           "FALSE_POSITIVES" 1 (tess [VStr "FP"]) Demo.fp_table 1 0);
    try reflexivity; [lia | discriminate].
Defined.

(** Planet candidates are there, their IDs are not. *)
Lemma catalog_without_ids_warns_witness :
  fetch_catalog_targets (fun _ _ => Ok Samples.toi_without_ids) [] "TESS"
    "PLANETS" 25
  = ([ReadCsv toi_url None;
      StWarning "Could not dynamically fetch targets: 'Searchable ID'"],
     Ok empty_frame).
Proof.
  apply (catalog_without_ids_warns (fun _ _ => Ok Samples.toi_without_ids) []
           "TESS" "PLANETS" 25 (tess [VStr "CP"; VStr "PC"])
           Samples.toi_without_ids 1);
    try reflexivity; [lia | discriminate].
Defined.

(** Three sampled stars, the first of them a known object. *)
Lemma untested_table_is_the_unmatched_sample_witness :
  exists df,
    outcome (fetch_untested_targets Demo.toi_csv Demo.star_query 100) = Ok df /\
    columns df
    = ["Searchable ID"; "TESS Magnitude"; "Distance (pc)"; "ra"; "dec"] /\
    map (lookup df "Searchable ID") (rows df)
    = [Some (VStr "TIC 101"); Some (VStr "TIC 102")].
Proof.
  apply (untested_table_is_the_unmatched_sample Demo.toi_csv Demo.star_query 100
           Demo.toi_table Demo.star_table
           [VInt 100; VInt 200; VInt 300; VInt 400] 0%nat);
    try reflexivity.
  - cbn. intros [H | [H | [H | [H | [H | []]]]]]; discriminate.
  - repeat constructor.
Defined.

(** The list of known objects is out of reach: no query is sent. *)
Lemma untested_stops_at_first_failure_witness :
  fetch_untested_targets Demo.failing_csv Demo.star_query 100
  = ([StToast "Downloading the list of known planet candidates (TOIs)...";
      ReadCsv toi_url None;
      StWarning ("Could not fetch untested targets: "
                   ++ "HTTP Error 503: Service Unavailable")],
     Ok empty_frame).
Proof.
  exact (proj1 (proj2 (untested_stops_at_first_failure Demo.failing_csv
                         Demo.star_query 100))
           "HTTP Error 503: Service Unavailable" eq_refl).
Defined.

End CatalogCalls.

(** ** The search button, run by run *)

Module SearchRuns.
Import PyStr SearchTab.

Lemma digit_not_lower (c : ascii) :
  is_digit c = true -> in_range 97 122 c = false.
Proof.
  unfold is_digit, in_range. intros H.
  apply andb_true_iff in H as [_ H]. apply Nat.leb_le in H.
  apply andb_false_iff. left. apply Nat.leb_gt. lia.
Qed.

Lemma digit_not_space (c : ascii) : is_digit c = true -> is_space c = false.
Proof.
  unfold is_digit, is_space, in_range. intros H.
  apply andb_true_iff in H as [H _]. apply Nat.leb_le in H.
  apply orb_false_iff. split; apply andb_false_iff; right;
    apply Nat.leb_gt; lia.
Qed.

Lemma upper_digits (d : string) : all_chars is_digit d = true -> upper d = d.
Proof.
  unfold upper. induction d as [| c d IH]; [reflexivity |].
  cbn [all_chars map_chars]. intros H.
  apply andb_true_iff in H as [Hc Hd].
  rewrite (IH Hd). unfold upper_char. rewrite (digit_not_lower c Hc).
  reflexivity.
Qed.

(** A word that starts with a letter does not occur in a run of digits. *)
Lemma replace_digits (a : ascii) (old new d : string) :
  is_digit a = false -> all_chars is_digit d = true ->
  replace_from (String a old) new 0 d = d.
Proof.
  intros Ha. induction d as [| c d IH]; [reflexivity |].
  cbn [all_chars]. intros H. apply andb_true_iff in H as [Hc Hd].
  cbn [replace_from startswith].
  assert (Hac : Ascii.eqb a c = false).
  { apply Ascii.eqb_neq. intros ->. congruence. }
  rewrite Hac. cbn [andb]. rewrite (IH Hd). reflexivity.
Qed.

Lemma rstrip_digits (d : string) : all_chars is_digit d = true -> rstrip d = d.
Proof.
  induction d as [| c d IH]; [reflexivity |].
  cbn [all_chars rstrip]. intros H. apply andb_true_iff in H as [Hc Hd].
  rewrite (IH Hd), (digit_not_space c Hc), andb_false_r. reflexivity.
Qed.

Lemma lstrip_digits (d : string) : all_chars is_digit d = true -> lstrip d = d.
Proof.
  destruct d as [| c d]; [reflexivity |].
  cbn [all_chars lstrip]. intros H. apply andb_true_iff in H as [Hc _].
  rewrite (digit_not_space c Hc). reflexivity.
Qed.

(** What is left of digits, bare or after one of the three catalogue
    prefixes and a blank, is the digits. *)
Lemma search_term_digits (d : string) :
  all_chars is_digit d = true ->
  search_term d = d /\ search_term ("TIC " ++ d) = d /\
  search_term ("KIC " ++ d) = d /\ search_term ("EPIC " ++ d) = d.
Proof.
  intros Hd.
  assert (Hrep : forall a old, is_digit a = false ->
                   replace_from (String a old) EmptyString 0 d = d)
    by (intros a old Ha; exact (replace_digits a old EmptyString d Ha Hd)).
  assert (Hstrip : strip d = d)
    by (unfold strip; rewrite (lstrip_digits d Hd); exact (rstrip_digits d Hd)).
  assert (Hblank : strip (String " " d) = d)
    by (unfold strip; cbn [lstrip is_space in_range code nat_of_ascii];
        cbn; rewrite (lstrip_digits d Hd); exact (rstrip_digits d Hd)).
  assert (Hup : forall p, upper (p ++ d) = (upper p ++ d)%string).
  { intros p. unfold upper. induction p as [| c p IH]; cbn [append map_chars].
    - exact (upper_digits d Hd).
    - rewrite IH. reflexivity. }
  assert (Hpass : forall old, old = "TIC" \/ old = "KIC" \/ old = "EPIC" ->
            replace old EmptyString (String " " d) = String " " d).
  { intros old [-> | [-> | ->]]; unfold replace;
      cbn [replace_from startswith Ascii.eqb Bool.eqb andb];
      rewrite Hrep by reflexivity; reflexivity. }
  assert (Htic : replace "TIC" EmptyString ("TIC " ++ d) = String " " d).
  { unfold replace.
    change (replace_from "TIC" EmptyString 0 ("TIC " ++ d))
      with (String " " (replace_from "TIC" EmptyString 0 d)).
    rewrite Hrep by reflexivity. reflexivity. }
  assert (Hkic : replace "KIC" EmptyString
                   (replace "TIC" EmptyString ("KIC " ++ d)) = String " " d).
  { unfold replace.
    change (replace_from "TIC" EmptyString 0 ("KIC " ++ d))
      with ("KIC " ++ replace_from "TIC" EmptyString 0 d)%string.
    rewrite Hrep by reflexivity.
    change (replace_from "KIC" EmptyString 0 ("KIC " ++ d))
      with (String " " (replace_from "KIC" EmptyString 0 d)).
    rewrite Hrep by reflexivity. reflexivity. }
  assert (Hepic : replace "EPIC" EmptyString
                    (replace "KIC" EmptyString
                       (replace "TIC" EmptyString ("EPIC " ++ d)))
                  = String " " d).
  { unfold replace.
    change (replace_from "TIC" EmptyString 0 ("EPIC " ++ d))
      with ("EPIC " ++ replace_from "TIC" EmptyString 0 d)%string.
    rewrite Hrep by reflexivity.
    change (replace_from "KIC" EmptyString 0 ("EPIC " ++ d))
      with ("EPIC " ++ replace_from "KIC" EmptyString 0 d)%string.
    rewrite Hrep by reflexivity.
    change (replace_from "EPIC" EmptyString 0 ("EPIC " ++ d))
      with (String " " (replace_from "EPIC" EmptyString 0 d)).
    rewrite Hrep by reflexivity. reflexivity. }
  unfold search_term. rewrite !Hup. change (upper "TIC ") with "TIC ".
  change (upper "KIC ") with "KIC ". change (upper "EPIC ") with "EPIC ".
  rewrite (upper_digits d Hd), Htic, Hkic, Hepic.
  rewrite !Hpass by auto.
  unfold replace. rewrite !Hrep by reflexivity.
  auto.
Qed.

Lemma uint_digits (d : Decimal.uint) :
  all_chars is_digit (NilEmpty.string_of_uint d) = true.
Proof. induction d; cbn [NilEmpty.string_of_uint all_chars]; auto. Qed.

Lemma str_of_Z_digits (z : Z) :
  (0 <= z)%Z -> isdigit (str_of_Z z) = true.
Proof.
  intros Hz. unfold str_of_Z, isdigit.
  destruct z as [| p | p]; [reflexivity | | lia].
  cbn [Z.to_int NilZero.string_of_int]. unfold NilZero.string_of_uint.
  pose proof (uint_digits (Pos.to_uint p)) as Hd.
  destruct (Pos.to_uint p); try reflexivity; cbn [is_empty negb andb];
    exact Hd.
Qed.

Lemma isdigit_all (d : string) :
  isdigit d = true -> all_chars is_digit d = true.
Proof. unfold isdigit. intros H. apply andb_true_iff in H. tauto. Qed.

(** X11.  Digits typed bare, or after [TIC ], [KIC ] or [EPIC ], are searched
    as a numeric ID, and the search term is the digits. *)
Theorem prefixed_digits_are_an_id (d prefix : string) :
  isdigit d = true ->
  In prefix [EmptyString; "TIC "; "KIC "; "EPIC "] ->
  search_term (prefix ++ d) = d /\ is_id_search (prefix ++ d) = true.
Proof.
  intros Hd Hp.
  destruct (search_term_digits d (isdigit_all d Hd)) as (H0 & H1 & H2 & H3).
  assert (Hterm : search_term (prefix ++ d) = d).
  { destruct Hp as [<- | [<- | [<- | [<- | []]]]]; assumption. }
  split; [exact Hterm |]. unfold is_id_search. rewrite Hterm. exact Hd.
Qed.

(** [TIC ] or [KIC ] and the text of an integer from 0 up is searched as a
    numeric ID. *)
Lemma integer_id_is_an_id (z : Z) (prefix : string) :
  (0 <= z)%Z ->
  prefix = "TIC " \/ prefix = "KIC " ->
  is_id_search (prefix ++ Pandas.astype_str (Pandas.VInt z)) = true.
Proof.
  intros Hz Hp. cbn [Pandas.astype_str].
  pose proof (str_of_Z_digits z Hz) as Hd.
  destruct (search_term_digits _ (isdigit_all _ Hd)) as (_ & H1 & H2 & _).
  unfold is_id_search. destruct Hp as [-> | ->]; [rewrite H1 | rewrite H2];
    exact Hd.
Qed.

Section Handler.

Variable SearchResult : Type.
Variable len : SearchResult -> nat.
Variable archive :
  string -> option (list string * list string) -> result SearchResult.

(** The filters a search for [star_id_input] is sent with: none for a
    numeric ID, the two selections for a name. *)
Lemma search_button_cases (star_id_input : string)
    (selected_missions selected_authors : list string) :
  let run := search_button SearchResult len archive star_id_input
               selected_missions selected_authors in
  (searches (effects run) = [] /\ outcome run = Ok None /\
   warnings (effects run) <> []) \/
  (exists filters,
     searches (effects run) = [SearchLightcurve star_id_input filters] /\
     (filters = None /\ is_id_search star_id_input = true \/
      filters = Some (selected_missions, selected_authors) /\
      is_id_search star_id_input = false /\
      selected_missions <> [] /\ selected_authors <> []) /\
     match archive star_id_input filters with
     | Raise e => outcome run = Raise e /\ warnings (effects run) = []
     | Ok r =>
         if (0 <? len r)%nat
         then outcome run = Ok (Some r) /\ warnings (effects run) = []
         else outcome run = Ok None /\ warnings (effects run) <> []
     end).
Proof.
  intros run. subst run. unfold search_button, search_lightcurve.
  destruct (is_empty star_id_input);
    [left; cbn; repeat split; discriminate |].
  destruct (is_id_search star_id_input) eqn:Hid.
  - right. exists None.
    destruct (archive star_id_input None) as [r | e] eqn:Ha;
      cbn -[Nat.ltb append].
    + destruct (0 <? len r)%nat; cbn -[append];
        (split; [reflexivity |]); (split; [auto |]);
        split; (reflexivity || discriminate).
    + split; [reflexivity |]. split; [auto |]. split; reflexivity.
  - destruct selected_missions as [| m ms];
      [left; cbn; repeat split; discriminate |].
    destruct selected_authors as [| a au];
      [left; cbn; repeat split; discriminate |].
    right. exists (Some (m :: ms, a :: au)).
    destruct (archive star_id_input (Some (m :: ms, a :: au))) as [r | e] eqn:Ha;
      cbn -[Nat.ltb append].
    + destruct (0 <? len r)%nat; cbn -[append];
        (split; [reflexivity |]);
        (split; [right; repeat split; discriminate |]);
        split; (reflexivity || discriminate).
    + split; [reflexivity |].
      split; [right; repeat split; discriminate |]. split; reflexivity.
Qed.

(** X14.  The search tab does not catch what the archive raises: when the
    search that was sent raises, the handler raises the same exception
    and no warning is shown. *)
Theorem archive_exception_is_not_caught (star_id_input : string)
    (selected_missions selected_authors : list string)
    (filters : option (list string * list string)) (e : string) :
  let run := search_button SearchResult len archive star_id_input
               selected_missions selected_authors in
  searches (effects run) = [SearchLightcurve star_id_input filters] ->
  archive star_id_input filters = Raise e ->
  outcome run = Raise e /\ warnings (effects run) = [].
Proof.
  intros run Hsent Hraise.
  destruct (search_button_cases star_id_input selected_missions
              selected_authors) as [(Hs & _) | (f & Hs & _ & Ha)];
    fold run in Hs; rewrite Hsent in Hs; [discriminate |].
  injection Hs as <-. fold run in Ha. rewrite Hraise in Ha. exact Ha.
Qed.

End Handler.

Lemma prefixed_digits_are_an_id_witness :
  search_term ("KIC " ++ "8462852") = "8462852" /\
  is_id_search ("KIC " ++ "8462852") = true.
Proof.
  apply prefixed_digits_are_an_id; [reflexivity |].
  right. right. left. reflexivity.
Defined.

(** The archive times out on a numeric ID. *)
Lemma archive_exception_is_not_caught_witness :
  outcome (search_button (list nat) (@List.length nat)
             (fun _ _ => Raise "Timeout") "TIC 261136679" [] [])
  = Raise "Timeout".
Proof.
  exact (proj1 (archive_exception_is_not_caught (list nat) (@List.length nat)
                  (fun _ _ => Raise "Timeout") "TIC 261136679" [] [] None
                  "Timeout" eq_refl eq_refl)).
Defined.

End SearchRuns.

(** ** ASCII text in the search box *)

(** On an input of ASCII characters the handler on any text is the
    handler on ASCII text, whatever the rows of the Unicode database
    above ASCII are. *)
Module AsciiInput.
Import Unicode.

Lemma of_ascii_cons (c : ascii) (s : string) :
  of_ascii (String c s) = N_of_ascii c :: of_ascii s.
Proof. reflexivity. Qed.

Lemma of_ascii_app (s1 s2 : string) :
  of_ascii (s1 ++ s2) = of_ascii s1 ++ of_ascii s2.
Proof.
  induction s1 as [| c s1 IH]; [reflexivity |].
  cbn [append]. rewrite !of_ascii_cons, IH. reflexivity.
Qed.

Lemma of_ascii_length (s : string) :
  List.length (of_ascii s) = String.length s.
Proof.
  induction s as [| c s IH]; [reflexivity |].
  rewrite of_ascii_cons. cbn [List.length String.length]. rewrite IH.
  reflexivity.
Qed.

Lemma eqb_chars (a b : ascii) :
  N.eqb (N_of_ascii a) (N_of_ascii b) = Ascii.eqb a b.
Proof.
  destruct (Ascii.eqb_spec a b) as [-> | Hne]; [apply N.eqb_refl |].
  apply N.eqb_neq. intros E. apply Hne.
  rewrite <- (ascii_N_embedding a), <- (ascii_N_embedding b), E.
  reflexivity.
Qed.

Lemma startswith_of_ascii (p s : string) :
  startswith (of_ascii p) (of_ascii s) = PyStr.startswith p s.
Proof.
  revert s. induction p as [| a p IH]; intros s; [reflexivity |].
  destruct s as [| b s]; [reflexivity |].
  rewrite !of_ascii_cons. cbn [startswith PyStr.startswith].
  rewrite eqb_chars, IH. reflexivity.
Qed.

Lemma replace_from_of_ascii (old new : string) (s : string) :
  forall skip,
    replace_from (of_ascii old) (of_ascii new) skip (of_ascii s)
    = of_ascii (PyStr.replace_from old new skip s).
Proof.
  induction s as [| c s IH]; intros skip; [reflexivity |].
  rewrite of_ascii_cons. cbn [replace_from PyStr.replace_from].
  destruct skip as [| k]; [| apply IH].
  rewrite <- of_ascii_cons, startswith_of_ascii.
  destruct (PyStr.startswith old (String c s)).
  - rewrite of_ascii_app, IH, of_ascii_length. reflexivity.
  - rewrite of_ascii_cons, IH. reflexivity.
Qed.

Lemma ascii_only_replace_from (old : string) (s : string) :
  forall skip,
    ascii_only s = true ->
    ascii_only (PyStr.replace_from old EmptyString skip s) = true.
Proof.
  unfold ascii_only.
  induction s as [| c s IH]; intros skip H; [reflexivity |].
  cbn [PyStr.all_chars] in H. apply andb_true_iff in H as [Hc Hs].
  cbn [PyStr.replace_from]. destruct skip as [| k]; [| exact (IH k Hs)].
  destruct (PyStr.startswith old (String c s)).
  - cbn [append]. exact (IH _ Hs).
  - cbn [PyStr.all_chars]. rewrite Hc. exact (IH 0%nat Hs).
Qed.

Section Classes.

Variable T : tables.

Lemma upper_char_of_ascii (c : ascii) :
  (PyStr.code c <? 128)%nat = true ->
  upper_char T (N_of_ascii c) = [N_of_ascii (PyStr.upper_char c)] /\
  (PyStr.code (PyStr.upper_char c) <? 128)%nat = true.
Proof.
  destruct c as [[|] [|] [|] [|] [|] [|] [|] [|]]; intros H;
    try discriminate H; split; reflexivity.
Qed.

Lemma is_space_of_ascii (c : ascii) :
  (PyStr.code c <? 128)%nat = true ->
  is_space T (N_of_ascii c) = PyStr.is_space c.
Proof.
  destruct c as [[|] [|] [|] [|] [|] [|] [|] [|]]; intros H;
    try discriminate H; reflexivity.
Qed.

Lemma is_digit_of_ascii (c : ascii) :
  (PyStr.code c <? 128)%nat = true ->
  is_digit T (N_of_ascii c) = PyStr.is_digit c.
Proof.
  destruct c as [[|] [|] [|] [|] [|] [|] [|] [|]]; intros H;
    try discriminate H; reflexivity.
Qed.

Lemma utf8_char_of_ascii (c : ascii) :
  (PyStr.code c <? 128)%nat = true -> utf8_char (N_of_ascii c) = [c].
Proof.
  destruct c as [[|] [|] [|] [|] [|] [|] [|] [|]]; intros H;
    try discriminate H; reflexivity.
Qed.

Lemma utf8_of_ascii (s : string) : ascii_only s = true -> utf8 (of_ascii s) = s.
Proof.
  unfold ascii_only, utf8. induction s as [| c s IH]; intros H; [reflexivity |].
  cbn [PyStr.all_chars] in H. apply andb_true_iff in H as [Hc Hs].
  rewrite of_ascii_cons. cbn [flat_map].
  rewrite (utf8_char_of_ascii c Hc). cbn [app string_of_list_ascii].
  rewrite (IH Hs). reflexivity.
Qed.

Lemma upper_of_ascii (s : string) :
  ascii_only s = true ->
  upper T (of_ascii s) = of_ascii (PyStr.upper s) /\
  ascii_only (PyStr.upper s) = true.
Proof.
  unfold ascii_only, upper, PyStr.upper.
  induction s as [| c s IH]; intros H; [split; reflexivity |].
  cbn [PyStr.all_chars] in H. apply andb_true_iff in H as [Hc Hs].
  destruct (IH Hs) as [IH1 IH2].
  destruct (upper_char_of_ascii c Hc) as [Hu Hu'].
  rewrite of_ascii_cons. cbn [flat_map PyStr.map_chars PyStr.all_chars].
  rewrite Hu, IH1, Hu', IH2. split; reflexivity.
Qed.

Lemma is_empty_of_ascii (s : string) :
  is_empty (of_ascii s) = PyStr.is_empty s.
Proof. destruct s; reflexivity. Qed.

Lemma lstrip_of_ascii (s : string) :
  ascii_only s = true ->
  lstrip T (of_ascii s) = of_ascii (PyStr.lstrip s) /\
  ascii_only (PyStr.lstrip s) = true.
Proof.
  unfold ascii_only.
  induction s as [| c s IH]; intros H; [split; reflexivity |].
  pose proof H as Hall.
  cbn [PyStr.all_chars] in H. apply andb_true_iff in H as [Hc Hs].
  rewrite of_ascii_cons. cbn [lstrip PyStr.lstrip].
  rewrite (is_space_of_ascii c Hc).
  destruct (PyStr.is_space c); [exact (IH Hs) |].
  rewrite of_ascii_cons. split; [reflexivity | exact Hall].
Qed.

Lemma rstrip_of_ascii (s : string) :
  ascii_only s = true ->
  rstrip T (of_ascii s) = of_ascii (PyStr.rstrip s).
Proof.
  unfold ascii_only.
  induction s as [| c s IH]; intros H; [reflexivity |].
  cbn [PyStr.all_chars] in H. apply andb_true_iff in H as [Hc Hs].
  rewrite of_ascii_cons. cbn [rstrip PyStr.rstrip].
  rewrite (IH Hs), is_empty_of_ascii, (is_space_of_ascii c Hc).
  destruct (PyStr.is_empty (PyStr.rstrip s) && PyStr.is_space c);
    reflexivity.
Qed.

Lemma ascii_only_rstrip (s : string) :
  ascii_only s = true -> ascii_only (PyStr.rstrip s) = true.
Proof.
  unfold ascii_only.
  induction s as [| c s IH]; intros H; [reflexivity |].
  cbn [PyStr.all_chars] in H. apply andb_true_iff in H as [Hc Hs].
  cbn [PyStr.rstrip].
  destruct (PyStr.is_empty (PyStr.rstrip s) && PyStr.is_space c);
    [reflexivity |].
  cbn [PyStr.all_chars]. rewrite Hc. exact (IH Hs).
Qed.

Lemma isdigit_of_ascii (s : string) :
  ascii_only s = true -> isdigit T (of_ascii s) = PyStr.isdigit s.
Proof.
  unfold isdigit, PyStr.isdigit. intros H. rewrite is_empty_of_ascii.
  f_equal. revert H. unfold ascii_only.
  induction s as [| c s IH]; intros H; [reflexivity |].
  cbn [PyStr.all_chars] in H. apply andb_true_iff in H as [Hc Hs].
  rewrite of_ascii_cons. cbn [forallb PyStr.all_chars].
  rewrite (is_digit_of_ascii c Hc), (IH Hs). reflexivity.
Qed.

(** Line 186 on ASCII text. *)
Lemma search_term_of_ascii (s : string) :
  ascii_only s = true ->
  SearchText.search_term T (of_ascii s) = of_ascii (SearchTab.search_term s) /\
  ascii_only (SearchTab.search_term s) = true.
Proof.
  intros H. unfold SearchText.search_term, SearchTab.search_term.
  destruct (upper_of_ascii s H) as [Hu Hu'].
  unfold replace, PyStr.replace, strip, PyStr.strip. rewrite Hu.
  change (@nil N) with (of_ascii EmptyString).
  rewrite !replace_from_of_ascii.
  set (r := PyStr.replace_from "EPIC" EmptyString 0
              (PyStr.replace_from "KIC" EmptyString 0
                 (PyStr.replace_from "TIC" EmptyString 0 (PyStr.upper s)))).
  assert (Hr : ascii_only r = true)
    by (subst r; do 3 apply ascii_only_replace_from; exact Hu').
  destruct (lstrip_of_ascii r Hr) as [Hl Hl'].
  rewrite Hl, (rstrip_of_ascii _ Hl').
  split; [reflexivity | exact (ascii_only_rstrip _ Hl')].
Qed.

(** Line 187 on ASCII text. *)
Lemma is_id_search_of_ascii (s : string) :
  ascii_only s = true ->
  SearchText.is_id_search T (of_ascii s) = SearchTab.is_id_search s.
Proof.
  intros H. unfold SearchText.is_id_search, SearchTab.is_id_search.
  destruct (search_term_of_ascii s H) as [Ht Ht'].
  rewrite Ht. exact (isdigit_of_ascii _ Ht').
Qed.

Variable SearchResult : Type.
Variable len : SearchResult -> nat.
Variable archive :
  text -> option (list string * list string) -> result SearchResult.

(** Lines 183-200 on ASCII text. *)
Lemma search_button_of_ascii (star_id_input : string)
    (selected_missions selected_authors : list string) :
  ascii_only star_id_input = true ->
  SearchText.search_button T SearchResult len archive
    (of_ascii star_id_input) selected_missions selected_authors
  = SearchTab.search_button SearchResult len
      (fun target => archive (of_ascii target))
      star_id_input selected_missions selected_authors.
Proof.
  intros H.
  unfold SearchText.search_button, SearchTab.search_button,
    SearchText.search_lightcurve, SearchTab.search_lightcurve.
  rewrite is_empty_of_ascii, (is_id_search_of_ascii _ H),
    (utf8_of_ascii _ H).
  reflexivity.
Qed.

End Classes.

Example default_input_is_ascii : ascii_only "TIC 261136679" = true.
Proof. reflexivity. Qed.

Lemma ascii_only_app (s1 s2 : string) :
  ascii_only (s1 ++ s2) = ascii_only s1 && ascii_only s2.
Proof.
  unfold ascii_only. induction s1 as [| c s1 IH]; [reflexivity |].
  cbn [append PyStr.all_chars]. rewrite IH. apply andb_assoc.
Qed.

Lemma ascii_only_digits (d : string) :
  PyStr.all_chars PyStr.is_digit d = true -> ascii_only d = true.
Proof.
  unfold ascii_only. induction d as [| c d IH]; [reflexivity |].
  cbn [PyStr.all_chars]. intros H. apply andb_true_iff in H as [Hc Hd].
  rewrite (IH Hd), andb_true_r.
  unfold PyStr.is_digit, PyStr.in_range in Hc.
  apply andb_true_iff in Hc as [_ Hc]. apply Nat.leb_le in Hc.
  apply Nat.ltb_lt. lia.
Qed.

(** [TIC ] or [KIC ] and the text of an integer from 0 up is searched as
    a numeric ID, whatever the rows of the Unicode database are. *)
Lemma integer_id_is_an_id_text (T : tables) (z : Z) (prefix : string) :
  (0 <= z)%Z ->
  prefix = "TIC " \/ prefix = "KIC " ->
  SearchText.is_id_search T
    (of_ascii (prefix ++ Pandas.astype_str (Pandas.VInt z))) = true.
Proof.
  intros Hz Hp. rewrite is_id_search_of_ascii.
  - exact (SearchRuns.integer_id_is_an_id z prefix Hz Hp).
  - rewrite ascii_only_app. cbn [Pandas.astype_str].
    rewrite (ascii_only_digits _
               (SearchRuns.isdigit_all _ (SearchRuns.str_of_Z_digits z Hz))).
    destruct Hp as [-> | ->]; reflexivity.
Qed.

End AsciiInput.

(** ** From the catalogue tabs to the search box *)

Module CatalogSearch.
Import PyStr Pandas Catalog CatalogFacts CatalogRows.

Section Client.

Variable csv : string -> option ascii -> result DataFrame.
Variable draws : list nat.

(** X12.  When the catalogue of a known mission comes back with an ID
    column whose cells are integers from 0 up, every searchable ID of the
    table [fetch_catalog_targets] returns is taken as a numeric ID by
    line 187 when it is copied into the search box, on the handler for
    ASCII text and on the handler for any text alike.  (An ID column that
    pandas reads as floats or as text is outside this statement.) *)
Theorem catalog_ids_are_searched_as_ids (mission_name disposition_type : string)
    (num_targets : Z) (c : selection) (catalog_df df : DataFrame) (i : nat) :
  select_catalog mission_name disposition_type = Some c ->
  csv (url c) None = Ok catalog_df ->
  index_of (id_col c) (columns catalog_df) = Some i ->
  Forall (fun r => exists z, cell i r = VInt z /\ (0 <= z)%Z)
         (rows catalog_df) ->
  outcome (fetch_catalog_targets csv draws mission_name disposition_type
             num_targets) = Ok df ->
  forall row, In row (rows df) ->
    exists s, lookup df "Searchable ID" row = Some (VStr s) /\
              SearchTab.is_id_search s = true /\
              forall T, SearchText.is_id_search T (Unicode.of_ascii s) = true.
Proof.
  intros Hc Hcsv Hi Hint.
  destruct (CatalogCalls.select_catalog_cases _ _ _ Hc)
    as (Hkind & _ & Hcomment).
  rewrite (fetch_catalog_targets_eq csv draws _ _ num_targets c Hc).
  rewrite fetch_selected_eq, Hcomment, Hcsv. cbn [snd].
  unfold get_column.
  destruct (index_of (disposition_col c) (columns catalog_df)) as [d |] eqn:Hd;
    [| cbn; intros H; injection H as <-; intros row []].
  cbv zeta. destruct (empty _);
    [cbn; intros H; injection H as <-; intros row [] |].
  unfold sample.
  destruct (_ <? 0)%Z;
    [cbn; intros H; injection H as <-; intros row [] |].
  destruct (_ <? _)%Z; [cbn; intros H; injection H as <-; intros row [] |].
  pose proof (CatalogCalls.display_shape c (columns catalog_df)
                (sample_rows draws
                   (Z.to_nat (Z.min num_targets
                      (Z.of_nat (len (select_rows
                         (isin (dispositions_to_find c)
                            (map (cell d) (rows catalog_df))) catalog_df)))))
                   (rows (select_rows
                      (isin (dispositions_to_find c)
                         (map (cell d) (rows catalog_df))) catalog_df)))
                d Hkind Hd) as Hshape.
  cbn [columns select_rows]. rewrite Hi in Hshape.
  destruct Hshape as (others & extra & ->).
  cbn [outcome snd]. intros H; injection H as <-.
  cbn [rows]. intros row Hrow.
  apply in_map_iff in Hrow as (r & <- & Hr).
  apply sample_rows_incl in Hr. cbn [rows] in Hr.
  rewrite isin_rows in Hr. apply filter_In in Hr as [Hr _].
  rewrite Forall_forall in Hint. destruct (Hint r Hr) as (z & Hz & Hpos).
  eexists. split.
  - unfold lookup.
    cbn [columns index_of String.eqb Ascii.eqb Bool.eqb option_map cell nth].
    reflexivity.
  - rewrite Hz.
    assert (Hp : prefix c = "TIC " \/ prefix c = "KIC ")
      by (destruct Hkind as [[ds ->] | [ds ->]]; [left | right]; reflexivity).
    split; [exact (SearchRuns.integer_id_is_an_id z _ Hpos Hp) |].
    intros T. exact (AsciiInput.integer_id_is_an_id_text T z _ Hpos Hp).
Qed.

End Client.

(** The planet candidates of the demo catalogue. *)
Lemma catalog_ids_are_searched_as_ids_witness :
  exists df,
    outcome (fetch_catalog_targets Demo.toi_csv [5; 1; 7]%nat
               "TESS" "PLANETS" 25) = Ok df /\
    map (lookup df "Searchable ID") (rows df)
    = [Some (VStr "TIC 400"); Some (VStr "TIC 300"); Some (VStr "TIC 100")] /\
    forall row, In row (rows df) ->
      exists s, lookup df "Searchable ID" row = Some (VStr s) /\
                SearchTab.is_id_search s = true /\
                forall T,
                  SearchText.is_id_search T (Unicode.of_ascii s) = true.
Proof.
  eexists. split; [reflexivity |]. split; [reflexivity |].
  apply (catalog_ids_are_searched_as_ids Demo.toi_csv [5; 1; 7]%nat
           "TESS" "PLANETS" 25 (tess [VStr "CP"; VStr "PC"])
           Demo.toi_table _ 1%nat);
    try reflexivity.
  repeat constructor; eexists; (split; [reflexivity | lia]).
Defined.

End CatalogSearch.

(** ** Choosing the products to process *)

Module SelectFacts.
Import PyStr PyText Pandas Pipeline SelectTab SearchRuns.

Lemma digit_is_not (sep : ascii) (c : ascii) :
  is_digit sep = false -> is_digit c = true -> Ascii.eqb c sep = false.
Proof. intros Hs Hc. apply Ascii.eqb_neq. intros ->. congruence. Qed.

Lemma split_digits (sep : ascii) (d : string) :
  is_digit sep = false -> all_chars is_digit d = true -> split sep d = [d].
Proof.
  intros Hs. induction d as [| c d IH]; [reflexivity |].
  cbn [all_chars split]. intros H. apply andb_true_iff in H as [Hc Hd].
  rewrite (digit_is_not sep c Hs Hc), (IH Hd). reflexivity.
Qed.

(** The last piece of a text that ends with a separator and digits is the
    digits. *)
Lemma split_ends_with_digits (sep : ascii) (p d : string) :
  is_digit sep = false -> all_chars is_digit d = true ->
  exists pieces, split sep (p ++ String sep d) = pieces ++ [d] /\
                 pieces <> [].
Proof.
  intros Hs Hd. induction p as [| c p (pieces & IH & Hne)].
  - exists [EmptyString]. cbn [append split]. rewrite Ascii.eqb_refl.
    rewrite (split_digits sep d Hs Hd). split; [reflexivity | discriminate].
  - cbn [append split]. rewrite IH. destruct (Ascii.eqb c sep).
    + exists (EmptyString :: pieces). split; [reflexivity | discriminate].
    + destruct pieces as [| q qs]; [congruence |].
      exists (String c q :: qs). split; [reflexivity | discriminate].
Qed.

Ltac read_digit :=
  cbn [NilEmpty.string_of_uint int_digits];
  match goal with
  | |- context [is_digit ?c] => change (is_digit c) with true
  end;
  cbv iota.

Ltac next_digit IH :=
  read_digit;
  match goal with
  | |- int_digits true ?z _ = Some (Z.pos (Pos.of_uint_acc _ ?q)) =>
      replace z with (Z.pos q)
        by (unfold digit_value, code; cbn [nat_of_ascii N_of_ascii N_of_digits
              N.to_nat N.add N.mul Pos.to_nat Pos.iter_op Nat.add Nat.sub
              Z.of_nat Pos.of_succ_nat Pos.succ]; lia);
      apply IH
  end.

Lemma int_digits_acc (l : Decimal.uint) :
  forall acc : positive,
    int_digits true (Z.pos acc) (NilEmpty.string_of_uint l)
    = Some (Z.pos (Pos.of_uint_acc l acc)).
Proof.
  induction l as [| l IH | l IH | l IH | l IH | l IH | l IH | l IH | l IH
                  | l IH | l IH]; intros acc; cbn [Pos.of_uint_acc];
    [reflexivity | next_digit IH ..].
Qed.

Lemma int_digits_uint (l : Decimal.uint) :
  forall b : bool,
    l <> Decimal.Nil \/ b = true ->
    int_digits b 0 (NilEmpty.string_of_uint l) = Some (Z.of_N (Pos.of_uint l)).
Proof.
  induction l as [| l IH | l IH | l IH | l IH | l IH | l IH | l IH | l IH
                  | l IH | l IH]; intros b Hb;
    cbn [Pos.of_uint]; [| read_digit ..].
  - destruct Hb as [Hb | ->]; [congruence | reflexivity].
  - apply IH. right. reflexivity.
  - exact (int_digits_acc l 1).
  - exact (int_digits_acc l 2).
  - exact (int_digits_acc l 3).
  - exact (int_digits_acc l 4).
  - exact (int_digits_acc l 5).
  - exact (int_digits_acc l 6).
  - exact (int_digits_acc l 7).
  - exact (int_digits_acc l 8).
  - exact (int_digits_acc l 9).
Qed.

Lemma int_digits_str_of_nat (i : nat) :
  int_digits false 0 (str_of_nat i) = Some (Z.of_nat i).
Proof.
  unfold str_of_nat, str_of_Z. destruct (Z.of_nat i) as [| p | p] eqn:Hi;
    [reflexivity | | lia].
  cbn [Z.to_int NilZero.string_of_int]. unfold NilZero.string_of_uint.
  pose proof (DecimalPos.Unsigned.of_to p) as Hp.
  destruct (Pos.to_uint p) eqn:Hu; [discriminate | ..];
    (rewrite int_digits_uint by (left; discriminate));
    rewrite Hp; reflexivity.
Qed.

Lemma py_int_str_of_nat (i : nat) : py_int (str_of_nat i) = Ok (Z.of_nat i).
Proof.
  pose proof (str_of_Z_digits (Z.of_nat i) (Nat2Z.is_nonneg i)) as Hd.
  fold (str_of_nat i) in Hd.
  pose proof (isdigit_all _ Hd) as Hall.
  unfold py_int, strip.
  rewrite (lstrip_digits _ Hall), (rstrip_digits _ Hall).
  pose proof (int_digits_str_of_nat i) as Hint.
  destruct (str_of_nat i) as [| c rest] eqn:Hs; [discriminate |].
  cbn [all_chars] in Hall. apply andb_true_iff in Hall as [Hc _].
  rewrite (digit_is_not "+" c eq_refl Hc), (digit_is_not "-" c eq_refl Hc).
  rewrite Hint. reflexivity.
Qed.

Lemma option_label_index (i : nat) :
  selected_index (option_label i) = Ok (Z.of_nat i).
Proof.
  unfold selected_index, option_label.
  pose proof (str_of_Z_digits (Z.of_nat i) (Nat2Z.is_nonneg i)) as Hd.
  fold (str_of_nat i) in Hd.
  destruct (split_ends_with_digits "#" "Data Product " (str_of_nat i)
              eq_refl (isdigit_all _ Hd)) as (pieces & Hsplit & _).
  change ("Data Product #" ++ str_of_nat i)%string
    with ("Data Product " ++ String "#" (str_of_nat i))%string.
  rewrite Hsplit. unfold last_piece. rewrite last_last.
  apply py_int_str_of_nat.
Qed.

(** X16.  Reading back the label of an option gives the index it was made
    from: each option of the multiselect stands for one position of the
    search result, and no two positions share a label. *)
Theorem option_label_round_trip (i j : nat) :
  selected_index (option_label i) = Ok (Z.of_nat i) /\
  (option_label i = option_label j -> i = j).
Proof.
  split; [apply option_label_index |].
  intros H. pose proof (option_label_index i) as Hi.
  rewrite H, option_label_index in Hi. injection Hi as Hij. lia.
Qed.

Lemma selected_indices_of_labels (ix : list nat) :
  selected_indices (map option_label ix) = Ok (map Z.of_nat ix).
Proof.
  induction ix as [| i ix IH]; [reflexivity |].
  cbn [map selected_indices]. rewrite option_label_index, IH. reflexivity.
Qed.

Lemma offered_options (count : nat) (selected_options : list string) :
  incl selected_options (options count) ->
  exists ix, selected_options = map option_label ix /\
             Forall (fun i => (i < count)%nat) ix.
Proof.
  induction selected_options as [| opt rest IH]; intros H.
  - exists []. split; [reflexivity | constructor].
  - destruct IH as (ix & -> & Hix);
      [intros x Hx; apply H; right; exact Hx |].
    assert (Hopt : In opt (options count)) by (apply H; left; reflexivity).
    unfold options in Hopt. apply in_map_iff in Hopt as (i & <- & Hi).
    apply in_seq in Hi. exists (i :: ix).
    split; [reflexivity | constructor; [lia | exact Hix]].
Qed.


Section Handler.

Variable L : LightCurveOps.
Variable A : AnalysisOps (LightCurve L).

Local Abbreviation Item := (SearchItem (LightCurve L)).

Variable arrange : list Item -> list Item.

Lemma entry_in_range (search_result : list Item) (i : nat) (d : Item) :
  (i < List.length search_result)%nat ->
  entry L search_result (Z.of_nat i) = Ok (nth i search_result d).
Proof.
  intros Hi. unfold entry.
  destruct (Z.ltb_spec (Z.of_nat i) 0); [lia |].
  destruct (Z.leb_spec 0 (Z.of_nat i)); [| lia].
  destruct (Z.ltb_spec (Z.of_nat i) (Z.of_nat (List.length search_result)));
    [| lia].
  cbn [andb]. rewrite Nat2Z.id.
  rewrite (nth_error_nth' search_result d Hi). reflexivity.
Qed.

Lemma rows_at_in_range (search_result : list Item) (d : Item)
    (ix : list nat) :
  Forall (fun i => (i < List.length search_result)%nat) ix ->
  rows_at L search_result (map Z.of_nat ix)
  = Ok (map (fun i => nth i search_result d) ix).
Proof.
  induction 1 as [| i ix Hi _ IH]; [reflexivity |].
  cbn [map rows_at]. rewrite (entry_in_range _ _ d Hi), IH. reflexivity.
Qed.

Lemma process_button_of_labels (search_result : list Item) (d : Item)
    (ix : list nat) :
  ix <> [] ->
  Forall (fun i => (i < List.length search_result)%nat) ix ->
  process_button L A arrange search_result (map option_label ix)
  = process_selected_data L A
      (arrange (map (fun i => nth i search_result d) ix)).
Proof.
  intros Hne Hix. unfold process_button.
  destruct ix as [| i ix]; [congruence |].
  cbn [map].
  change (option_label i :: map option_label ix)
    with (map option_label (i :: ix)).
  rewrite selected_indices_of_labels. cbn [lift bind].
  unfold entries.
  destruct search_result as [| first others] eqn:Hsr.
  { inversion Hix as [| ? ? Hi _]; subst. simpl in Hi. lia. }
  rewrite <- Hsr in *.
  rewrite (rows_at_in_range search_result d (i :: ix) Hix). cbn [map bind].
  destruct (process_selected_data L A _) as [t r]. reflexivity.
Qed.

(** X17.  Whatever the user picks among the options on offer, and in
    whatever order, every pick reads back as a position of the search
    result, no index is out of range, and the pipeline runs on the
    products at those positions, in the order in which lightkurve
    arranges the search result it builds from them, which need not be the
    order of the picks. *)
Theorem picked_options_are_processed (search_result : list Item)
    (selected_options : list string) (d : Item) :
  selected_options <> [] ->
  incl selected_options (options (List.length search_result)) ->
  exists ix,
    selected_options = map option_label ix /\
    Forall (fun i => (i < List.length search_result)%nat) ix /\
    process_button L A arrange search_result selected_options
    = process_selected_data L A
        (arrange (map (fun i => nth i search_result d) ix)).
Proof.
  intros Hne Hincl.
  destruct (offered_options _ _ Hincl) as (ix & -> & Hix).
  exists ix. split; [reflexivity |]. split; [exact Hix |].
  apply process_button_of_labels; [| exact Hix].
  intros ->. apply Hne. reflexivity.
Qed.


End Handler.

Example option_label_of_12 : option_label 12 = "Data Product #12".
Proof. reflexivity. Qed.

(** The thirteenth option. *)
Lemma option_label_round_trip_witness :
  selected_index "Data Product #12" = Ok 12%Z /\
  (option_label 12 = option_label 12 -> 12%nat = 12%nat).
Proof. exact (option_label_round_trip 12 12). Defined.

(** The second of two products picked, then the first, with a sort order
    that puts a product whose download is null in front: the pipeline
    takes the first product first. *)
Lemma picked_options_are_processed_witness :
  exists ix,
    ["Data Product #1"; "Data Product #0"] = map option_label ix /\
    Forall (fun i => (i < 2)%nat) ix /\
    process_button Demo.curves Demo.search Samples.null_first
      [ {| download := Ok None |}; {| download := Ok (Some tt) |} ]
      ["Data Product #1"; "Data Product #0"]
    = process_selected_data Demo.curves Demo.search
        (Samples.null_first
           (map (fun i => nth i [ {| download := Ok None |};
                                  {| download := Ok (Some tt) |} ]
                            {| download := Ok None |}) ix)).
Proof.
  apply (picked_options_are_processed Demo.curves Demo.search
           Samples.null_first
           [ {| download := Ok None |}; {| download := Ok (Some tt) |} ]
           ["Data Product #1"; "Data Product #0"] {| download := Ok None |}).
  - discriminate.
  - intros x [<- | [<- | []]]; cbn; auto.
Defined.

Example picks_are_rearranged :
  entries Demo.curves Samples.null_first
    [ {| download := Ok None |}; {| download := Ok (Some tt) |} ]
    [1; 0]%Z
  = Ok [ {| download := Ok None |}; {| download := Ok (Some tt) |} ].
Proof. reflexivity. Qed.


End SelectFacts.

(** ** The link column of the search result *)

Module LinkFacts.
Import PyStr Pandas Catalog CatalogFacts SelectTab.

Lemma index_of_app (l x : string) (labels : list string) :
  forall j, index_of l labels = Some j -> index_of l (labels ++ [x]) = Some j.
Proof.
  induction labels as [| a labels IH]; intros j H; [discriminate |].
  cbn [index_of app] in *. destruct (String.eqb l a); [exact H |].
  destruct (index_of l labels) as [k |]; [| discriminate].
  rewrite (IH k eq_refl). exact H.
Qed.

Lemma index_of_new (x : string) (labels : list string) :
  ~ In x labels -> index_of x (labels ++ [x]) = Some (List.length labels).
Proof.
  induction labels as [| a labels IH]; intros H.
  - cbn. rewrite String.eqb_refl. reflexivity.
  - cbn [index_of app List.length].
    assert (Hxa : String.eqb x a = false).
    { apply String.eqb_neq. intros ->. apply H. left. reflexivity. }
    rewrite Hxa, IH; [reflexivity |]. intros Hin. apply H. right. exact Hin.
Qed.

Lemma index_of_absent (x : string) (labels : list string) :
  ~ In x labels -> index_of x labels = None.
Proof.
  induction labels as [| a labels IH]; intros H; [reflexivity |].
  cbn [index_of].
  assert (Hxa : String.eqb x a = false).
  { apply String.eqb_neq. intros ->. apply H. left. reflexivity. }
  rewrite Hxa, IH; [reflexivity |]. intros Hin. apply H. right. exact Hin.
Qed.

(** X19.  Lines 206-210 leave the table of the search result as it is and add
    one cell to each row: the address of the TESS page of the row's
    [TIC ID], or, when the table has no such column, of the Kepler page
    of its [KIC ID].  Every cell that was in the table is found again
    under its label, and the new cell is found under [Archive Link]. *)
Theorem archive_links_extend_the_table (results_df : DataFrame)
    (label base : string) (i : nat) :
  (label = "TIC ID" /\ base = tess_link) \/
  (label = "KIC ID" /\ base = kepler_link /\
   has_column "TIC ID" (columns results_df) = false) ->
  index_of label (columns results_df) = Some i ->
  ~ In "Archive Link" (columns results_df) ->
  rectangular results_df ->
  let linked := with_archive_links results_df in
  let link r := VStr (base ++ astype_str (cell i r)) in
  rows linked = map (fun r => r ++ [link r]) (rows results_df) /\
  forall r, In r (rows results_df) ->
    lookup linked "Archive Link" (r ++ [link r]) = Some (link r) /\
    forall l v, lookup results_df l r = Some v ->
                lookup linked l (r ++ [link r]) = Some v.
Proof.
  intros Hlabel Hi Hnew Hrect linked link.
  assert (Hlinked : linked
    = {| columns := columns results_df ++ ["Archive Link"];
         rows := map (fun r => r ++ [link r]) (rows results_df) |}).
  { subst linked link. unfold with_archive_links, get_column.
    destruct Hlabel as [[-> ->] | (-> & -> & Hno)].
    - rewrite Hi. unfold set_column, prefixed.
      rewrite (index_of_absent _ _ Hnew), map_map, combine_with_map.
      reflexivity.
    - unfold has_column in Hno.
      destruct (index_of "TIC ID" (columns results_df)); [discriminate |].
      rewrite Hi. unfold set_column, prefixed.
      rewrite (index_of_absent _ _ Hnew), map_map, combine_with_map.
      reflexivity. }
  rewrite Hlinked. cbn [rows]. split; [reflexivity |].
  intros r Hr.
  assert (Hlen : List.length r = List.length (columns results_df)).
  { unfold rectangular in Hrect. rewrite Forall_forall in Hrect.
    exact (Hrect r Hr). }
  unfold lookup. cbn [columns]. split.
  - rewrite (index_of_new _ _ Hnew). cbn [option_map]. f_equal.
    unfold cell. rewrite <- Hlen, nth_middle. reflexivity.
  - intros l v Hv.
    destruct (index_of l (columns results_df)) as [j |] eqn:Hj;
      [| discriminate].
    rewrite (index_of_app l _ _ j Hj). cbn [option_map] in *.
    injection Hv as <-. f_equal. unfold cell.
    apply app_nth1. rewrite Hlen. exact (index_of_lt _ _ _ Hj).
Qed.

(** A search result of two TESS products. *)
Lemma archive_links_extend_the_table_witness :
  rows (with_archive_links
          {| columns := ["TIC ID"; "mission"];
             rows := [ [VInt 261136679; VStr "TESS Sector 01"];
                       [VInt 261136679; VStr "TESS Sector 02"] ] |})
  = [ [VInt 261136679; VStr "TESS Sector 01";
       VStr "https://exofop.ipac.caltech.edu/tess/target.php?id=261136679"];
      [VInt 261136679; VStr "TESS Sector 02";
       VStr "https://exofop.ipac.caltech.edu/tess/target.php?id=261136679"] ].
Proof.
  refine (proj1 (archive_links_extend_the_table
            {| columns := ["TIC ID"; "mission"];
               rows := [ [VInt 261136679; VStr "TESS Sector 01"];
                         [VInt 261136679; VStr "TESS Sector 02"] ] |}
            "TIC ID" tess_link 0 _ eq_refl _ _)).
  - left. split; reflexivity.
  - cbn. intros [H | [H | []]]; discriminate.
  - repeat constructor.
Defined.

End LinkFacts.

(** ** The session state *)

Module SessionFacts.
Import Session.

Section State.

Variable V : Type.

Lemma lookup_app (key : string) (s1 s2 : state V) :
  lookup V key (s1 ++ s2)
  = match lookup V key s1 with
    | Some v => Some v
    | None => lookup V key s2
    end.
Proof.
  induction s1 as [| [k v] s1 IH]; [reflexivity |].
  cbn [app lookup]. destruct (String.eqb key k); [reflexivity | exact IH].
Qed.

Lemma lookup_init_key (key k : string) (s : state V) :
  lookup V key (init_key V s k)
  = match lookup V key s with
    | Some v => Some v
    | None => if String.eqb key k then Some None else None
    end.
Proof.
  unfold init_key. destruct (lookup V k s) as [w |] eqn:Hk.
  - destruct (lookup V key s) as [v |] eqn:Hkey; [reflexivity |].
    destruct (String.eqb key k) eqn:E; [| reflexivity].
    apply String.eqb_eq in E. subst. congruence.
  - rewrite lookup_app. cbn [lookup]. destruct (lookup V key s); reflexivity.
Qed.

Lemma lookup_fold (key : string) (ks : list string) :
  forall s : state V,
    lookup V key (fold_left (init_key V) ks s)
    = match lookup V key s with
      | Some v => Some v
      | None => if existsb (String.eqb key) ks then Some None else None
      end.
Proof.
  induction ks as [| k ks IH]; intros s; cbn [fold_left existsb].
  - destruct (lookup V key s); reflexivity.
  - rewrite IH, lookup_init_key.
    destruct (lookup V key s); [reflexivity |].
    destruct (String.eqb key k); [reflexivity |].
    destruct (existsb (String.eqb key) ks); reflexivity.
Qed.

Lemma fold_bound (ks : list string) :
  forall s : state V,
    (forall k, In k ks -> lookup V k s <> None) ->
    fold_left (init_key V) ks s = s.
Proof.
  induction ks as [| k ks IH]; intros s H; [reflexivity |].
  cbn [fold_left]. unfold init_key at 2.
  destruct (lookup V k s) eqn:Hk.
  - apply IH. intros k' Hk'. apply H. right. exact Hk'.
  - exfalso. exact (H k (or_introl eq_refl) Hk).
Qed.

(** X20.  The initialisation of the session never changes what a key already
    holds, binds each of the four keys of the script that was missing to
    [None], adds no other key, and changes nothing when it runs again,
    as it does on every rerun of the script. *)
Theorem init_completes_the_session (s : state V) :
  (forall key v, lookup V key s = Some v -> lookup V key (init V s) = Some v) /\
  (forall key, In key session_keys -> lookup V key s = None ->
               lookup V key (init V s) = Some None) /\
  (forall key, ~ In key session_keys ->
               lookup V key (init V s) = lookup V key s) /\
  init V (init V s) = init V s.
Proof.
  unfold init. repeat split.
  - intros key v H. rewrite lookup_fold, H. reflexivity.
  - intros key Hin H. rewrite lookup_fold, H.
    assert (Hex : existsb (String.eqb key) session_keys = true).
    { apply existsb_exists. exists key. split; [exact Hin |].
      apply String.eqb_refl. }
    rewrite Hex. reflexivity.
  - intros key Hout. rewrite lookup_fold.
    destruct (lookup V key s); [reflexivity |].
    destruct (existsb (String.eqb key) session_keys) eqn:Hex; [| reflexivity].
    apply existsb_exists in Hex as (k & Hk & E).
    apply String.eqb_eq in E. subst. contradiction.
  - apply fold_bound. intros k Hk. rewrite lookup_fold.
    assert (Hex : existsb (String.eqb k) session_keys = true).
    { apply existsb_exists. exists k. split; [exact Hk |].
      apply String.eqb_refl. }
    rewrite Hex. destruct (lookup V k s); discriminate.
Qed.

End State.

(** A session that holds a search result from an earlier run. *)
Lemma init_completes_the_session_witness :
  lookup nat "search_result" (init nat [("search_result", Some 7%nat)])
  = Some (Some 7%nat) /\
  lookup nat "untested_results" (init nat [("search_result", Some 7%nat)])
  = Some None.
Proof.
  pose proof (init_completes_the_session nat [("search_result", Some 7%nat)])
    as (Hkeep & Hnew & _).
  split.
  - exact (Hkeep "search_result" (Some 7%nat) eq_refl).
  - apply (Hnew "untested_results"); [| reflexivity].
    right. right. right. left. reflexivity.
Defined.

End SessionFacts.

(** ** The catalogue tabs *)

Module TabFacts.
Import Pandas Catalog CatalogFacts CatalogRows CatalogCalls Tabs.

Lemma tables_app (p1 p2 : list element) :
  tables (p1 ++ p2) = tables p1 ++ tables p2.
Proof. apply flat_map_app. Qed.

Lemma ran_app (p1 p2 : list element) : ran (p1 ++ p2) = ran p1 ++ ran p2.
Proof. apply flat_map_app. Qed.

Lemma tables_of_effects (t : trace) : tables (map Ran t) = [].
Proof. induction t as [| e t IH]; [reflexivity | exact IH]. Qed.

Lemma ran_of_effects (t : trace) : ran (map Ran t) = t.
Proof. induction t as [| e t IH]; [reflexivity | cbn; f_equal; exact IH]. Qed.

Lemma on_click_tables (clicked : bool) (spinner : string)
    (call : M DataFrame) (held : option DataFrame) :
  tables (fst (on_click clicked spinner call held)) = [].
Proof.
  unfold on_click. destruct clicked; [| reflexivity].
  destruct call as [t [df | e]]; cbn [fst tables flat_map app];
    apply tables_of_effects.
Qed.

(** A tab shows the table it holds, and only when the table has a row and
    a column. *)
Lemma tab_tables (intro : list element)
    (button : list element * result (option DataFrame))
    (nothing title hint : string) (df : DataFrame) :
  tables intro = [] -> tables (fst button) = [] ->
  In df (tables (fst (tab intro button nothing title hint))) ->
  empty df = false /\
  snd (tab intro button nothing title hint) = Ok (Some df).
Proof.
  intros Hintro Hbutton. unfold tab.
  destruct button as [page [[held |] | e]]; cbn [fst snd] in *;
    rewrite ?tables_app, Hintro, Hbutton; cbn [app shown tables flat_map];
    try (intros []).
  destruct (empty held) eqn:He; cbn; [intros [] |].
  intros [<- | []]. split; [exact He | reflexivity].
Qed.

Lemma untested_returns (csv : string -> option ascii -> result DataFrame)
    (tic : string -> Z * Z -> Z * Z -> Z -> result DataFrame) (n : Z) :
  exists df, outcome (fetch_untested_targets csv tic n) = Ok df.
Proof.
  unfold fetch_untested_targets.
  destruct (untested_body csv tic n) as [t [df | e]]; eexists; reflexivity.
Qed.

Section Page.

Variable csv : string -> option ascii -> result DataFrame.
Variable tic : string -> Z * Z -> Z * Z -> Z -> result DataFrame.
Variable draws : list nat.

(** X21.  None of the three tabs ever shows a table without rows: a table on
    the page is the one the session holds after the run, and it has at
    least one row and one column. *)
Theorem tabs_show_no_empty_table (mission_choice : string) (clicked : bool)
    (held : option DataFrame) (df : DataFrame) :
  (In df (tables (fst (planets_tab csv draws mission_choice clicked held))) ->
   empty df = false /\
   snd (planets_tab csv draws mission_choice clicked held) = Ok (Some df)) /\
  (In df (tables (fst (fps_tab csv draws mission_choice clicked held))) ->
   empty df = false /\
   snd (fps_tab csv draws mission_choice clicked held) = Ok (Some df)) /\
  (In df (tables (fst (untested_tab csv tic clicked held))) ->
   empty df = false /\
   snd (untested_tab csv tic clicked held) = Ok (Some df)).
Proof.
  unfold planets_tab, fps_tab, untested_tab.
  split; [| split]; intros H;
    (eapply tab_tables; [| | exact H];
     [reflexivity | apply on_click_tables]).
Qed.

(** X22.  A click whose fetch ended with a warning leaves the empty table in
    the session, in the place of whatever table was held before, and the
    tab reports it a second time: after the warning of the fetch comes
    the error that no targets were found; no table is shown. *)
Theorem failed_fetch_is_reported_as_nothing_found (mission_choice : string)
    (held : option DataFrame) :
  warnings (effects (fetch_catalog_targets csv draws mission_choice
                       "PLANETS" 25)) <> [] ->
  let page := planets_tab csv draws mission_choice true held in
  snd page = Ok (Some empty_frame) /\
  tables (fst page) = [] /\
  errors (ran (fst page))
  = [StError "No targets were found. This could be a temporary issue with the data archive."] /\
  warnings (ran (fst page)) <> [].
Proof.
  intros Hw page. subst page.
  destruct (warning_means_empty csv draws mission_choice "PLANETS" 25)
    as [_ Hempty].
  specialize (Hempty Hw). unfold planets_tab, on_click.
  destruct (fetch_catalog_targets csv draws mission_choice "PLANETS" 25)
    as [t r] eqn:Hrun.
  cbn [outcome effects fst snd] in *. subst r.
  cbn [tab fst snd shown empty empty_frame columns].
  rewrite !tables_app, !ran_app.
  cbn [tables ran flat_map app planets_intro].
  rewrite tables_of_effects, ran_of_effects.
  repeat split.
  - unfold errors in *. cbn [filter is_error]. rewrite filter_app.
    cbn [filter is_error].
    assert (Hq : filter is_error t = []).
    { pose proof (call_shape csv draws mission_choice "PLANETS" 25)
        as Hshape. cbv zeta in Hshape. rewrite Hrun in Hshape.
      destruct Hshape as [H | (u & _ & [(df & H) | (w & H)])];
        inversion H; reflexivity. }
    rewrite Hq. reflexivity.
  - unfold warnings in *. cbn [filter is_warning]. rewrite filter_app.
    intros H. apply app_eq_nil in H as [H _]. exact (Hw H).
Qed.

(** X23.  After a click, every row of a table the false-positives tab shows
    has the status of a false positive, [FP] from the TESS table or
    [FALSE POSITIVE] from the Kepler table, and there are at most 25
    rows. *)
Theorem fps_tab_shows_false_positives (mission_choice : string)
    (held : option DataFrame) (df : DataFrame) :
  In df (tables (fst (fps_tab csv draws mission_choice true held))) ->
  (len df <= 25)%nat /\
  forall row, In row (rows df) ->
    lookup df "Status" row = Some (VStr "FP") \/
    lookup df "Status" row = Some (VStr "FALSE POSITIVE").
Proof.
  intros H.
  eapply tab_tables in H; [| reflexivity | apply on_click_tables].
  destruct H as [_ H]. unfold fps_tab, on_click in H.
  pose proof (rows_fit csv draws mission_choice "FALSE_POSITIVES" 25) as Hfit.
  destruct (fetch_catalog_targets csv draws mission_choice "FALSE_POSITIVES" 25)
    as [t [df' | e]]; cbn [tab snd] in H; [| discriminate].
  injection H as ->. destruct (Hfit df eq_refl) as [Hlen Hrows].
  split; [exact Hlen |]. intros row Hrow.
  destruct (Hrows row Hrow) as (c & Hc & _ & v & Hv & Hin).
  unfold select_catalog in Hc.
  destruct (String.eqb mission_choice "TESS").
  - injection Hc as <-. cbn in Hin. destruct Hin as [<- | []]. left. exact Hv.
  - destruct (_ || _); [| discriminate].
    injection Hc as <-. cbn in Hin. destruct Hin as [<- | []].
    right. exact Hv.
Qed.

End Page.

(** The archive is out of reach when the planets button is clicked while
    the session still holds a table. *)
Lemma failed_fetch_is_reported_as_nothing_found_witness :
  snd (planets_tab Demo.failing_csv [] "TESS" true (Some Demo.toi_table))
  = Ok (Some empty_frame).
Proof.
  refine (proj1 (failed_fetch_is_reported_as_nothing_found Demo.failing_csv []
                   "TESS" (Some Demo.toi_table) _)).
  discriminate.
Defined.

(** The false positive of a table of four objects. *)
Lemma fps_tab_shows_false_positives_witness :
  exists df,
    tables (fst (fps_tab Demo.toi_csv [] "TESS" true None)) = [df] /\
    forall row, In row (rows df) ->
      lookup df "Status" row = Some (VStr "FP") \/
      lookup df "Status" row = Some (VStr "FALSE POSITIVE").
Proof.
  eexists. split; [reflexivity |].
  refine (proj2 (fps_tab_shows_false_positives Demo.toi_csv [] "TESS" None
                   _ _)).
  left. reflexivity.
Defined.

(** The planets tab shows the candidates of a table of four objects. *)
Lemma tabs_show_no_empty_table_witness :
  exists df,
    tables (fst (planets_tab Demo.toi_csv [5; 1; 7]%nat "TESS" true None))
    = [df] /\ empty df = false.
Proof.
  eexists. split; [reflexivity |].
  refine (proj1 (proj1 (tabs_show_no_empty_table Demo.toi_csv Demo.star_query
                          [5; 1; 7]%nat "TESS" true None _) _)).
  left. reflexivity.
Defined.

End TabFacts.
